(** * Nuisance-regression utilities of C-PAC ([CPAC/nuisance/utils.py])

    A shallow embedding of the five pieces of [CPAC/nuisance/utils.py]:

    - [find_offending_time_points]   (motion censoring),
    - [create_temporal_variance_mask] (temporal-variance masking),
    - [generate_summarize_tissue_mask] (memoised mask derivation),
    - [summarize_timeseries]          (summary regressors),
    - [NuisanceRegressor.__repr__]    (canonical selector string),

    followed by the properties proved about them.

    Conventions of the embedding.

    - Python values that come from the configuration are [pyval]s; a
      [dict] is an association list in insertion order.
    - Numbers are exact rationals ([Q]).  The two irrational library
      operations are handled explicitly: a threshold [mean + k * std] is
      kept as the triple (mean, k, variance) and compared through squares;
      the matrix 2-norm and the singular value decomposition are
      parameters of the functions that call them.
    - [float] applied to a string is Python's built-in; it is the
      parameter [float_of_str].
    - An exception is a value of [exn]; a function that can raise returns
      [result].  Files are modelled by what loading them yields. *)

From Stdlib Require Import ZArith QArith Qround Qabs List String Ascii Bool Lia Permutation.
From Stdlib Require OrderedTypeEx.
From stdpp Require Import base gmap strings list pretty.
Import ListNotations.

Close Scope Q_scope.
Local Open Scope string_scope.
Set Warnings "-register-all".

(* ===================================================================== *)
(** * Python values, exceptions, and the library functions used          *)
(* ===================================================================== *)

Module Py.

(** Configuration values as loaded from YAML/JSON. *)
Inductive pyval : Type :=
| PNone
| PBool (b : bool)
| PInt (z : Z)
| PFloat (q : Q)
| PStr (s : string)
| PList (l : list pyval)
| PDict (d : list (string * pyval)).

(** Exceptions raised by the code or by the library calls it makes. *)
Inductive exn : Type :=
| ValueError (msg : string)
| KeyError (key : string)
| TypeError
| NameError
| IOError.

Inductive result (A : Type) : Type :=
| Ok (a : A)
| Raise (e : exn).
Arguments Ok {A} a.
Arguments Raise {A} e.

(** Sequencing of computations that may raise, in stdpp's monad notation
    ([x ← r; k]). *)
#[export] Instance result_bind : MBind result :=
  fun A B (k : A -> result B) (r : result A) =>
    match r with
    | Ok a => k a
    | Raise e => Raise e
    end.

#[export] Instance result_ret : MRet result := fun A (a : A) => Ok a.

(** [bool(v)]: Python truthiness. *)
Definition truthy (v : pyval) : bool :=
  match v with
  | PNone => false
  | PBool b => b
  | PInt z => negb (z =? 0)%Z
  | PFloat q => negb (Qeq_bool q 0)
  | PStr s => negb (String.eqb s "")
  | PList l => match l with [] => false | _ => true end
  | PDict d => match d with [] => false | _ => true end
  end.

(** [d.get(key)] on an insertion-ordered dict. *)
Fixpoint dict_get (d : list (string * pyval)) (key : string) : option pyval :=
  match d with
  | [] => None
  | (k, v) :: d' => if String.eqb k key then Some v else dict_get d' key
  end.

(** [d[key]]. *)
Definition dict_item (d : list (string * pyval)) (key : string) : result pyval :=
  match dict_get d key with
  | Some v => Ok v
  | None => Raise (KeyError key)
  end.

(** ** Rational helpers *)

Definition Qltb (x y : Q) : bool := negb (Qle_bool y x).

Definition Qsum (l : list Q) : Q := fold_right Qplus 0%Q l.

Definition Qlen (l : list Q) : Q := inject_Z (Z.of_nat (length l)).

(** [a.mean()] *)
Definition mean (l : list Q) : Q := (Qsum l / Qlen l)%Q.

(** [a.var()]: the population variance (numpy's default [ddof=0]);
    [a.std()] is its square root. *)
Definition var (l : list Q) : Q :=
  let m := mean l in
  mean (List.map (fun x => ((x - m) * (x - m))%Q) l).

(** A resolved threshold: a plain number, or [mean + k * std] with the
    standard deviation kept as the square root of [variance]. *)
Inductive cutoff : Type :=
| Cut (c : Q)
| CutSD (mean k variance : Q).

(** [x > cutoff], decided exactly (the program compares the doubles
    nearest to the two sides).  With [d = x - mean] and
    [s = sqrt variance >= 0], [d > k * s] is decided on the sign of [k]
    by comparing [d * d] with [k * k * variance]. *)
Definition exceeds (x : Q) (c : cutoff) : bool :=
  match c with
  | Cut c => Qltb c x
  | CutSD m k v =>
      let d := (x - m)%Q in
      if Qle_bool 0 k
      then Qltb 0 d && Qltb (k * k * v) (d * d)
      else Qltb 0 d
           || (Qle_bool 0 d && Qltb 0 v)
           || (Qltb d 0 && Qltb (d * d) (k * k * v))
  end.

(** ** Characters and the regular expressions of the module *)

Definition is_digit (c : ascii) : bool :=
  let n := nat_of_ascii c in (48 <=? n)%nat && (n <=? 57)%nat.

Definition is_dot (c : ascii) : bool := (nat_of_ascii c =? 46)%nat.

(** [\s] on ASCII: space, tab, newline, carriage return, form feed,
    vertical tab. *)
Definition is_space (c : ascii) : bool :=
  let n := nat_of_ascii c in
  (n =? 32)%nat || ((9 <=? n)%nat && (n <=? 13)%nat).

(** [\w] on ASCII: letters, digits and the underscore. *)
Definition is_word (c : ascii) : bool :=
  let n := nat_of_ascii c in
  is_digit c
  || ((65 <=? n)%nat && (n <=? 90)%nat)
  || ((97 <=? n)%nat && (n <=? 122)%nat)
  || (n =? 95)%nat.

(** The longest prefix of [s] whose characters satisfy [p], and the rest. *)
Fixpoint span (p : ascii -> bool) (s : string) : string * string :=
  match s with
  | EmptyString => (EmptyString, EmptyString)
  | String c s' =>
      if p c
      then let '(a, b) := span p s' in (String c a, b)
      else (EmptyString, s)
  end.

(** [re.match] of the threshold pattern of [find_offending_time_points]:
    a group made of digits, then dots, then digits (each run possibly
    empty), followed by optional white space and the letters SD.  Returns
    the captured group when the pattern matches at the start of [s].  The
    character classes are pairwise disjoint and none contains the letter
    S, so the greedy split is the only candidate. *)
Definition match_loose_sd (s : string) : option string :=
  let '(d1, r1) := span is_digit s in
  let '(dots, r2) := span is_dot r1 in
  let '(d2, r3) := span is_digit r2 in
  let '(_, r4) := span is_space r3 in
  if String.prefix "SD" r4 then Some (d1 ++ dots ++ d2) else None.

(** [re.match] of the threshold patterns of
    [create_temporal_variance_mask]: a group made of one or more digits
    and an optional fraction (a dot and one or more digits), followed by
    optional white space and [suffix].  Returns the captured group. *)
Definition match_number_suffix (suffix s : string) : option string :=
  let '(d1, r1) := span is_digit s in
  if String.eqb d1 "" then None
  else
    let '(num, r2) :=
      match r1 with
      | String c r1' =>
          if is_dot c
          then let '(d2, r2) := span is_digit r1' in
               if String.eqb d2 "" then (d1, r1)
               else (d1 ++ String c d2, r2)
          else (d1, r1)
      | EmptyString => (d1, r1)
      end in
    let '(_, r3) := span is_space r2 in
    if String.prefix suffix r3 then Some num else None.

(** [re.sub] replacing every character that is not a word character by
    an underscore. *)
Fixpoint sub_non_word (s : string) : string :=
  match s with
  | EmptyString => EmptyString
  | String c s' => String (if is_word c then c else "_"%char) (sub_non_word s')
  end.

(** [sep.join(l)] *)
Fixpoint join (sep : string) (l : list string) : string :=
  match l with
  | [] => ""
  | [x] => x
  | x :: l' => x ++ sep ++ join sep l'
  end.

Section Float.

(** Python's [float(s)] on a string; [None] when it raises. *)
Variable float_of_str : string -> option Q.

(** [float(v)] *)
Definition to_float (v : pyval) : option Q :=
  match v with
  | PBool b => Some (if b then 1%Q else 0%Q)
  | PInt z => Some (inject_Z z)
  | PFloat q => Some q
  | PStr s => float_of_str s
  | PNone | PList _ | PDict _ => None
  end.

End Float.

(** A reading of decimal literals on which Python's [float] agrees:
    optional white space around an optional sign, digits with an optional
    fraction ([digits], [digits.digits], [digits.], [.digits]) and an
    optional exponent.  The texts [float] reads as an infinity or as
    not-a-number have no rational value and are not read, nor are the
    underscores later versions of Python allow between digits.  Used
    where a concrete [float_of_str] is needed to evaluate the
    functions. *)
Definition digit_val (c : ascii) : Z := Z.of_nat (nat_of_ascii c) - 48.

Fixpoint digits_val (acc : Z) (s : string) : Z :=
  match s with
  | EmptyString => acc
  | String c s' => digits_val (10 * acc + digit_val c) s'
  end.

(** [s.rstrip()] *)
Fixpoint rstrip (s : string) : string :=
  match s with
  | EmptyString => EmptyString
  | String c s' =>
      let r := rstrip s' in
      if is_space c && String.eqb r "" then EmptyString else String c r
  end.

(** [s.strip()] *)
Definition strip (s : string) : string := rstrip (snd (span is_space s)).

(** An optional sign: the factor it stands for, and the rest. *)
Definition read_sign (s : string) : Z * string :=
  match s with
  | String "-"%char r => ((-1)%Z, r)
  | String "+"%char r => (1%Z, r)
  | _ => (1%Z, s)
  end.

(** The digits and the fraction: their value, and the rest. *)
Definition read_mantissa (s : string) : option (Q * string) :=
  let '(ip, r1) := span is_digit s in
  match r1 with
  | String c r1' =>
      if is_dot c then
        let '(fp, r2) := span is_digit r1' in
        if String.eqb ip "" && String.eqb fp "" then None
        else Some (Qmake (digits_val 0 (ip ++ fp))
                         (Z.to_pos (10 ^ Z.of_nat (String.length fp))), r2)
      else if String.eqb ip "" then None
      else Some (inject_Z (digits_val 0 ip), r1)
  | EmptyString =>
      if String.eqb ip "" then None
      else Some (inject_Z (digits_val 0 ip), r1)
  end.

(** The exponent, which ends the text: the power of ten it stands for. *)
Definition read_exponent (s : string) : option Z :=
  match s with
  | EmptyString => Some 0%Z
  | String c r =>
      if Ascii.eqb c "e"%char || Ascii.eqb c "E"%char then
        let '(sign, r1) := read_sign r in
        let '(digits, r2) := span is_digit r1 in
        if String.eqb digits "" || negb (String.eqb r2 "") then None
        else Some (sign * digits_val 0 digits)%Z
      else None
  end.

Definition float_of_decimal (s : string) : option Q :=
  let '(sign, r) := read_sign (strip s) in
  match read_mantissa r with
  | None => None
  | Some (m, r1) =>
      match read_exponent r1 with
      | None => None
      | Some e =>
          Some (inject_Z sign * m
                * (if (e <? 0)%Z
                   then Qmake 1 (Z.to_pos (10 ^ (- e)))
                   else inject_Z (10 ^ e)))%Q
      end
  end.

End Py.


(* ===================================================================== *)
(** * [find_offending_time_points]                                       *)
(* ===================================================================== *)

Module Censor.
Import Py.

(** What a path argument ([fd_file_path], [dvars_file_path]) stands for:
    no path ([None] or the empty string), a path that is not a file, or the
    single column [np.loadtxt] reads from it (a one-dimensional array, one
    value per time point).  A file of one value, which [np.loadtxt] reads
    as a number and not as a series, a file of several columns and a file
    that cannot be parsed are not represented. *)
Inductive series_file : Type :=
| NoPath
| NotAFile
| Loaded (xs : list Q).

Definition msg_fd_not_found : string :=
  "Framewise displacement file {0} could not be found.".
Definition msg_fd_threshold_missing : string :=
  "Method FD requires the specification of a framewise displacement threshold, none received".
Definition msg_fd_threshold_invalid : string :=
  "Could not translate fd_threshold {0} into a meaningful value".
Definition msg_dvars_not_found : string :=
  "DVARS file {0} could not be found.".
Definition msg_dvars_threshold_missing : string :=
  "Method DVARS requires the specification of a DVARS threshold, none received".
Definition msg_dvars_threshold_invalid : string :=
  "Could not translate dvars_threshold {0} into a meaningful value".

(** [range(a, b)] *)
Definition zrange (a b : Z) : list Z :=
  List.map (fun i => (a + Z.of_nat i)%Z) (seq 0 (Z.to_nat (b - a))).

(** [np.where(series > c)[0].tolist()], indices counted from [i]. *)
Fixpoint where_from (i : Z) (series : list Q) (c : cutoff) : list Z :=
  match series with
  | [] => []
  | x :: series' =>
      if exceeds x c
      then i :: where_from (i + 1) series' c
      else where_from (i + 1) series' c
  end.

Definition where_exceeds (series : list Q) (c : cutoff) : list Z :=
  where_from 0 series c.

(** [x in l] on integers. *)
Definition zmem (x : Z) (l : list Z) : bool := existsb (Z.eqb x) l.

(** [list(set(a).intersection(b))]; the order in which Python lists a set
    is not specified, the order of [a] is used here. *)
Definition intersection (a b : list Z) : list Z :=
  List.filter (fun i => zmem i b) a.

(** [np.unique]: the sorted distinct elements. *)
Fixpoint insert_unique (x : Z) (l : list Z) : list Z :=
  match l with
  | [] => [x]
  | y :: l' =>
      if (x <? y)%Z then x :: l
      else if (x =? y)%Z then l
      else y :: insert_unique x l'
  end.

Definition np_unique (l : list Z) : list Z := fold_right insert_unique [] l.

Section WithFloat.

Variable float_of_str : string -> option Q.

(** The [try] block that turns a threshold into a number: a string
    matching the SD pattern gives [mean + k * std] of the series it
    thresholds, anything else goes through [float].  [None] stands for the
    exception the bare [except] catches.  The text [str] gives for a value
    that is not a string never contains the letters SD, so only strings
    can match. *)
Definition resolve_threshold (series : list Q) (threshold : pyval)
  : option cutoff :=
  match (match threshold with PStr s => match_loose_sd s | _ => None end) with
  | Some group =>
      match float_of_str group with
      | Some k => Some (CutSD (mean series) k (var series))
      | None => None
      end
  | None =>
      match to_float float_of_str threshold with
      | Some c => Some (Cut c)
      | None => None
      end
  end.

(** The [if fd_file_path:] block.  Returns [offending_time_points] and
    [time_course_len]. *)
Definition fd_block (fd : series_file) (fd_threshold : pyval)
  : result (list Z * nat) :=
  match fd with
  | NoPath => Ok ([], 0%nat)
  | NotAFile => Raise (ValueError msg_fd_not_found)
  | Loaded framewise_displacement =>
      if negb (truthy fd_threshold)
      then Raise (ValueError msg_fd_threshold_missing)
      else
        match resolve_threshold framewise_displacement fd_threshold with
        | None => Raise (ValueError msg_fd_threshold_invalid)
        | Some c =>
            Ok (where_exceeds framewise_displacement c,
                length framewise_displacement)
        end
  end.

(** The [if dvars_file_path:] block, entered with the values the FD block
    left. *)
Definition dvars_block (dv : series_file) (dvars_threshold : pyval)
  (st : list Z * nat) : result (list Z * nat) :=
  match dv with
  | NoPath => Ok st
  | NotAFile => Raise (ValueError msg_dvars_not_found)
  | Loaded raw =>
      if negb (truthy dvars_threshold)
      then Raise (ValueError msg_dvars_threshold_missing)
      else
        let dvars := 0%Q :: raw in
        match resolve_threshold dvars dvars_threshold with
        | None => Raise (ValueError msg_dvars_threshold_invalid)
        | Some c =>
            let offending_time_points := fst st in
            Ok (match offending_time_points with
                | [] => where_exceeds dvars c
                | _ :: _ =>
                    intersection offending_time_points (where_exceeds dvars c)
                end,
                length dvars)
        end
  end.

(** The value of [offending_time_points] (with [time_course_len]) when the
    two blocks are done. *)
Definition offending_time_points (fd dv : series_file)
  (fd_threshold dvars_threshold : pyval) : result (list Z * nat) :=
  st ← fd_block fd fd_threshold;
  dvars_block dv dvars_threshold st.

(** The windows around the offending points, made unique and cut to the
    time course. *)
Definition extended_censors (offending : list Z) (time_course_len : nat)
  (number_of_previous_trs_to_remove number_of_subsequent_trs_to_remove : Z)
  : list Z :=
  let extended :=
    flat_map (fun censor =>
                zrange (censor - number_of_previous_trs_to_remove)
                       (censor + number_of_subsequent_trs_to_remove + 1))
             offending in
  List.filter (fun censor => (0 <=? censor)%Z
                             && (censor <? Z.of_nat time_course_len)%Z)
              (np_unique extended).

(** [np.ones((time_course_len, 1))] with the rows of [censors] set to 0. *)
Definition censor_vector (time_course_len : nat) (censors : list Z) : list Z :=
  List.map (fun i => if zmem i censors then 0%Z else 1%Z)
           (zrange 0 (Z.of_nat time_course_len)).

(** The function, for windows that are integers; the result is the
    content written to [censors.tsv]. *)
Definition find_offending_time_points (fd dv : series_file)
  (fd_threshold dvars_threshold : pyval)
  (number_of_previous_trs_to_remove number_of_subsequent_trs_to_remove : Z)
  : result (list Z) :=
  '(offending, time_course_len) ←
    offending_time_points fd dv fd_threshold dvars_threshold;
  Ok (censor_vector time_course_len
        (extended_censors offending time_course_len
           number_of_previous_trs_to_remove
           number_of_subsequent_trs_to_remove)).

End WithFloat.

End Censor.

(* ===================================================================== *)
(** * [create_temporal_variance_mask]                                    *)
(* ===================================================================== *)

Module VarianceMask.
Import Py.

(** What [nb.load] yields: the shape, the affine (row by row) and the
    data in C order (last axis fastest). *)
Record nifti : Type := {
  shape : list nat;
  affine : list Q;
  data : list Q
}.

Inductive threshold_method : Type := VAR | SD | PCT.

Definition method_eqb (a b : threshold_method) : bool :=
  match a, b with
  | VAR, VAR | SD, SD | PCT, PCT => true
  | _, _ => false
  end.

Definition msg_improper_functional : string :=
  "Improper functional file specified ({0}), should be a 4D nifti file.".
Definition msg_improper_mask : string :=
  "Improper mask file specified ({0}), should be a 3D nifti file.".
Definition msg_threshold_missing : string :=
  "Threshold must be specified. Received None".
Definition msg_threshold_conversion : string :=
  "Error converting threshold value {0} from {1} to a floating point number. The threshold value can contain SD or PCT for selecting a threshold based on the variance distribution, otherwise it should be a floating point number.".
Definition msg_threshold_negative : string :=
  "Threshold value should be positive, instead of {0}.".
Definition msg_percentile_range : string :=
  "Percentile should be less than 100, received {0}.".
Definition msg_by_slice : string :=
  "Parameter by_slice should be a boolean.".
Definition msg_functional_shape : string :=
  "Functional data used to create mask ({0}) should be 4D and should contain 3 or more time points.".
Definition msg_mask_mismatch : string :=
  "Shape and affine of mask image {0} ({1} {2}) should match those of the functional data {3} ({4} {5})".

(** [s.endswith(suffix)] *)
Fixpoint ends_with (suffix s : string) : bool :=
  String.eqb s suffix
  || match s with
     | EmptyString => false
     | String _ s' => ends_with suffix s'
     end.

(** [path and (path.endswith(".nii") or path.endswith(".nii.gz"))] for a
    path that is [None] or a string. *)
Definition is_nifti_path (path : option string) : bool :=
  match path with
  | None => false
  | Some p =>
      negb (String.eqb p "") && (ends_with ".nii" p || ends_with ".nii.gz" p)
  end.

(** A path that ends in [.nii] or in [.nii.gz], said without the
    function that tests it. *)
Definition nifti_name (p : string) : Prop :=
  exists stem, p = stem ++ ".nii" \/ p = stem ++ ".nii.gz".

(** [bool(path)] *)
Definition path_given (path : option string) : bool :=
  match path with
  | None => false
  | Some p => negb (String.eqb p "")
  end.

(** Insertion sort, for [np.percentile]. *)
Fixpoint insert_sorted (x : Q) (l : list Q) : list Q :=
  match l with
  | [] => [x]
  | y :: l' => if Qle_bool x y then x :: l else y :: insert_sorted x l'
  end.

Definition sort (l : list Q) : list Q := fold_right insert_sorted [] l.

(** [np.percentile(a, q)] with numpy's default linear interpolation
    between the two closest ranks of the sorted data. *)
Definition percentile (a : list Q) (q : Q) : Q :=
  let sorted := sort a in
  let n := length sorted in
  let pos := (q / 100 * inject_Z (Z.of_nat (n - 1)))%Q in
  let lo := Z.to_nat (Qfloor pos) in
  let hi := Nat.min (lo + 1) (n - 1) in
  let gamma := (pos - inject_Z (Z.of_nat lo))%Q in
  let below := nth lo sorted 0%Q in
  let above := nth hi sorted 0%Q in
  (below + gamma * (above - below))%Q.

(** [data.var(axis=3)], flattened: one variance per voxel, each voxel
    owning [nt] consecutive samples. *)
Definition voxel_series (nt : nat) (samples : list Q) (v : nat) : list Q :=
  firstn nt (skipn (v * nt) samples).

Definition temporal_variance (nvox nt : nat) (samples : list Q) : list Q :=
  List.map (fun v => var (voxel_series nt samples v)) (seq 0 nvox).

(** Equality of two affines, entry by entry. *)
Fixpoint affine_eqb (a b : list Q) : bool :=
  match a, b with
  | [], [] => true
  | x :: a', y :: b' => Qeq_bool x y && affine_eqb a' b'
  | _, _ => false
  end.

Definition shape_eqb (a b : list nat) : bool :=
  if decide (a = b) then true else false.

(** The rows of column [slice_number] after the reshape to
    [(rows, columns)]: the flat positions congruent to it. *)
Definition in_slice (columns slice_number v : nat) : bool :=
  (v mod columns =? slice_number)%nat.

(** [functional_data_variance[mask_data[:, slice_number], slice_number]] *)
Definition slice_values (columns slice_number : nat)
  (mask_data : list bool) (variance : list Q) : list Q :=
  List.map snd
    (List.filter
       (fun '(v, x) => in_slice columns slice_number v && nth v mask_data false)
       (combine (seq 0 (length variance)) variance)).

(** The body of the loop over the slices up to the threshold: [None] when
    the slice has no voxel of the mask ([continue]). *)
Definition slice_threshold (method : threshold_method) (threshold_value : Q)
  (columns slice_number : nat) (mask_data : list bool) (variance : list Q)
  : option cutoff :=
  match slice_values columns slice_number mask_data variance with
  | [] => None
  | functional_data_variance_slice =>
      Some (match method with
            | PCT => Cut (percentile functional_data_variance_slice
                            (100 - threshold_value))
            | SD => CutSD (mean functional_data_variance_slice)
                          threshold_value
                          (var functional_data_variance_slice)
            | VAR => Cut threshold_value
            end)
  end.

(** [output_variance_mask] once every slice is done, read back in the
    flat order of the volume. *)
Definition output_variance_mask (method : threshold_method)
  (threshold_value : Q) (columns : nat) (mask_data : list bool)
  (variance : list Q) : list bool :=
  List.map
    (fun '(v, x) =>
       match slice_threshold method threshold_value columns (v mod columns)
               mask_data variance with
       | None => false
       | Some slice_threshold_value =>
           nth v mask_data false && exceeds x slice_threshold_value
       end)
    (combine (seq 0 (length variance)) variance).

Definition uint8 (b : bool) : Q := if b then 1%Q else 0%Q.

(** The variances of the voxels a mask selects, in the order of the
    volume: the values a threshold over all data is computed from.  Not
    part of the function; the properties of the function are stated with
    it. *)
Fixpoint masked_values (mask_data : list bool) (variance : list Q) : list Q :=
  match mask_data, variance with
  | m :: mask_data', x :: variance' =>
      if m then x :: masked_values mask_data' variance'
      else masked_values mask_data' variance'
  | _, _ => []
  end.

Section WithRuntime.

Variable float_of_str : string -> option Q.

(** [nb.load]: the image stored at a path, if any. *)
Variable load : string -> option nifti.

(** The threshold method and the value still to convert: the loop over
    [regex_match] (a later match overrides an earlier one). *)
Definition parse_threshold (threshold : pyval) : threshold_method * pyval :=
  match threshold with
  | PStr s =>
      fold_left
        (fun acc '(method, suffix) =>
           match match_number_suffix suffix s with
           | Some group => (method, PStr group)
           | None => acc
           end)
        [(SD, "SD"); (PCT, "PCT")]
        (VAR, threshold)
  | _ => (VAR, threshold)
  end.

Definition create_temporal_variance_mask
  (functional_file_path mask_file_path : option string)
  (threshold by_slice : pyval) : result nifti :=
  if negb (is_nifti_path functional_file_path)
  then Raise (ValueError msg_improper_functional) else
  if negb (is_nifti_path mask_file_path)
  then Raise (ValueError msg_improper_mask) else
  if negb (truthy threshold)
  then Raise (ValueError msg_threshold_missing) else
  let '(method, threshold_value) := parse_threshold threshold in
  match to_float float_of_str threshold_value with
  | None => Raise (ValueError msg_threshold_conversion)
  | Some threshold_value =>
  if Qltb threshold_value 0
  then Raise (ValueError msg_threshold_negative) else
  if method_eqb method PCT && Qle_bool 100 threshold_value
  then Raise (ValueError msg_percentile_range) else
  match by_slice with
  | PBool by_slice =>
  match functional_file_path ≫= load with
  | None => Raise IOError
  | Some functional_data_img =>
  match shape functional_data_img with
  | [nx; ny; nz; nt] =>
  if (nt <? 3)%nat then Raise (ValueError msg_functional_shape) else
  let voxels := (nx * ny * nz)%nat in
  let functional_data_variance :=
    temporal_variance voxels nt (data functional_data_img) in
  mask ←
    (if path_given mask_file_path then
       match mask_file_path ≫= load with
       | None => Raise IOError
       | Some mask_image =>
           if negb (shape_eqb (shape mask_image) [nx; ny; nz]
                    && affine_eqb (affine mask_image)
                                  (affine functional_data_img))
           then Raise (ValueError msg_mask_mismatch)
           else Ok (Some mask_image,
                    List.map (fun x => negb (Qeq_bool x 0)) (data mask_image))
       end
     else Ok (None, List.map (fun x => Qltb 0 x) functional_data_variance));
  let '(mask_image, mask_data) := mask in
  let columns := if by_slice then nz else 1%nat in
  let output :=
    output_variance_mask method threshold_value columns mask_data
      functional_data_variance in
  match mask_image with
  | None => Raise NameError
  | Some mask_image =>
      Ok {| shape := shape mask_image;
            affine := affine mask_image;
            data := List.map uint8 output |}
  end
  | _ => Raise (ValueError msg_functional_shape)
  end
  end
  | _ => Raise (ValueError msg_by_slice)
  end
  end.

End WithRuntime.

End VarianceMask.

(* ===================================================================== *)
(** * [generate_summarize_tissue_mask]                                   *)
(* ===================================================================== *)

Module TissueMask.
Import Py.

(** A [pe.Node]: its interface, its name and the inputs set on it. *)
Record node : Type := {
  interface : string;
  name : string;
  inputs : list (string * pyval)
}.

(** A node is referred to by its position in the list of all nodes (its
    identity as an object); an artifact is a node and one of its outputs. *)
Definition handle : Type := nat * string.

(** An entry of the resource pool: an artifact, or the dictionary of
    transforms stored under [Transformations]. *)
Inductive resource : Type :=
| Artifact (h : handle)
| Transforms (t : gmap string handle).

(** An edge added by [nuisance_wf.connect]. *)
Record edge : Type := {
  source : handle;
  target : handle
}.

(** The objects the function works on.  [registered] is not part of the
    program: it records, in order, the keys assigned by
    [pipeline_resource_pool[mask_key] = ...]. *)
Record state : Type := {
  nodes : list node;
  edges : list edge;
  pool : gmap string resource;
  registered : list string
}.

(** A computation on the state that may raise; what was done before the
    exception stays done, as for Python objects mutated in place. *)
Definition build (A : Type) : Type := state -> state * result A.

#[export] Instance build_ret : MRet build := fun A (a : A) st => (st, Ok a).

#[export] Instance build_bind : MBind build :=
  fun A B (k : A -> build B) (m : build A) st =>
    match m st with
    | (st', Ok a) => k a st'
    | (st', Raise e) => (st', Raise e)
    end.

Definition raise {A} (e : exn) : build A := fun st => (st, Raise e).

Definition lift {A} (r : result A) : build A := fun st => (st, r).

(** [pe.Node(interface, name=name)] *)
Definition new_node (interface name : string) : build nat :=
  fun st =>
    ({| nodes := nodes st ++ [{| interface := interface; name := name;
                                inputs := [] |}];
        edges := edges st; pool := pool st; registered := registered st |},
     Ok (length (nodes st))).

(** [node.inputs.field = value] *)
Definition set_input (n : nat) (field : string) (value : pyval) : build unit :=
  fun st =>
    ({| nodes := alter (fun nd => {| interface := interface nd;
                                     name := name nd;
                                     inputs := inputs nd ++ [(field, value)] |})
                       n (nodes st);
        edges := edges st; pool := pool st; registered := registered st |},
     Ok ()).

(** [nuisance_wf.connect(src_node, src_output, dst_node, dst_field)] *)
Definition connect (src dst : handle) : build unit :=
  fun st =>
    ({| nodes := nodes st;
        edges := edges st ++ [{| source := src; target := dst |}];
        pool := pool st; registered := registered st |},
     Ok ()).

(** [key in pipeline_resource_pool] *)
Definition pool_mem (key : string) : build bool :=
  fun st => (st, Ok (bool_decide (is_Some (pool st !! key)))).

(** [pipeline_resource_pool[key]] *)
Definition pool_item (key : string) : build resource :=
  fun st =>
    (st, match pool st !! key with
         | Some r => Ok r
         | None => Raise (KeyError key)
         end).

(** [resource + (node, field)]: only a tuple can be extended. *)
Definition as_handle (r : resource) : build handle :=
  match r with
  | Artifact h => mret h
  | Transforms _ => raise TypeError
  end.

(** [transforms[key]] *)
Definition transform_item (transforms : resource) (key : string)
  : build handle :=
  match transforms with
  | Transforms t =>
      match t !! key with
      | Some h => mret h
      | None => raise (KeyError key)
      end
  | Artifact _ => raise TypeError
  end.

(** [nuisance_wf.connect( *(pipeline_resource_pool[key] + (n, field)))] *)
Definition connect_from_pool (key : string) (dst : handle) : build unit :=
  r ← pool_item key;
  h ← as_handle r;
  connect h dst.

(** [nuisance_wf.connect( *(transforms[key] + (n, field)))] *)
Definition connect_transform (transforms : resource) (key : string)
  (dst : handle) : build unit :=
  h ← transform_item transforms key;
  connect h dst.

(** [pipeline_resource_pool[mask_key] = (n, output)] *)
Definition pool_set (mask_key : string) (h : handle) : build unit :=
  fun st =>
    ({| nodes := nodes st; edges := edges st;
        pool := <[mask_key := Artifact h]> (pool st);
        registered := (registered st ++ [mask_key])%list |},
     Ok ()).

(** The keys of the descriptor that name a step, in the fixed order. *)
Definition steps_of (regressor_descriptor : gmap string string) : list string :=
  List.filter (fun key => bool_decide (is_Some (regressor_descriptor !! key)))
              ["tissue"; "resolution"; "erosion"].

(** [regressor_descriptor[s]] for a step [s] of [steps_of]. *)
Definition fragment (regressor_descriptor : gmap string string) (s : string)
  : string :=
  default "" (regressor_descriptor !! s).

(** The key of the first [n] steps. *)
Definition key_of (regressor_descriptor : gmap string string)
  (steps : list string) (n : nat) : string :=
  join "_" (List.map (fragment regressor_descriptor) (take n steps)).

Section WithRuntime.

(** The text that [format] substitutes for a value. *)
Variable format_value : pyval -> string.

Variable regressor_descriptor : gmap string string.
Variable regressor_selector : list (string * pyval).
Variable use_ants : bool.

Definition selector_item (key : string) : build pyval :=
  lift (dict_item regressor_selector key).

(** The branch [mask_key.startswith('FunctionalVariance')]. *)
Definition build_functional_variance (mask_key node_mask_key : string)
  : build unit :=
  create_variance_mask_node ←
    new_node "Function(create_temporal_variance_mask)"
             ("create_temporal_variance_mask_" ++ node_mask_key);
  connect_from_pool "Functional"
    (create_variance_mask_node, "functional_file_path");;
  connect_from_pool "GlobalSignal"
    (create_variance_mask_node, "mask_file_path");;
  threshold ← selector_item "threshold";
  set_input create_variance_mask_node "threshold" threshold;;
  by_slice ← selector_item "by_slice";
  set_input create_variance_mask_node "by_slice" by_slice;;
  pool_set mask_key (create_variance_mask_node, "mask_file_path").

(** The branch [mask_key == 'CerebrospinalFluid']. *)
Definition build_cerebrospinal_fluid (mask_key : string) : build unit :=
  transforms ← pool_item "Transformations";
  mask_cfs_with_lat_ven ← new_node "afni.Calc" "mask_cfs_with_lat_ven";
  set_input mask_cfs_with_lat_ven "expr" (PStr "step(a)*step(b)");;
  set_input mask_cfs_with_lat_ven "outputtype" (PStr "NIFTI_GZ");;
  set_input mask_cfs_with_lat_ven "out_file" (PStr "cfs_lat_ven_mask.nii.gz");;
  (if use_ants then
     collect_linear_transforms ←
       new_node "util.Merge(3)" "ho_mni_to_2mm_ants_collect_linear_transforms";
     connect_transform transforms "anat_to_mni_initial_xfm"
       (collect_linear_transforms, "in1");;
     connect_transform transforms "anat_to_mni_rigid_xfm"
       (collect_linear_transforms, "in2");;
     connect_transform transforms "anat_to_mni_affine_xfm"
       (collect_linear_transforms, "in3");;
     lat_ven_mni_to_anat ←
       new_node "ants.ApplyTransforms" "lat_ven_mni_to_anat_ants";
     set_input lat_ven_mni_to_anat "invert_transform_flags"
       (PList [PBool true; PBool true; PBool true]);;
     set_input lat_ven_mni_to_anat "interpolation" (PStr "NearestNeighbor");;
     set_input lat_ven_mni_to_anat "dimension" (PInt 3);;
     connect (collect_linear_transforms, "out")
             (lat_ven_mni_to_anat, "transforms");;
     connect_from_pool "Ventricles" (lat_ven_mni_to_anat, "input_image");;
     connect_from_pool "CerebrospinalFluidUnmasked"
       (lat_ven_mni_to_anat, "reference_image");;
     connect (lat_ven_mni_to_anat, "output_image")
             (mask_cfs_with_lat_ven, "in_file_b")
   else
     lat_ven_mni_to_anat ← new_node "fsl.FLIRT" "lat_ven_mni_to_anat_flirt";
     set_input lat_ven_mni_to_anat "interp" (PStr "nearestneighbour");;
     connect_transform transforms "mni_to_anat_linear_xfm"
       (lat_ven_mni_to_anat, "in_matrix_file");;
     connect_from_pool "Ventricles" (lat_ven_mni_to_anat, "in_file");;
     connect_from_pool "CerebrospinalFluidUnmasked"
       (lat_ven_mni_to_anat, "reference");;
     connect (lat_ven_mni_to_anat, "out_file")
             (mask_cfs_with_lat_ven, "in_file_b"));;
  connect_from_pool "CerebrospinalFluidUnmasked"
    (mask_cfs_with_lat_ven, "in_file_a");;
  pool_set mask_key (mask_cfs_with_lat_ven, "out_file").

(** [if step is 'tissue':] -- a tissue key matching neither variant falls
    through both tests. *)
Definition build_tissue (mask_key node_mask_key : string) : build unit :=
  if String.prefix "FunctionalVariance" mask_key
  then build_functional_variance mask_key node_mask_key
  else if String.eqb mask_key "CerebrospinalFluid"
  then build_cerebrospinal_fluid mask_key
  else mret ().

(** [if step is 'resolution':] *)
Definition build_resolution (mask_key node_mask_key prev_mask_key : string)
  : build unit :=
  mask_to_epi ←
    new_node "fsl.FLIRT" ("mask_to_epi_flirt_applyxfm_" ++ node_mask_key);
  extraction_resolution ← selector_item "extraction_resolution";
  (match extraction_resolution with
   | PStr "Functional" => connect_from_pool "Functional" (mask_to_epi, "reference")
   | _ =>
       resolution ← selector_item "extraction_resolution";
       set_input mask_to_epi "apply_isoxfm" resolution;;
       connect_from_pool ("Anatomical_" ++ format_value resolution ++ "mm")
         (mask_to_epi, "reference")
   end);;
  connect_from_pool prev_mask_key (mask_to_epi, "in_file");;
  pool_set mask_key (mask_to_epi, "out_file").

(** [if step is 'erosion':] *)
Definition build_erosion (mask_key node_mask_key prev_mask_key : string)
  : build unit :=
  erode_mask_node ← new_node "afni.Calc" ("erode_mask_node_" ++ node_mask_key);
  set_input erode_mask_node "args"
    (PStr "-b a+i -c a-i -d a+j -e a-j -f a+k -g a-k");;
  set_input erode_mask_node "expr" (PStr "a*(1-amongst(0,b,c,d,e,f,g))");;
  set_input erode_mask_node "outputtype" (PStr "NIFTI_GZ");;
  set_input erode_mask_node "out_file" (PStr "erode_mask_node.nii.gz");;
  connect_from_pool prev_mask_key (erode_mask_node, "in_file_a");;
  pool_set mask_key (erode_mask_node, "out_file").

(** The body of the loop for step number [step_i]. *)
Definition mask_step (steps : list string) (step_i : nat) (step : string)
  : build unit :=
  let mask_key := key_of regressor_descriptor steps (step_i + 1) in
  present ← pool_mem mask_key;
  if (present : bool) then mret ()
  else
    let node_mask_key := sub_non_word mask_key in
    let prev_mask_key := key_of regressor_descriptor steps step_i in
    (if String.eqb step "tissue"
     then build_tissue mask_key node_mask_key else mret ());;
    (if String.eqb step "resolution"
     then build_resolution mask_key node_mask_key prev_mask_key else mret ());;
    (if String.eqb step "erosion"
     then build_erosion mask_key node_mask_key prev_mask_key else mret ()).

(** [for step_i, step in enumerate(steps)], from step number [step_i]. *)
Fixpoint mask_steps (steps : list string) (step_i : nat) (todo : list string)
  : build unit :=
  match todo with
  | [] => mret ()
  | step :: todo' =>
      mask_step steps step_i step;;
      mask_steps steps (step_i + 1) todo'
  end.

(** The function: the pool is updated in place (in the state) and the
    full key is returned. *)
Definition generate_summarize_tissue_mask : build string :=
  let steps := steps_of regressor_descriptor in
  let full_mask_key := key_of regressor_descriptor steps (length steps) in
  mask_steps steps 0 steps;;
  mret full_mask_key.

End WithRuntime.

(** ** Vocabulary for the properties of the function *)

(** The keys of the successive prefixes of the steps of a descriptor. *)
Definition prefix_keys (regressor_descriptor : gmap string string)
  : list string :=
  List.map (fun i => key_of regressor_descriptor
                       (steps_of regressor_descriptor) (i + 1))
           (seq 0 (length (steps_of regressor_descriptor))).

(** A computation that leaves the pool as it is. *)
Definition quiet {A} (m : build A) : Prop :=
  forall st, pool (m st).1 = pool st /\ registered (m st).1 = registered st.

(** What a computation may do to the pool when it builds the artifact of
    [key]: nothing, or one assignment to [key]. *)
Definition assigns_at_most (key : string) (st st' : state) : Prop :=
  (pool st' = pool st /\ registered st' = registered st)
  \/ (exists h, pool st' = <[key := Artifact h]> (pool st)
                /\ registered st' = (registered st ++ [key])%list).

Definition registers {A} (key : string) (m : build A) : Prop :=
  forall st, assigns_at_most key st (m st).1.

(** What one turn of the loop does to the pool: nothing, or the
    assignment of a key that was absent. *)
Definition step_effect (key : string) (st st' : state) : Prop :=
  (pool st' = pool st /\ registered st' = registered st)
  \/ (pool st !! key = None
      /\ exists h, pool st' = <[key := Artifact h]> (pool st)
                   /\ registered st' = (registered st ++ [key])%list).

(** What a run over the steps of [keys] does to the pool: the keys it
    assigns are distinct keys of [keys] that were absent, each now bound
    to an artifact; every other key is bound as before. *)
Definition run_effect (keys : list string) (st st' : state) : Prop :=
  exists new,
    registered st' = (registered st ++ new)%list
    /\ NoDup new
    /\ (forall k, k ∈ new ->
                  k ∈ keys /\ pool st !! k = None
                  /\ exists h, pool st' !! k = Some (Artifact h))
    /\ (forall k, k ∉ new -> pool st' !! k = pool st !! k).

(** How many times [key] was assigned. *)
Definition registrations (key : string) (st : state) : nat :=
  length (List.filter (String.eqb key) (registered st)).

(** The steps a builder answers: a resolution, an erosion, and a tissue
    whose key one of the two tests of the tissue branch accepts. *)
Definition has_builder (step mask_key : string) : bool :=
  String.eqb step "resolution"
  || String.eqb step "erosion"
  || (String.eqb step "tissue"
      && (String.prefix "FunctionalVariance" mask_key
          || String.eqb mask_key "CerebrospinalFluid")).

(** [key] is bound in [st'] to an output of a node made after [st]. *)
Definition built_since (st st' : state) (key : string) : Prop :=
  exists n output,
    pool st' !! key = Some (Artifact (n, output))
    /\ (length (nodes st) <= n < length (nodes st'))%nat.

(** A computation that removes no node. *)
Definition keeps_nodes {A} (m : build A) : Prop :=
  forall st, (length (nodes st) <= length (nodes (m st).1))%nat.

(** A computation that, when it returns, has bound [key] to an output of
    the node [n] it was given, and has done nothing else to the pool. *)
Definition binds_to {A} (key : string) (n : nat) (m : build A) : Prop :=
  forall st st' a,
    m st = (st', Ok a) -> (n < length (nodes st))%nat ->
    (exists output, pool st' = <[key := Artifact (n, output)]> (pool st))
    /\ (n < length (nodes st'))%nat.

(** A computation that, when it returns, has made a node and bound [key]
    to one of its outputs, and has done nothing else to the pool. *)
Definition builds {A} (key : string) (m : build A) : Prop :=
  forall st st' a,
    m st = (st', Ok a) ->
    exists n output,
      pool st' = <[key := Artifact (n, output)]> (pool st)
      /\ (length (nodes st) <= n < length (nodes st'))%nat.

End TissueMask.

(* ===================================================================== *)
(** * [summarize_timeseries]                                             *)
(* ===================================================================== *)

Module Summary.
Import Py.

(** A two-dimensional array with its shape; [cells] holds [nrows] rows of
    [ncols] values. *)
Record array2 : Type := {
  nrows : nat;
  ncols : nat;
  cells : list (list Q)
}.

(** What the function writes with [np.savetxt]: a vector (one value per
    line) or a matrix (one row per line). *)
Inductive regressors : Type :=
| Vector (v : list Q)
| Matrix (m : array2).

(** The functional image: [nt] time points and one series per voxel, the
    voxels in the flat order of the volume.  The values are those of a
    floating-point image, computed with exactly. *)
Record functional : Type := {
  nt : nat;
  voxels : list (list Q)
}.

Definition column (a : array2) (j : nat) : list Q :=
  List.map (fun row => nth j row 0%Q) (cells a).

(** [a.mean(0)]: the mean over the rows, one value per column. *)
Definition mean0 (a : array2) : list Q :=
  List.map (fun j => mean (column a j)) (seq 0 (ncols a)).

(** [a.mean(1)]: the mean over the columns, one value per row. *)
Definition mean1 (a : array2) : list Q := List.map mean (cells a).

(** [a.T] *)
Definition transpose (a : array2) : array2 :=
  {| nrows := ncols a;
     ncols := nrows a;
     cells := List.map (column a) (seq 0 (ncols a)) |}.

(** [a /= c] *)
Definition divide (a : array2) (c : Q) : array2 :=
  {| nrows := nrows a;
     ncols := ncols a;
     cells := List.map (List.map (fun x => (x / c)%Q)) (cells a) |}.

(** [a - b] for two arrays of one shape. *)
Definition subtract (a b : array2) : array2 :=
  {| nrows := nrows a;
     ncols := ncols a;
     cells := zip_with (zip_with Qminus) (cells a) (cells b) |}.

(** [np.tile(v, (n, 1))] *)
Definition tile (v : list Q) (n : nat) : array2 :=
  {| nrows := n; ncols := length v; cells := repeat v n |}.

(** [signal.detrend(y, type='linear')] on one series: the residual of the
    least-squares line through the points [(i, y_i)]. *)
Definition detrend (y : list Q) : list Q :=
  let t := List.map (fun i => inject_Z (Z.of_nat i)) (seq 0 (length y)) in
  let tbar := mean t in
  let ybar := mean y in
  let sxy := Qsum (zip_with (fun ti yi => ((ti - tbar) * (yi - ybar))%Q) t y) in
  let sxx := Qsum (List.map (fun ti => ((ti - tbar) * (ti - tbar))%Q) t) in
  let slope := (sxy / sxx)%Q in
  let intercept := (ybar - slope * tbar)%Q in
  zip_with (fun ti yi => (yi - (intercept + slope * ti))%Q) t y.

(** [signal.detrend(a, axis=1, type='linear')] *)
Definition detrend_rows (a : array2) : array2 :=
  {| nrows := nrows a; ncols := ncols a;
     cells := List.map detrend (cells a) |}.

(** [a[:, 0:stop]] with Python's reading of the bound of a slice. *)
Definition slice_stop (n : nat) (stop : Z) : nat :=
  if (stop <? 0)%Z then Z.to_nat (Z.of_nat n + stop)
  else Nat.min (Z.to_nat stop) n.

Definition leading_columns (a : array2) (k : nat) : array2 :=
  {| nrows := nrows a; ncols := Nat.min k (ncols a);
     cells := List.map (take k) (cells a) |}.

(** [np.sum(masks, axis=0) > 0.0], one truth value per voxel, for masks
    on the grid of the image. *)
Definition combine_masks (masks : list (list Q)) (nvoxels : nat) : list bool :=
  List.map (fun v => Qltb 0 (Qsum (List.map (fun m => nth v m 0%Q) masks)))
           (seq 0 nvoxels).

(** [functional_img.get_data()[mask]]: the series of the selected voxels,
    one row per voxel. *)
Definition masked_block (f : functional) (masks : list (list Q)) : array2 :=
  let mask := combine_masks masks (length (voxels f)) in
  let selected :=
    List.map fst (List.filter snd (combine (voxels f) mask)) in
  {| nrows := length selected; ncols := nt f; cells := selected |}.

Section WithLinalg.

(** [np.linalg.norm(a, 2)] *)
Variable norm2 : array2 -> Q.

(** The first factor of [np.linalg.svd(a, full_matrices=False)]. *)
Variable svd_u : array2 -> array2.

Definition summarize_timeseries (functional_img : functional)
  (masks : list (list Q)) (summary : pyval) : result regressors :=
  let summary :=
    match summary with
    | PDict d => d
    | _ => [("method", summary)]
    end in
  let masked_functional := masked_block functional_img masks in
  let regressors := Vector (repeat 0%Q (ncols masked_functional)) in
  method ← dict_item summary "method";
  let regressors :=
    match method with
    | PStr "Mean" => Vector (mean0 masked_functional)
    | _ => regressors
    end in
  let '(masked_functional, regressors) :=
    match method with
    | PStr "NormMean" =>
        let masked_functional :=
          divide masked_functional (norm2 masked_functional) in
        (masked_functional, Vector (mean0 masked_functional))
    | _ => (masked_functional, regressors)
    end in
  let '(masked_functional, regressors) :=
    match method with
    | PStr "DetrendNormMean" =>
        let masked_functional := transpose (detrend_rows masked_functional) in
        let masked_functional :=
          divide masked_functional (norm2 masked_functional) in
        (masked_functional, Vector (mean0 masked_functional))
    | _ => (masked_functional, regressors)
    end in
  match method with
  | PStr "PC" =>
      let mean_signal :=
        tile (mean1 masked_functional) (ncols masked_functional) in
      let U := svd_u (subtract (transpose masked_functional) mean_signal) in
      components ← dict_item summary "components";
      match components with
      | PInt k => Ok (Matrix (leading_columns U (slice_stop (ncols U) k)))
      | PBool b =>
          Ok (Matrix (leading_columns U
                        (slice_stop (ncols U) (if b then 1 else 0))))
      | PNone => Ok (Matrix U)
      | _ => Raise TypeError
      end
  | _ => Ok regressors
  end.

End WithLinalg.

(** An array of the shape numpy gives the first factor of a reduced
    singular value decomposition, [(rows, min(rows, columns))]: the
    leading columns of the identity.  It fixes the parameter [svd_u] where
    a shape is computed on a concrete input. *)
Definition identity_columns (a : array2) : array2 :=
  let k := Nat.min (nrows a) (ncols a) in
  {| nrows := nrows a; ncols := k;
     cells := List.map (fun i =>
                List.map (fun j => if (i =? j)%nat then 1%Q else 0%Q) (seq 0 k))
              (seq 0 (nrows a)) |}.


(** A constant norm fixes the parameter [norm2] on concrete inputs of
    which the shape of the result alone is computed. *)
Definition unit_norm (a : array2) : Q := 1%Q.

(** The summary as the function reads it: a summary that is not a dict
    is the method itself. *)
Definition summary_dict (summary : pyval) : list (string * pyval) :=
  match summary with
  | PDict d => d
  | _ => [("method", summary)]
  end.

End Summary.

(* ===================================================================== *)
(** * [NuisanceRegressor]                                                *)
(* ===================================================================== *)

Module Regressor.
Import Py.

(** ** The [%] formats of the class *)

(** The value of a number, for the numeric formats; [None] is the
    [TypeError] raised for any other value. *)
Definition number (v : pyval) : option Q :=
  match v with
  | PBool b => Some (if b then 1%Q else 0%Q)
  | PInt z => Some (inject_Z z)
  | PFloat q => Some q
  | _ => None
  end.

(** The integer nearest to a non-negative [x], ties going to the even
    one, as the formats round. *)
Definition round_half_even (x : Q) : Z :=
  let f := Qfloor x in
  match Qcompare (x - inject_Z f) (1 # 2) with
  | Lt => f
  | Gt => (f + 1)%Z
  | Eq => if Z.even f then f else (f + 1)%Z
  end.

Definition two_digits (n : Z) : string :=
  (if (n <? 10)%Z then "0" else "") ++ pretty n.

Definition sign_of (q : Q) : string := if Qltb q 0 then "-" else "".

(** ["%.2f" % q] *)
Definition fmt_2f (q : Q) : string :=
  let n := round_half_even (Qabs q * 100) in
  sign_of q ++ pretty (n / 100)%Z ++ "." ++ two_digits (n mod 100)%Z.

(** ["%d" % q]: the integer part, towards zero. *)
Definition fmt_d (q : Q) : string :=
  pretty (Z.quot (Qnum q) (Zpos (Qden q))).

Definition pow10 (e : Z) : Q :=
  if (e <? 0)%Z then (1 # Z.to_pos (10 ^ (- e)))%Q else inject_Z (10 ^ e).

(** The decimal exponent of a positive [a]: the [e] with
    [10^e <= a < 10^(e+1)], searched downwards from [start]. *)
Fixpoint exponent_from (fuel : nat) (start : Z) (a : Q) : Z :=
  match fuel with
  | O => start
  | S fuel' =>
      if Qle_bool (pow10 start) a then start
      else exponent_from fuel' (start - 1) a
  end.

Definition decimal_exponent (a : Q) : Z :=
  let hi := (Z.log2 (Qnum a) + 1)%Z in
  let lo := (Z.log2 (Zpos (Qden a)) + 1)%Z in
  exponent_from (Z.to_nat (hi + lo + 1)) hi a.

(** ["%.2g" % q]: two significant digits, trailing zeros removed, in
    exponent notation when the exponent is below -4 or at least 2. *)
Definition fmt_2g (q : Q) : string :=
  if Qeq_bool q 0 then "0" else
  let a := Qabs q in
  let e := decimal_exponent a in
  let m := round_half_even (a / pow10 (e - 1)) in
  let '(m, e) := if (m =? 100)%Z then (10%Z, (e + 1)%Z) else (m, e) in
  let d1 := (m / 10)%Z in
  let d2 := (m mod 10)%Z in
  let fraction (sep : string) :=
    if (d2 =? 0)%Z then "" else sep ++ pretty d2 in
  if (e <? -4)%Z || (2 <=? e)%Z then
    sign_of q ++ pretty d1 ++ fraction "."
    ++ "e" ++ (if (e <? 0)%Z then "-" else "+") ++ two_digits (Z.abs e)
  else if (e =? 1)%Z then sign_of q ++ pretty m
  else if (e =? 0)%Z then sign_of q ++ pretty d1 ++ fraction "."
  else
    sign_of q ++ "0."
    ++ String.concat "" (repeat "0" (Z.to_nat (- e - 1)))
    ++ pretty d1 ++ fraction "".

(** ** The tables *)

Definition regs : list (string * string) :=
  [("GreyMatter", "GM"); ("WhiteMatter", "WM"); ("CerebrospinalFluid", "CSF");
   ("tCompCor", "tC"); ("aCompCor", "aC"); ("GlobalSignal", "G");
   ("Motion", "M"); ("PolyOrt", "P"); ("Bandpass", "B"); ("Censor", "C")].

Definition tissues : list string :=
  ["GreyMatter"; "WhiteMatter"; "CerebrospinalFluid"].

Definition methods : list (string * string) :=
  [("PC", "PC"); ("Mean", "M"); ("NormMean", "NM"); ("DetrendMean", "DM");
   ("DetrendNormMean", "DNM")].

Definition censoring : list (string * string) :=
  [("Kill", "K"); ("Zero", "Z"); ("Interpolate", "I");
   ("SpikeRegression", "S")].

Definition thresholds : list (string * string) :=
  [("FD", "FD"); ("DVARS", "DV")].

(** [table[key]] for a key that has to be a string of the table. *)
Fixpoint table_get (table : list (string * string)) (key : string)
  : option string :=
  match table with
  | [] => None
  | (k, v) :: table' =>
      if String.eqb k key then Some v else table_get table' key
  end.

Definition table_item (table : list (string * string)) (key : pyval)
  : option string :=
  match key with
  | PStr k => table_get table k
  | _ => None
  end.

(** ** The methods.  [None] stands for an exception, whichever it is. *)

(** The receiver of [s.get(...)] and [s[...]] has to be a dict. *)
Definition as_dict (s : pyval) : option (list (string * pyval)) :=
  match s with
  | PDict d => Some d
  | _ => None
  end.

(** [bool(s.get(key))] *)
Definition flag (d : list (string * pyval)) (key : string) : bool :=
  match dict_get d key with
  | Some v => truthy v
  | None => false
  end.

Definition _derivative_params (selector : pyval) : option string :=
  if negb (truthy selector) then Some ""
  else
    d ← as_dict selector;
    Some ((if flag d "include_squared" then "S" else "")
          ++ (if flag d "include_delayed" then "D" else "")
          ++ (if flag d "include_delayed_squared" then "B" else "")).

Definition _summary_params (selector : pyval) : option string :=
  d ← as_dict selector;
  summ ← dict_get d "summary";
  match summ with
  | PDict sd =>
      method ← dict_get sd "method";
      rep ← table_item methods method;
      match method with
      | PStr "PC" =>
          components ← dict_get sd "components";
          n ← number components;
          Some (rep ++ fmt_d n)
      | _ => Some rep
      end
  | _ => table_item methods summ
  end.

(** The lines that compute [res]; the value is dropped, the exception a
    format can raise is not. *)
Definition resolution_text (d : list (string * pyval)) : option string :=
  if flag d "extraction_resolution" then
    r ← dict_get d "extraction_resolution";
    n ← number r;
    let res := fmt_2f n in
    Some (if flag d "erode_mask" then res ++ "E" else res)
  else Some "".

(** [sorted(l, reverse=True, key=...)] on keyed items: the sort is stable,
    items of equal keys keep their order. *)
Fixpoint insert_descending {A} (x : string * A) (l : list (string * A))
  : list (string * A) :=
  match l with
  | [] => [x]
  | y :: l' =>
      if String.ltb (fst x) (fst y) then y :: insert_descending x l'
      else x :: l
  end.

Definition sorted_descending {A} (l : list (string * A)) : list (string * A) :=
  fold_right insert_descending [] l.

(** The key [d['type']] of a threshold; the sort compares strings. *)
Definition threshold_type (st : pyval) : option string :=
  d ← as_dict st;
  t ← dict_get d "type";
  match t with
  | PStr t => Some t
  | _ => None
  end.

Definition keyed_thresholds (l : list pyval) : option (list (string * pyval)) :=
  mapM (fun st => t ← threshold_type st; Some (t, st)) l.

(** The items [sorted] draws from [s['thresholds']], each with its
    key.  A list gives its items.  A dict gives its keys and a string its
    characters, on which [d['type']] raises: only the empty ones go
    through.  Any other value is not iterable. *)
Definition iterate_thresholds (ths : pyval)
  : option (list (string * pyval)) :=
  match ths with
  | PList l => keyed_thresholds l
  | PDict [] => Some []
  | PStr "" => Some []
  | _ => None
  end.

(** The body of [for st in threshs]. *)
Definition threshold_piece (st : string * pyval) : option string :=
  thresh ← table_get thresholds (fst st);
  d ← as_dict (snd st);
  value ← dict_get d "value";
  match value with
  | PStr v => Some (thresh ++ v)
  | _ => n ← number value; Some (thresh ++ fmt_2g n)
  end.

(** [s.get(key)] formatted with ["%d"] when it is true, [default]
    otherwise. *)
Definition trs (d : list (string * pyval)) (key default : string)
  : option string :=
  if flag d key then v ← dict_get d key; n ← number v; Some (fmt_d n)
  else Some default.

(** The codes of [s['tissues']]: the items of a list or the keys of a
    dict. *)
Definition tissue_codes (v : pyval) : option (list string) :=
  match v with
  | PList l => mapM (table_item regs) l
  | PDict d => mapM (fun kv => table_get regs (fst kv)) d
  | _ => None
  end.

(** The pieces added after the code of the type, branch by branch of the
    [if r in tissues: ... elif ...] chain. *)
Definition pieces_of (r : string) (s : pyval) : option (list string) :=
  if bool_decide (r ∈ tissues) then
    d ← as_dict s;
    _ ← resolution_text d;
    summary ← _summary_params s;
    derivative ← _derivative_params s;
    Some [summary; derivative]
  else if String.eqb r "tCompCor" then
    d ← as_dict s;
    let threshold := if flag d "by_slice" then "S" else "" in
    threshold ←
      (if flag d "threshold" then
         t ← dict_get d "threshold";
         match t with
         | PStr t => Some (threshold ++ t)
         | _ => n ← number t; Some (threshold ++ fmt_2f n)
         end
       else Some threshold);
    summary ← _summary_params s;
    derivative ← _derivative_params s;
    Some [threshold; summary; derivative]
  else if String.eqb r "aCompCor" then
    d ← as_dict s;
    joined ←
      (if flag d "tissues" then
         t ← dict_get d "tissues";
         codes ← tissue_codes t;
         Some [join "+" codes]
       else Some []);
    _ ← resolution_text d;
    summary ← _summary_params s;
    derivative ← _derivative_params s;
    Some (joined ++ [summary; derivative])%list
  else if String.eqb r "Global" then
    summary ← _summary_params s;
    derivative ← _derivative_params s;
    Some [summary; derivative]
  else if String.eqb r "Motion" then
    derivative ← _derivative_params s;
    Some [derivative]
  else if String.eqb r "PolyOrt" then
    d ← as_dict s;
    degree ← dict_get d "degree";
    n ← number degree;
    Some [fmt_d n]
  else if String.eqb r "BandPass" then
    d ← as_dict s;
    top ← dict_get d "top_frequency";
    top ← number top;
    bottom ← dict_get d "bottom_frequency";
    bottom ← number bottom;
    Some ["T" ++ fmt_2f top; "B" ++ fmt_2f bottom]
  else if String.eqb r "Censor" then
    d ← as_dict s;
    method ← dict_get d "method";
    code ← table_item censoring method;
    previous ← trs d "number_of_previous_trs_to_remove" "0";
    subsequent ← trs d "number_of_subsequent_trs_to_remove" "0";
    ths ← dict_get d "thresholds";
    ths ← iterate_thresholds ths;
    threshs ← mapM threshold_piece (sorted_descending ths);
    Some ([code; join "+" [previous; subsequent]] ++ threshs)%list
  else Some [].

(** [filter(None, pieces)] *)
Definition non_empty (pieces : list string) : list string :=
  List.filter (fun p => negb (String.eqb p "")) pieces.

(** The body of [for r in regs.keys()]: nothing for a type the selector
    does not have, its token otherwise. *)
Definition representation (selector : list (string * pyval))
  (reg : string * string) : option (list string) :=
  match dict_get selector (fst reg) with
  | None => Some []
  | Some s =>
      pieces ← pieces_of (fst reg) s;
      Some [join "-" (non_empty (snd reg :: pieces))]
  end.

(** [NuisanceRegressor(selector, selectors).__repr__()] *)
Definition __repr__ (selector : list (string * pyval)) : option string :=
  selectors_representations ← mapM (representation selector) regs;
  Some (join "_" (concat selectors_representations)).

(** ** Vocabulary for the properties of [__repr__] *)

(** [d] with the value of [key] replaced, the key keeping its place. *)
Fixpoint dict_set (d : list (string * pyval)) (key : string) (v : pyval)
  : list (string * pyval) :=
  match d with
  | [] => []
  | (k, x) :: d' =>
      if String.eqb k key then (k, v) :: d' else (k, x) :: dict_set d' key v
  end.

(** The thresholds of a list have pairwise distinct types. *)
Definition distinct_types (l : list pyval) : Prop :=
  NoDup (List.map threshold_type l).

End Regressor.

(* ===================================================================== *)
(** * Concrete inputs used by the closed statements below                *)
(* ===================================================================== *)

Module Examples.
Import Py.

(** A framewise displacement series that never exceeds 1, and the raw
    DVARS column of the same run (one sample less), which does. *)
Definition quiet_fd : list Q := [0; 0; 0]%Q.
Definition loud_dvars : list Q := [5; 5]%Q.

(** A framewise displacement series above 1 at the points 2 and 5, and a
    raw DVARS column above 1 at the points 5 and 7 of the run. *)
Definition fd_2_5 : list Q := [0; 0; 5; 0; 0; 5; 0; 0]%Q.
Definition dvars_5_7 : list Q := [0; 0; 0; 0; 5; 0; 5]%Q.

(** A functional image of three voxels and three time points whose
    temporal variances are 0, 2 and 8, a mask of the same grid holding
    every voxel, and the paths they are stored at. *)
Definition variance_volume : VarianceMask.nifti :=
  {| VarianceMask.shape := [3; 1; 1; 3]%nat;
     VarianceMask.affine := [1; 0; 0; 0; 0; 1; 0; 0; 0; 0; 1; 0; 0; 0; 0; 1]%Q;
     VarianceMask.data := [0; 0; 0; 0; 3; 0; 0; 6; 0]%Q |}.

Definition whole_mask : VarianceMask.nifti :=
  {| VarianceMask.shape := [3; 1; 1]%nat;
     VarianceMask.affine := [1; 0; 0; 0; 0; 1; 0; 0; 0; 0; 1; 0; 0; 0; 0; 1]%Q;
     VarianceMask.data := [1; 1; 1]%Q |}.

Definition load (path : string) : option VarianceMask.nifti :=
  if String.eqb path "func.nii.gz" then Some variance_volume
  else if String.eqb path "mask.nii.gz" then Some whole_mask
  else None.


(** A run of three time points: two voxels, both selected by the mask. *)
Definition two_voxel_run : Summary.functional :=
  {| Summary.nt := 3; Summary.voxels := [[1; 2; 4]; [2; 2; 5]]%Q |}.

Definition two_voxel_mask : list (list Q) := [[1; 1]%Q].

(** The same run with the second voxel masked out. *)
Definition one_voxel_mask : list (list Q) := [[1; 0]%Q].

(** White matter at 2mm, eroded, summarised by its mean, with the squared
    derivative. *)
Definition eroded_white_matter : list (string * pyval) :=
  [("extraction_resolution", PInt 2); ("erode_mask", PBool true);
   ("summary", PStr "Mean"); ("include_squared", PBool true)].


(** The text [format] gives for the values of the examples: strings,
    integers, booleans and [None]. *)
Definition format_value (v : pyval) : string :=
  match v with
  | PStr s => s
  | PInt z => pretty z
  | PBool b => if b then "True" else "False"
  | PNone => "None"
  | _ => ""
  end.

(** A workflow whose input node (node 0) supplies the white matter mask
    and the 2mm anatomical reference. *)
Definition base_state : TissueMask.state :=
  {| TissueMask.nodes :=
       [{| TissueMask.interface := "util.IdentityInterface";
           TissueMask.name := "inputspec";
           TissueMask.inputs := [] |}];
     TissueMask.edges := [];
     TissueMask.pool :=
       <["WhiteMatter" := TissueMask.Artifact (0%nat, "wm_mask_file_path")]>
       (<["Anatomical_2mm" :=
            TissueMask.Artifact (0%nat, "anatomical_2mm_file_path")]> ∅);
     TissueMask.registered := [] |}.

(** Two selections of white matter at 2mm, the second one eroded. *)
Definition white_matter_2mm : gmap string string :=
  <["tissue" := "WhiteMatter"]> (<["resolution" := "2mm"]> ∅).

Definition white_matter_2mm_eroded : gmap string string :=
  <["tissue" := "WhiteMatter"]>
  (<["resolution" := "2mm"]> (<["erosion" := "Eroded"]> ∅)).

Definition selector_2mm : list (string * pyval) :=
  [("extraction_resolution", PInt 2); ("summary", PStr "Mean")].

(** A workflow with nothing in its pool, and a descriptor whose tissue
    has no builder. *)
Definition empty_state : TissueMask.state :=
  {| TissueMask.nodes := []; TissueMask.edges := [];
     TissueMask.pool := ∅; TissueMask.registered := [] |}.

Definition white_matter_only : gmap string string :=
  <["tissue" := "WhiteMatter"]> ∅.


(** A censoring selector with the thresholds [ths]. *)
Definition censor_with (ths : list pyval) : list (string * pyval) :=
  [("Censor", PDict [("method", PStr "Kill"); ("thresholds", PList ths)])].

Definition fd_1sd : pyval := PDict [("type", PStr "FD"); ("value", PStr "1SD")].
Definition fd_2sd : pyval := PDict [("type", PStr "FD"); ("value", PStr "2SD")].
Definition dvars_half : pyval :=
  PDict [("type", PStr "DVARS"); ("value", PFloat (1 # 2))].

(** A selector with the global signal, a band-pass filter and a
    polynomial of degree 2. *)
Definition filtered_selector : list (string * pyval) :=
  [("GlobalSignal", PDict [("summary", PStr "Mean")]);
   ("Bandpass", PDict [("bottom_frequency", PFloat (1 # 100));
                       ("top_frequency", PFloat (1 # 10))]);
   ("PolyOrt", PDict [("degree", PInt 2)])].

End Examples.

(* ===================================================================== *)
(** * Properties of [find_offending_time_points]                         *)
(* ===================================================================== *)

Section CensorFacts.
Import Py Censor.

Variable float_of_str : string -> option Q.

(** A number is its own threshold: the SD pattern is tried on strings
    only. *)
Lemma resolve_threshold_int (series : list Q) (z : Z) :
  resolve_threshold float_of_str series (PInt z) = Some (Cut (inject_Z z)).
Proof. reflexivity. Qed.

Lemma resolve_threshold_float (series : list Q) (q : Q) :
  resolve_threshold float_of_str series (PFloat q) = Some (Cut q).
Proof. reflexivity. Qed.

(** Membership in the modelled intersection is membership in both
    lists. *)
Lemma elem_of_intersection (a b : list Z) (i : Z) :
  In i (intersection a b) <-> In i a /\ In i b.
Proof.
  unfold intersection, zmem. rewrite filter_In, existsb_exists.
  split.
  - intros [Ha [x [Hx Heq]]]. apply Z.eqb_eq in Heq. subst x. auto.
  - intros [Ha Hb]. split; [assumption|]. exists i. split; [assumption|].
    apply Z.eqb_refl.
Qed.

(** When the FD block leaves at least one offending point, the DVARS
    block keeps exactly the points both series flag. *)
Lemma dvars_block_intersects (raw : list Q) (threshold : pyval) (c : cutoff)
  (i : Z) (offending : list Z) (len : nat) :
  truthy threshold = true ->
  resolve_threshold float_of_str (0%Q :: raw) threshold = Some c ->
  dvars_block float_of_str (Loaded raw) threshold (i :: offending, len)
  = Ok (intersection (i :: offending) (where_exceeds (0%Q :: raw) c),
        S (length raw)).
Proof.
  intros Ht Hc. unfold dvars_block. rewrite Ht, Hc. reflexivity.
Qed.

(** When the FD block leaves no offending point -- no FD series, or an FD
    series that never exceeds its threshold -- the DVARS block takes every
    point DVARS flags. *)
Lemma dvars_block_replaces_empty (raw : list Q) (threshold : pyval)
  (c : cutoff) (len : nat) :
  truthy threshold = true ->
  resolve_threshold float_of_str (0%Q :: raw) threshold = Some c ->
  dvars_block float_of_str (Loaded raw) threshold ([], len)
  = Ok (where_exceeds (0%Q :: raw) c, S (length raw)).
Proof.
  intros Ht Hc. unfold dvars_block. rewrite Ht, Hc. reflexivity.
Qed.

(** One offending point with a window of one point on each side: the
    points 1, 2 and 3 of five are censored. *)
Lemma censor_window_example :
  find_offending_time_points float_of_str
    (Loaded [0; 0; 5; 0; 0]%Q) NoPath (PInt 1) PNone 1 1
  = Ok [1; 0; 0; 0; 1]%Z.
Proof. reflexivity. Qed.

End CensorFacts.

(** C1.  With both series and both thresholds supplied, the offending set
    is claimed to be the intersection of the two per-series sets, also
    when FD flags nothing.  On the series [quiet_fd] (threshold 1) and
    [loud_dvars] (threshold 1) FD flags nothing, DVARS flags the points 1
    and 2, the intersection is empty -- and the function keeps the points
    1 and 2 and censors them.  When FD flags a point the function does
    intersect: FD flagging 2 and 5 and DVARS flagging 5 and 7 leave 5. *)
Theorem find_offending_time_points_fd_flags_nothing :
  Censor.where_exceeds Examples.quiet_fd (Py.Cut 1) = []
  /\ Censor.where_exceeds (0%Q :: Examples.loud_dvars) (Py.Cut 1) = [1; 2]%Z
  /\ Censor.intersection [] [1; 2]%Z = []
  /\ Censor.offending_time_points Py.float_of_decimal
       (Censor.Loaded Examples.quiet_fd) (Censor.Loaded Examples.loud_dvars)
       (Py.PInt 1) (Py.PInt 1)
     = Py.Ok ([1; 2]%Z, 3%nat)
  /\ Censor.find_offending_time_points Py.float_of_decimal
       (Censor.Loaded Examples.quiet_fd) (Censor.Loaded Examples.loud_dvars)
       (Py.PInt 1) (Py.PInt 1) 0 0
     = Py.Ok [1; 0; 0]%Z
  /\ Censor.offending_time_points Py.float_of_decimal
       (Censor.Loaded Examples.fd_2_5) (Censor.Loaded Examples.dvars_5_7)
       (Py.PInt 1) (Py.PInt 1)
     = Py.Ok ([5]%Z, 8%nat).
Proof. repeat split; vm_compute; reflexivity. Qed.

(** C10.  A DVARS series supplied with the threshold 0 is claimed to
    raise the missing-threshold error in every call.  The DVARS test comes
    after the FD block: with an FD path that names no file, or an FD
    threshold that cannot be read, the call raises the error of the FD
    block and never reaches the test on the DVARS threshold. *)
Lemma zero_dvars_threshold_behind_fd_error :
  Censor.find_offending_time_points Py.float_of_decimal
    Censor.NotAFile (Censor.Loaded Examples.loud_dvars)
    (Py.PFloat (1 # 2)) (Py.PInt 0) 0 0
  = Py.Raise (Py.ValueError Censor.msg_fd_not_found)
  /\ Censor.find_offending_time_points Py.float_of_decimal
       (Censor.Loaded Examples.quiet_fd) (Censor.Loaded Examples.loud_dvars)
       (Py.PStr "abc") (Py.PInt 0) 0 0
     = Py.Raise (Py.ValueError Censor.msg_fd_threshold_invalid)
  /\ Censor.msg_fd_not_found <> Censor.msg_dvars_threshold_missing
  /\ Censor.msg_fd_threshold_invalid <> Censor.msg_dvars_threshold_missing.
Proof. repeat split; vm_compute; congruence. Qed.

(** C10, as the code has it.  A series supplied with the numeric
    threshold 0 (the integer 0 or the float 0.0) raises the
    missing-threshold error, exactly as an absent threshold does.  For FD
    this is the outcome of every such call.  The DVARS test comes after
    the FD block: every such call raises, with the DVARS missing-threshold
    error once the FD block is through and with the error of the FD block
    otherwise. *)
Theorem zero_threshold_is_missing_threshold :
  forall (float_of_str : string -> option Q)
         (fd dv : Censor.series_file) (xs ys : list Q)
         (fd_threshold dvars_threshold : Py.pyval) (d : positive)
         (previous subsequent : Z),
    let run := Censor.find_offending_time_points float_of_str in
    let zero_int := Py.PInt 0 in
    let zero_float := Py.PFloat (0 # d) in
    (run (Censor.Loaded xs) dv zero_int dvars_threshold previous subsequent
     = Py.Raise (Py.ValueError Censor.msg_fd_threshold_missing))
    /\ (run (Censor.Loaded xs) dv zero_float dvars_threshold previous subsequent
        = Py.Raise (Py.ValueError Censor.msg_fd_threshold_missing))
    /\ (run fd (Censor.Loaded ys) fd_threshold zero_int previous subsequent
        = match Censor.fd_block float_of_str fd fd_threshold with
          | Py.Ok _ =>
              Py.Raise (Py.ValueError Censor.msg_dvars_threshold_missing)
          | Py.Raise e => Py.Raise e
          end)
    /\ (run fd (Censor.Loaded ys) fd_threshold zero_float previous subsequent
        = match Censor.fd_block float_of_str fd fd_threshold with
          | Py.Ok _ =>
              Py.Raise (Py.ValueError Censor.msg_dvars_threshold_missing)
          | Py.Raise e => Py.Raise e
          end)
    /\ (run Censor.NoPath (Censor.Loaded ys) fd_threshold zero_int
            previous subsequent
        = Py.Raise (Py.ValueError Censor.msg_dvars_threshold_missing))
    /\ (run (Censor.Loaded xs) dv zero_int dvars_threshold previous subsequent
        = run (Censor.Loaded xs) dv Py.PNone dvars_threshold previous subsequent)
    /\ (run (Censor.Loaded xs) dv zero_float dvars_threshold previous subsequent
        = run (Censor.Loaded xs) dv Py.PNone dvars_threshold previous subsequent)
    /\ (run fd (Censor.Loaded ys) fd_threshold zero_int previous subsequent
        = run fd (Censor.Loaded ys) fd_threshold Py.PNone previous subsequent)
    /\ (run fd (Censor.Loaded ys) fd_threshold zero_float previous subsequent
        = run fd (Censor.Loaded ys) fd_threshold Py.PNone previous subsequent).
Proof.
  intros float_of_str fd dv xs ys fd_threshold dvars_threshold d
         previous subsequent run zero_int zero_float.
  assert (Hfloat : Py.truthy zero_float = false) by reflexivity.
  unfold run, Censor.find_offending_time_points, Censor.offending_time_points.
  repeat split;
    try reflexivity;
    try (unfold mbind, Py.result_bind;
         destruct (Censor.fd_block float_of_str fd fd_threshold)
           as [[offending len]|e];
         reflexivity).
Qed.

(* ===================================================================== *)
(** * Properties of [create_temporal_variance_mask]                      *)
(* ===================================================================== *)

Section VarianceMaskFacts.
Import Py VarianceMask.

Lemma in_slice_whole (v : nat) : in_slice 1 0 v = true.
Proof. unfold in_slice. rewrite Nat.mod_1_r. reflexivity. Qed.

Lemma slice_filter_shift (mask_data : list bool) (variance : list Q) :
  forall (start : nat) (whole : list bool),
    (forall i, nth (start + i) whole false = nth i mask_data false) ->
    List.map snd
      (List.filter
         (fun '(v, x) => in_slice 1 0 v && nth v whole false)
         (combine (seq start (length variance)) variance))
    = masked_values mask_data variance.
Proof.
  revert mask_data.
  induction variance as [|x variance IH]; intros mask_data start whole Hw.
  - destruct mask_data; reflexivity.
  - cbn [length seq combine List.filter].
    rewrite in_slice_whole. cbn [andb].
    pose proof (Hw 0%nat) as H0. rewrite Nat.add_0_r in H0. rewrite H0.
    assert (Hrest : forall mask',
               (forall i, nth (S start + i) whole false = nth i mask' false) ->
               List.map snd
                 (List.filter
                    (fun '(v, x) => in_slice 1 0 v && nth v whole false)
                    (combine (seq (S start) (length variance)) variance))
               = masked_values mask' variance)
      by (intros mask' Hm; apply IH; exact Hm).
    destruct mask_data as [|m mask_data].
    + cbn [nth]. cbn [masked_values].
      rewrite (Hrest []); [destruct variance; reflexivity|].
      intros i. replace (S start + i)%nat with (start + S i)%nat by lia.
      rewrite Hw. destruct i; reflexivity.
    + cbn [nth masked_values].
      assert (Hm : forall i,
                 nth (S start + i) whole false = nth i mask_data false).
      { intros i. replace (S start + i)%nat with (start + S i)%nat by lia.
        rewrite Hw. reflexivity. }
      destruct m; cbn [List.map snd]; rewrite (Hrest mask_data Hm); reflexivity.
Qed.

(** With one column the only slice holds every voxel of the mask. *)
Lemma slice_values_whole (mask_data : list bool) (variance : list Q) :
  slice_values 1 0 mask_data variance = masked_values mask_data variance.
Proof.
  unfold slice_values. apply slice_filter_shift. intros i. reflexivity.
Qed.

Lemma masked_values_nil (mask_data : list bool) (variance : list Q) :
  masked_values mask_data variance = [] ->
  forall v, (v < length variance)%nat -> nth v mask_data false = false.
Proof.
  revert variance.
  induction mask_data as [|m mask_data IH]; intros variance Hnil v Hv.
  - destruct v; reflexivity.
  - destruct variance as [|x variance]; [cbn in Hv; lia|].
    cbn [masked_values] in Hnil. destruct m; [discriminate|].
    destruct v as [|v]; [reflexivity|].
    cbn [nth]. apply (IH variance Hnil). cbn in Hv. lia.
Qed.

Lemma nth_map_indexed {A B} (f : nat * A -> B) (d : A) (db : B) (l : list A) :
  forall (start v : nat),
    (v < length l)%nat ->
    nth v (List.map f (combine (seq start (length l)) l)) db
    = f ((start + v)%nat, nth v l d).
Proof.
  induction l as [|x l IH]; intros start v Hv; [cbn in Hv; lia|].
  cbn [length seq combine List.map].
  destruct v as [|v].
  - cbn [nth]. rewrite Nat.add_0_r. reflexivity.
  - cbn [nth]. rewrite IH by (cbn in Hv; lia).
    rewrite Nat.add_succ_r. reflexivity.
Qed.

Lemma temporal_variance_length (nvox nt : nat) (samples : list Q) :
  length (temporal_variance nvox nt samples) = nvox.
Proof.
  unfold temporal_variance.
  rewrite length_map, length_seq. reflexivity.
Qed.

(** A percentage threshold over all data: voxel [v] is kept when the mask
    has it and its variance is strictly above the percentile. *)
Lemma output_variance_mask_pct (p : Q) (mask_data : list bool)
  (variance : list Q) (v : nat) :
  (v < length variance)%nat ->
  nth v (output_variance_mask PCT p 1 mask_data variance) false
  = nth v mask_data false
    && Qltb (percentile (masked_values mask_data variance) (100 - p))
            (nth v variance 0%Q).
Proof.
  intros Hv. unfold output_variance_mask.
  rewrite (nth_map_indexed _ 0%Q) by exact Hv.
  cbn [Nat.add]. rewrite Nat.mod_1_r.
  unfold slice_threshold. rewrite slice_values_whole.
  destruct (masked_values mask_data variance) as [|x values] eqn:Hvalues.
  - rewrite (masked_values_nil _ _ Hvalues v Hv). reflexivity.
  - reflexivity.
Qed.

(** A voxel of the output is a voxel of the mask. *)
Lemma output_variance_mask_within (method : threshold_method) (tv : Q)
  (columns : nat) (mask_data : list bool) (variance : list Q) (v : nat) :
  nth v (output_variance_mask method tv columns mask_data variance) false
  = true ->
  nth v mask_data false = true.
Proof.
  intros Hout.
  destruct (Nat.lt_ge_cases v (length variance)) as [Hv|Hv].
  - unfold output_variance_mask in Hout.
    rewrite (nth_map_indexed _ 0%Q) in Hout by exact Hv.
    cbn [Nat.add] in Hout.
    destruct (slice_threshold _ _ _ _ _ _); [|discriminate].
    apply andb_true_iff in Hout. apply Hout.
  - rewrite nth_overflow in Hout; [discriminate|].
    unfold output_variance_mask.
    rewrite length_map, length_combine, length_seq. lia.
Qed.

Lemma is_nifti_path_given (path : option string) :
  is_nifti_path path = true -> path_given path = true.
Proof.
  destruct path as [p|]; [|discriminate]. cbn.
  destruct (negb (p =? "")%string); [reflexivity|discriminate].
Qed.

(** [ends_with] is [endswith]: the text is some stem followed by the
    suffix. *)
Lemma ends_with_spec (suffix s : string) :
  ends_with suffix s = true <-> exists stem, s = stem ++ suffix.
Proof.
  split.
  - induction s as [|c s IH]; cbn [ends_with]; intros H;
      apply orb_true_iff in H; destruct H as [H|H].
    + apply String.eqb_eq in H. exists "". exact H.
    + discriminate.
    + apply String.eqb_eq in H. exists "". exact H.
    + destruct (IH H) as [stem ->]. exists (String c stem). reflexivity.
  - intros [stem ->]. induction stem as [|c stem IH].
    + change ("" ++ suffix) with suffix.
      destruct suffix as [|c suffix]; [reflexivity|].
      cbn [ends_with]. rewrite String.eqb_refl. reflexivity.
    + change (String c stem ++ suffix) with (String c (stem ++ suffix)).
      cbn [ends_with]. rewrite IH. apply orb_true_r.
Qed.

Lemma is_nifti_path_spec (p : string) :
  is_nifti_path (Some p) = true <-> p <> "" /\ nifti_name p.
Proof.
  unfold is_nifti_path, nifti_name.
  rewrite andb_true_iff, negb_true_iff, orb_true_iff, !ends_with_spec.
  split.
  - intros [Hne [[stem ->]|[stem ->]]];
      (split; [apply String.eqb_neq; exact Hne|]); exists stem; auto.
  - intros [Hne [stem [-> | ->]]];
      (split; [apply String.eqb_neq; exact Hne|]); [left|right];
      exists stem; reflexivity.
Qed.

Variable float_of_str : string -> option Q.
Variable load : string -> option nifti.

(** What a call that returns has gone through: the mask image is read
    from the mask path, and the result is made of its shape, its affine
    and voxels of its mask. *)
Lemma variance_mask_returns (functional_file_path mask_file_path : option string)
  (threshold by_slice : pyval) (out : nifti) :
  create_temporal_variance_mask float_of_str load
    functional_file_path mask_file_path threshold by_slice = Ok out ->
  exists path mask_image output,
    mask_file_path = Some path
    /\ is_nifti_path (Some path) = true
    /\ load path = Some mask_image
    /\ out = {| shape := shape mask_image; affine := affine mask_image;
                data := List.map uint8 output |}
    /\ forall v, nth v output false = true ->
                 nth v (List.map (fun x => negb (Qeq_bool x 0))
                                 (data mask_image)) false = true.
Proof.
  unfold create_temporal_variance_mask. intros Hrun.
  destruct (is_nifti_path functional_file_path) eqn:Hfpath;
    cbn [negb] in Hrun; [|discriminate].
  destruct (is_nifti_path mask_file_path) eqn:Hmpath;
    cbn [negb] in Hrun; [|discriminate].
  rewrite (is_nifti_path_given _ Hmpath) in Hrun.
  destruct mask_file_path as [path|]; [|discriminate].
  cbn [mbind option_bind] in Hrun.
  destruct (negb (truthy threshold)); [discriminate|].
  destruct (parse_threshold threshold) as [method value].
  destruct (to_float float_of_str value) as [tv|]; [|discriminate].
  destruct (Qltb tv 0); [discriminate|].
  destruct (method_eqb method PCT && Qle_bool 100 tv); [discriminate|].
  destruct by_slice as [|by_slice| | | | |]; try discriminate.
  destruct (functional_file_path ≫= load) as [img|]; [|discriminate].
  destruct (shape img) as [|nx [|ny [|nz [|nt [|? ?]]]]]; try discriminate.
  destruct (nt <? 3)%nat; [discriminate|].
  destruct (load path) as [mask_image|] eqn:Hload; [|discriminate].
  destruct (negb _); [discriminate|].
  cbn [mbind result_bind] in Hrun.
  injection Hrun as <-.
  eexists path, mask_image, _.
  split; [reflexivity|]. split; [exact Hmpath|]. split; [exact Hload|].
  split; [reflexivity|].
  intros v. apply output_variance_mask_within.
Qed.

End VarianceMaskFacts.

(** C5.  Without a mask volume the function is claimed not to fail and to
    take the voxels of non-zero variance.  The test on [mask_file_path]
    refuses the call before any image is read: here with a well-formed
    functional path, an absolute threshold and no mask path. *)
Lemma variance_mask_without_mask_fails :
  VarianceMask.create_temporal_variance_mask Py.float_of_decimal
    Examples.load (Some "func.nii.gz") None (Py.PFloat 1) (Py.PBool false)
  = Py.Raise (Py.ValueError VarianceMask.msg_improper_mask).
Proof. reflexivity. Qed.

(** C5, as the code has it.  The mask path has to be a non-empty path
    that ends in [.nii] or [.nii.gz]: without one ([None], the empty
    string, or any other name) the call raises a [ValueError] for every
    functional path, threshold, flag and file content -- the one about the
    mask file when the functional path is well formed, the one about the
    functional path (tested first) otherwise.  A call that returns has
    read the mask image from such a path; its result has the shape and
    the affine of that image, and every voxel it sets is a non-zero voxel
    of that image.  The fallback on the voxels of non-zero variance is
    never reached. *)
Theorem variance_mask_requires_mask_path :
  forall (float_of_str : string -> option Q)
         (load : string -> option VarianceMask.nifti)
         (functional_file_path mask_file_path : option string)
         (threshold by_slice : Py.pyval),
    let run :=
      VarianceMask.create_temporal_variance_mask float_of_str load
        functional_file_path mask_file_path threshold by_slice in
    ((mask_file_path = None \/ mask_file_path = Some ""
      \/ (exists p, mask_file_path = Some p /\ ~ VarianceMask.nifti_name p)) ->
     (run = Py.Raise (Py.ValueError VarianceMask.msg_improper_functional)
      \/ run = Py.Raise (Py.ValueError VarianceMask.msg_improper_mask))
     /\ ((exists f, functional_file_path = Some f /\ f <> ""
                    /\ VarianceMask.nifti_name f) ->
         run = Py.Raise (Py.ValueError VarianceMask.msg_improper_mask)))
    /\ (forall out,
          run = Py.Ok out ->
          exists p mask_image,
            mask_file_path = Some p /\ p <> "" /\ VarianceMask.nifti_name p
            /\ load p = Some mask_image
            /\ VarianceMask.shape out = VarianceMask.shape mask_image
            /\ VarianceMask.affine out = VarianceMask.affine mask_image
            /\ forall v,
                 nth v (VarianceMask.data out) 0%Q = 1%Q ->
                 Qeq_bool (nth v (VarianceMask.data mask_image) 0%Q) 0
                 = false).
Proof.
  intros float_of_str load functional_file_path mask_file_path threshold
         by_slice run.
  split.
  - intros Hmask.
    assert (Hno : VarianceMask.is_nifti_path mask_file_path = false).
    { destruct Hmask as [-> | [-> | (p & -> & Hname)]]; try reflexivity.
      destruct (VarianceMask.is_nifti_path (Some p)) eqn:E; [|reflexivity].
      apply is_nifti_path_spec in E. destruct E as [_ E]. contradiction. }
    unfold run, VarianceMask.create_temporal_variance_mask.
    rewrite Hno.
    destruct (VarianceMask.is_nifti_path functional_file_path) eqn:Hfpath;
      cbn [negb].
    + split; [right; reflexivity|]. intros _. reflexivity.
    + split; [left; reflexivity|].
      intros (f & -> & Hne & Hname). exfalso.
      assert (Hyes : VarianceMask.is_nifti_path (Some f) = true)
        by (apply is_nifti_path_spec; split; assumption).
      congruence.
  - intros out Hrun.
    destruct (variance_mask_returns float_of_str load _ _ _ _ _ Hrun)
      as (path & mask_image & output & -> & Hpath & Hload & -> & Hwithin).
    apply is_nifti_path_spec in Hpath. destruct Hpath as [Hne Hname].
    exists path, mask_image.
    split; [reflexivity|]. split; [exact Hne|]. split; [exact Hname|].
    split; [exact Hload|]. split; [reflexivity|]. split; [reflexivity|].
    intros v. cbn [VarianceMask.data].
    assert (Hnth : nth v (List.map VarianceMask.uint8 output) 0%Q
                   = VarianceMask.uint8 (nth v output false))
      by exact (map_nth VarianceMask.uint8 output false v).
    rewrite Hnth. intros Hone.
    destruct (nth v output false) eqn:Hout; [|discriminate].
    apply Hwithin in Hout.
    assert (Hmask : nth v (List.map (fun x => negb (Qeq_bool x 0))
                             (VarianceMask.data mask_image)) false
                    = negb (Qeq_bool
                              (nth v (VarianceMask.data mask_image) 0%Q) 0))
      by exact (map_nth (fun x => negb (Qeq_bool x 0))
                  (VarianceMask.data mask_image) 0%Q v).
    rewrite Hmask in Hout. apply negb_true_iff in Hout. exact Hout.
Qed.

(** A mask path that is not the name of a nifti file is refused, and the
    call of C6 on [Examples.variance_volume] returns a mask within
    [Examples.whole_mask]. *)
Lemma variance_mask_requires_mask_path_witness :
  VarianceMask.create_temporal_variance_mask Py.float_of_decimal
    Examples.load (Some "func.nii.gz") (Some "mask.txt") (Py.PFloat 1)
    (Py.PBool false)
  = Py.Raise (Py.ValueError VarianceMask.msg_improper_mask)
  /\ exists p mask_image,
       Some "mask.nii.gz" = Some p /\ p <> "" /\ VarianceMask.nifti_name p
       /\ Examples.load p = Some mask_image
       /\ [3; 1; 1]%nat = VarianceMask.shape mask_image
       /\ VarianceMask.affine Examples.whole_mask
          = VarianceMask.affine mask_image
       /\ forall v,
            nth v [0; 0; 1]%Q 0%Q = 1%Q ->
            Qeq_bool (nth v (VarianceMask.data mask_image) 0%Q) 0 = false.
Proof.
  split.
  - destruct (variance_mask_requires_mask_path Py.float_of_decimal
                Examples.load (Some "func.nii.gz") (Some "mask.txt")
                (Py.PFloat 1) (Py.PBool false)) as [Hrefused _].
    apply Hrefused.
    + right. right. exists "mask.txt". split; [reflexivity|].
      intros Hname.
      assert (Hyes : VarianceMask.is_nifti_path (Some "mask.txt") = true)
        by (apply is_nifti_path_spec; split; [discriminate|exact Hname]).
      discriminate Hyes.
    + exists "func.nii.gz". split; [reflexivity|]. split; [discriminate|].
      exists "func". right. reflexivity.
  - destruct (variance_mask_requires_mask_path Py.float_of_decimal
                Examples.load (Some "func.nii.gz") (Some "mask.nii.gz")
                (Py.PStr "50PCT") (Py.PBool false)) as [_ Hreturned].
    apply (Hreturned
             {| VarianceMask.shape := [3; 1; 1]%nat;
                VarianceMask.affine := VarianceMask.affine Examples.whole_mask;
                VarianceMask.data := [0; 0; 1]%Q |}).
    vm_compute. reflexivity.
Defined.

(** C6.  The threshold 50PCT over all data is claimed to keep the voxels
    at or above the 50th percentile.  In [Examples.variance_volume] the
    three voxels have the variances 0, 2 and 8, all are in the mask and the
    50th percentile is 2: voxel 1 is at the percentile and is left out. *)
Lemma percent_threshold_drops_voxel_at_percentile :
  let variance :=
    VarianceMask.temporal_variance 3 3
      (VarianceMask.data Examples.variance_volume) in
  let eligible := [true; true; true] in
  VarianceMask.create_temporal_variance_mask Py.float_of_decimal
    Examples.load (Some "func.nii.gz") (Some "mask.nii.gz")
    (Py.PStr "50PCT") (Py.PBool false)
  = Py.Ok {| VarianceMask.shape := [3; 1; 1]%nat;
             VarianceMask.affine := VarianceMask.affine Examples.whole_mask;
             VarianceMask.data := [0; 0; 1]%Q |}
  /\ Qeq_bool (nth 1 variance 0%Q) 2 = true
  /\ Qeq_bool
       (VarianceMask.percentile
          (VarianceMask.masked_values eligible variance) 50) 2 = true.
Proof. repeat split; vm_compute; reflexivity. Qed.

(** C6, as the code has it.  For well-formed inputs (both paths name
    nifti files, the functional image is 4D with 3 or more time points,
    the mask has its shape and affine), a threshold that reads as
    [<p>PCT], with [0 <= p < 100], and [by_slice=False] produce a mask of
    the shape of the mask image in which voxel [v] is 1 exactly when the
    mask has it and its temporal variance is strictly above the
    percentile at [100 - p] of the variances of the voxels of the mask.
    The threshold 50PCT is the case [p = 50], where [100 - p] is 50. *)
Theorem percent_threshold_keeps_strictly_above
  (float_of_str : string -> option Q)
  (load : string -> option VarianceMask.nifti)
  (functional_path mask_path : string)
  (functional_img mask_image : VarianceMask.nifti)
  (threshold group : string) (p : Q)
  (nx ny nz nt v : nat) :
  VarianceMask.parse_threshold (Py.PStr threshold)
  = (VarianceMask.PCT, Py.PStr group) ->
  float_of_str group = Some p ->
  (0 <= p)%Q -> (p < 100)%Q ->
  VarianceMask.is_nifti_path (Some functional_path) = true ->
  VarianceMask.is_nifti_path (Some mask_path) = true ->
  load functional_path = Some functional_img ->
  load mask_path = Some mask_image ->
  VarianceMask.shape functional_img = [nx; ny; nz; nt] ->
  (3 <= nt)%nat ->
  VarianceMask.shape mask_image = [nx; ny; nz] ->
  VarianceMask.affine_eqb (VarianceMask.affine mask_image)
                          (VarianceMask.affine functional_img) = true ->
  (v < nx * ny * nz)%nat ->
  let variance :=
    VarianceMask.temporal_variance (nx * ny * nz) nt
      (VarianceMask.data functional_img) in
  let eligible :=
    List.map (fun x => negb (Qeq_bool x 0)) (VarianceMask.data mask_image) in
  exists out,
    VarianceMask.create_temporal_variance_mask float_of_str load
      (Some functional_path) (Some mask_path) (Py.PStr threshold)
      (Py.PBool false) = Py.Ok out
    /\ VarianceMask.shape out = VarianceMask.shape mask_image
    /\ nth v (VarianceMask.data out) 0%Q
       = VarianceMask.uint8
           (nth v eligible false
            && Py.Qltb (VarianceMask.percentile
                          (VarianceMask.masked_values eligible variance)
                          (100 - p))
                       (nth v variance 0%Q)).
Proof.
  intros Hparse Hfloat Hpos Hbelow Hfpath Hmpath Hfload Hmload Hfshape Hnt
         Hmshape Haffine Hv variance eligible.
  assert (Htruthy : Py.truthy (Py.PStr threshold) = true).
  { destruct threshold as [|c threshold]; [|reflexivity].
    vm_compute in Hparse. discriminate Hparse. }
  assert (Hnonneg : Py.Qltb p 0 = false).
  { unfold Py.Qltb. apply negb_false_iff, Qle_bool_iff. exact Hpos. }
  assert (Hrange : Qle_bool 100 p = false).
  { destruct (Qle_bool 100 p) eqn:E; [|reflexivity].
    apply Qle_bool_iff in E. exfalso. exact (Qlt_not_le _ _ Hbelow E). }
  unfold VarianceMask.create_temporal_variance_mask.
  rewrite Hfpath, Hmpath, Htruthy, Hparse. cbn [negb].
  cbn [Py.to_float]. rewrite Hfloat, Hnonneg, Hrange.
  cbn [VarianceMask.method_eqb andb].
  cbn [mbind option_bind]. rewrite Hfload, Hfshape.
  destruct (nt <? 3)%nat eqn:Hlt; [apply Nat.ltb_lt in Hlt; lia|].
  assert (Hgiven : VarianceMask.path_given (Some mask_path) = true).
  { cbn in Hmpath |- *. destruct (negb (mask_path =? "")%string);
      [reflexivity|discriminate]. }
  rewrite Hgiven. cbn [mbind option_bind]. rewrite Hmload, Hmshape, Haffine.
  unfold VarianceMask.shape_eqb. rewrite decide_True by reflexivity.
  cbn [andb negb mbind Py.result_bind].
  eexists. split; [reflexivity|]. split; [exact Hmshape|].
  cbn [VarianceMask.data].
  fold variance. fold eligible.
  assert (Hlen : (v < length variance)%nat).
  { unfold variance. rewrite temporal_variance_length. exact Hv. }
  set (output := VarianceMask.output_variance_mask _ _ _ _ _).
  assert (Hnth : nth v (List.map VarianceMask.uint8 output) 0%Q
                 = VarianceMask.uint8 (nth v output false))
    by exact (map_nth VarianceMask.uint8 output false v).
  rewrite Hnth. unfold output.
  rewrite output_variance_mask_pct by exact Hlen.
  reflexivity.
Qed.

(** The threshold 25PCT on [Examples.variance_volume]: the percentile at
    75 of the variances 0, 2 and 8 is 5, the one at 25 is 1; voxel 1, of
    variance 2, is left out and the top voxel alone is kept. *)
Lemma percent_threshold_keeps_strictly_above_witness :
  (exists out,
     VarianceMask.create_temporal_variance_mask Py.float_of_decimal
       Examples.load (Some "func.nii.gz") (Some "mask.nii.gz")
       (Py.PStr "25PCT") (Py.PBool false) = Py.Ok out
     /\ VarianceMask.shape out = [3; 1; 1]%nat
     /\ nth 1 (VarianceMask.data out) 0%Q
        = VarianceMask.uint8
            (nth 1 (List.map (fun x => negb (Qeq_bool x 0))
                             (VarianceMask.data Examples.whole_mask)) false
             && Py.Qltb
                  (VarianceMask.percentile
                     (VarianceMask.masked_values
                        (List.map (fun x => negb (Qeq_bool x 0))
                                  (VarianceMask.data Examples.whole_mask))
                        (VarianceMask.temporal_variance (3 * 1 * 1) 3
                           (VarianceMask.data Examples.variance_volume)))
                     (100 - 25))
                  (nth 1 (VarianceMask.temporal_variance (3 * 1 * 1) 3
                            (VarianceMask.data Examples.variance_volume)) 0%Q)))
  /\ VarianceMask.create_temporal_variance_mask Py.float_of_decimal
       Examples.load (Some "func.nii.gz") (Some "mask.nii.gz")
       (Py.PStr "25PCT") (Py.PBool false)
     = Py.Ok {| VarianceMask.shape := [3; 1; 1]%nat;
                VarianceMask.affine := VarianceMask.affine Examples.whole_mask;
                VarianceMask.data := [0; 0; 1]%Q |}
  /\ Qeq_bool
       (VarianceMask.percentile
          (VarianceMask.temporal_variance 3 3
             (VarianceMask.data Examples.variance_volume)) 75) 5 = true
  /\ Qeq_bool
       (VarianceMask.percentile
          (VarianceMask.temporal_variance 3 3
             (VarianceMask.data Examples.variance_volume)) 25) 1 = true.
Proof.
  split; [|repeat split; vm_compute; reflexivity].
  apply (percent_threshold_keeps_strictly_above Py.float_of_decimal
           Examples.load "func.nii.gz" "mask.nii.gz"
           Examples.variance_volume Examples.whole_mask "25PCT" "25" 25
           3 1 1 3 1);
    first [reflexivity | cbn; lia | vm_compute; reflexivity
          | vm_compute; discriminate ].
Defined.

(* ===================================================================== *)
(** * Properties of [generate_summarize_tissue_mask]                     *)
(* ===================================================================== *)

Section TissueMaskFacts.
Import Py TissueMask.

Create HintDb quiet.

Lemma quiet_ret {A} (a : A) : quiet (mret a).
Proof. intros st. split; reflexivity. Qed.

Lemma quiet_raise {A} (e : exn) : quiet (raise (A := A) e).
Proof. intros st. split; reflexivity. Qed.

Lemma quiet_lift {A} (r : result A) : quiet (lift r).
Proof. intros st. split; reflexivity. Qed.

Lemma quiet_new_node (interface name : string) :
  quiet (new_node interface name).
Proof. intros st. split; reflexivity. Qed.

Lemma quiet_set_input (n : nat) (field : string) (value : pyval) :
  quiet (set_input n field value).
Proof. intros st. split; reflexivity. Qed.

Lemma quiet_connect (src dst : handle) : quiet (connect src dst).
Proof. intros st. split; reflexivity. Qed.

Lemma quiet_pool_mem (key : string) : quiet (pool_mem key).
Proof. intros st. split; reflexivity. Qed.

Lemma quiet_pool_item (key : string) : quiet (pool_item key).
Proof. intros st. split; reflexivity. Qed.

Lemma quiet_as_handle (r : resource) : quiet (as_handle r).
Proof. destruct r; intros st; split; reflexivity. Qed.

Lemma quiet_transform_item (transforms : resource) (key : string) :
  quiet (transform_item transforms key).
Proof.
  destruct transforms as [h|t]; cbn [transform_item].
  - apply quiet_raise.
  - destruct (t !! key); [apply quiet_ret|apply quiet_raise].
Qed.

Lemma quiet_bind {A B} (m : build A) (k : A -> build B) :
  quiet m -> (forall a, quiet (k a)) -> quiet (m ≫= k).
Proof.
  intros Hm Hk st. unfold mbind, build_bind.
  specialize (Hm st). destruct (m st) as [st1 [a|e]]; cbn [fst] in *.
  - specialize (Hk a st1). destruct Hk as [Hp Hr], Hm as [Hp' Hr'].
    split; congruence.
  - exact Hm.
Qed.

Hint Resolve quiet_ret quiet_raise quiet_lift quiet_new_node quiet_set_input
  quiet_connect quiet_pool_mem quiet_pool_item quiet_as_handle
  quiet_transform_item : quiet.

Ltac quiet_steps :=
  repeat (first [ apply quiet_bind; [|intros ?] | solve [auto with quiet] ]).

Lemma quiet_connect_from_pool (key : string) (dst : handle) :
  quiet (connect_from_pool key dst).
Proof. unfold connect_from_pool. quiet_steps. Qed.

Lemma quiet_connect_transform (transforms : resource) (key : string)
  (dst : handle) :
  quiet (connect_transform transforms key dst).
Proof. unfold connect_transform. quiet_steps. Qed.

Lemma quiet_selector_item (selector : list (string * pyval)) (key : string) :
  quiet (selector_item selector key).
Proof. apply quiet_lift. Qed.

Hint Resolve quiet_connect_from_pool quiet_connect_transform
  quiet_selector_item : quiet.

Lemma registers_pool_set (key : string) (h : handle) :
  registers key (pool_set key h).
Proof. intros st. right. exists h. split; reflexivity. Qed.

Lemma registers_quiet {A} (key : string) (m : build A) :
  quiet m -> registers key m.
Proof. intros Hm st. left. apply Hm. Qed.

(** Quiet work before the assignment. *)
Lemma registers_bind {A B} (key : string) (m : build A) (k : A -> build B) :
  quiet m -> (forall a, registers key (k a)) -> registers key (m ≫= k).
Proof.
  intros Hm Hk st. unfold mbind, build_bind.
  specialize (Hm st). destruct (m st) as [st1 [a|e]]; cbn [fst] in *.
  - destruct Hm as [Hp Hr]. specialize (Hk a st1).
    unfold assigns_at_most in *. rewrite Hp, Hr in Hk. exact Hk.
  - left. exact Hm.
Qed.

(** Quiet work after the assignment. *)
Lemma registers_then {A B} (key : string) (m : build A) (k : A -> build B) :
  registers key m -> (forall a, quiet (k a)) -> registers key (m ≫= k).
Proof.
  intros Hm Hk st. unfold mbind, build_bind.
  specialize (Hm st). destruct (m st) as [st1 [a|e]]; cbn [fst] in *.
  - destruct (Hk a st1) as [Hp Hr].
    unfold assigns_at_most in *. rewrite Hp, Hr. exact Hm.
  - exact Hm.
Qed.

Ltac registers_steps :=
  repeat (first [ apply registers_pool_set
                | apply registers_bind; [solve [quiet_steps]|intros ?] ]).

Variable format_value : pyval -> string.
Variable regressor_descriptor : gmap string string.
Variable regressor_selector : list (string * pyval).
Variable use_ants : bool.

Lemma registers_functional_variance (mask_key node_mask_key : string) :
  registers mask_key
    (build_functional_variance regressor_selector mask_key node_mask_key).
Proof. unfold build_functional_variance. registers_steps. Qed.

Lemma registers_cerebrospinal_fluid (mask_key : string) :
  registers mask_key (build_cerebrospinal_fluid use_ants mask_key).
Proof.
  unfold build_cerebrospinal_fluid.
  do 5 (apply registers_bind; [solve [quiet_steps]|intros ?]).
  apply registers_bind; [destruct use_ants; quiet_steps|intros ?].
  registers_steps.
Qed.

Lemma registers_tissue (mask_key node_mask_key : string) :
  registers mask_key
    (build_tissue regressor_selector use_ants mask_key node_mask_key).
Proof.
  unfold build_tissue.
  destruct (String.prefix "FunctionalVariance" mask_key).
  - apply registers_functional_variance.
  - destruct (mask_key =? "CerebrospinalFluid")%string.
    + apply registers_cerebrospinal_fluid.
    + apply registers_quiet, quiet_ret.
Qed.

Lemma registers_resolution (mask_key node_mask_key prev_mask_key : string) :
  registers mask_key
    (build_resolution format_value regressor_selector
       mask_key node_mask_key prev_mask_key).
Proof.
  unfold build_resolution.
  do 2 (apply registers_bind; [solve [quiet_steps]|intros ?]).
  apply registers_bind; [|intros ?; registers_steps].
  repeat match goal with
         | |- quiet (match ?x with _ => _ end) => destruct x
         end; quiet_steps.
Qed.

Lemma registers_erosion (mask_key node_mask_key prev_mask_key : string) :
  registers mask_key (build_erosion mask_key node_mask_key prev_mask_key).
Proof. unfold build_erosion. registers_steps. Qed.

(** One turn of the loop: nothing when the key is in the pool; otherwise
    at most the assignment of that key, made by the builder of the step. *)
Lemma mask_step_effect (steps : list string) (step_i : nat) (step : string)
  (st : state) :
  step_effect (key_of regressor_descriptor steps (step_i + 1)) st
    (mask_step format_value regressor_descriptor regressor_selector use_ants
       steps step_i step st).1.
Proof.
  unfold mask_step.
  set (mask_key := key_of regressor_descriptor steps (step_i + 1)).
  set (prev_mask_key := key_of regressor_descriptor steps step_i).
  set (node_mask_key := sub_non_word mask_key).
  unfold mbind at 1. unfold build_bind at 1. unfold pool_mem.
  destruct (bool_decide (is_Some (pool st !! mask_key))) eqn:Hpresent.
  - left. split; reflexivity.
  - apply bool_decide_eq_false in Hpresent.
    assert (Habsent : pool st !! mask_key = None).
    { destruct (pool st !! mask_key) eqn:E; [|reflexivity].
      exfalso. apply Hpresent. eexists. reflexivity. }
    assert (Hreg : registers mask_key
      ((if (step =? "tissue")%string
        then build_tissue regressor_selector use_ants mask_key node_mask_key
        else mret ());;
       (if (step =? "resolution")%string
        then build_resolution format_value regressor_selector
               mask_key node_mask_key prev_mask_key
        else mret ());;
       (if (step =? "erosion")%string
        then build_erosion mask_key node_mask_key prev_mask_key
        else mret ()))).
    { destruct (String.eqb_spec step "tissue") as [->|_].
      - cbn [String.eqb Ascii.eqb Bool.eqb].
        apply registers_then; [apply registers_tissue|].
        intros ?. quiet_steps.
      - apply registers_bind; [apply quiet_ret|intros ?].
        destruct (String.eqb_spec step "resolution") as [->|_].
        + cbn [String.eqb Ascii.eqb Bool.eqb].
          apply registers_then; [apply registers_resolution|].
          intros ?. quiet_steps.
        + apply registers_bind; [apply quiet_ret|intros ?].
          destruct (step =? "erosion")%string.
          * apply registers_erosion.
          * apply registers_quiet, quiet_ret. }
    destruct (Hreg st) as [Hsame|Hset].
    + left. exact Hsame.
    + right. split; [exact Habsent|exact Hset].
Qed.

Lemma run_effect_same (keys : list string) (st st' : state) :
  pool st' = pool st -> registered st' = registered st ->
  run_effect keys st st'.
Proof.
  intros Hp Hr. exists []. split; [|split; [|split]].
  - rewrite app_nil_r. exact Hr.
  - constructor.
  - intros k Hk. inversion Hk.
  - intros k _. rewrite Hp. reflexivity.
Qed.

Lemma run_effect_refl (keys : list string) (st : state) :
  run_effect keys st st.
Proof. apply run_effect_same; reflexivity. Qed.

Lemma run_effect_weaken (keys keys' : list string) (st st' : state) :
  (forall k, k ∈ keys -> k ∈ keys') ->
  run_effect keys st st' -> run_effect keys' st st'.
Proof.
  intros Hsub (new & Hreg & Hnodup & Hnew & Hold).
  exists new. split; [exact Hreg|]. split; [exact Hnodup|]. split; [|exact Hold].
  intros k Hk. destruct (Hnew k Hk) as (Hin & Hnone & Hh).
  split; [apply Hsub; exact Hin|]. split; assumption.
Qed.

Lemma step_effect_run (key : string) (st st' : state) :
  step_effect key st st' -> run_effect [key] st st'.
Proof.
  intros [[Hp Hr]|[Habsent [h [Hp Hr]]]].
  - apply run_effect_same; assumption.
  - exists [key]. split; [exact Hr|]. split; [apply NoDup_singleton|]. split.
    + intros k Hk. split; [exact Hk|].
      apply list_elem_of_singleton in Hk. subst k.
      split; [exact Habsent|].
      exists h. rewrite Hp. apply lookup_insert_eq.
    + intros k Hk. rewrite Hp. apply lookup_insert_ne.
      intros ->. apply Hk. apply list_elem_of_singleton. reflexivity.
Qed.

Lemma run_effect_trans (keys1 keys2 : list string) (st st1 st2 : state) :
  run_effect keys1 st st1 -> run_effect keys2 st1 st2 ->
  run_effect (keys1 ++ keys2) st st2.
Proof.
  intros (new1 & Hreg1 & Hnodup1 & Hnew1 & Hold1)
         (new2 & Hreg2 & Hnodup2 & Hnew2 & Hold2).
  assert (Hdisjoint : forall k, k ∈ new1 -> k ∈ new2 -> False).
  { intros k H1 H2.
    destruct (Hnew1 k H1) as (_ & _ & [h Hh]).
    destruct (Hnew2 k H2) as (_ & Hnone & _). congruence. }
  exists (new1 ++ new2)%list. split; [|split; [|split]].
  - rewrite Hreg2, Hreg1, app_assoc. reflexivity.
  - apply NoDup_app. split; [exact Hnodup1|]. split; [|exact Hnodup2].
    intros k H1 H2. exact (Hdisjoint k H1 H2).
  - intros k Hk. apply elem_of_app in Hk. destruct Hk as [H1|H2].
    + destruct (Hnew1 k H1) as (Hin & Hnone & [h Hh]).
      split; [apply elem_of_app; left; exact Hin|].
      split; [exact Hnone|].
      exists h. rewrite Hold2; [exact Hh|].
      intros H2. exact (Hdisjoint k H1 H2).
    + destruct (Hnew2 k H2) as (Hin & Hnone & Hh).
      split; [apply elem_of_app; right; exact Hin|].
      split; [|exact Hh].
      rewrite <- Hold1; [exact Hnone|].
      intros H1. exact (Hdisjoint k H1 H2).
  - intros k Hk.
    rewrite Hold2, Hold1; [reflexivity| |];
      intros Hin; apply Hk; apply elem_of_app; auto.
Qed.

(** The loop from step number [step_i] on. *)
Lemma mask_steps_effect (steps : list string) (todo : list string) :
  forall (step_i : nat) (st : state),
    run_effect
      (List.map (fun i => key_of regressor_descriptor steps (i + 1))
                (seq step_i (length todo)))
      st
      (mask_steps format_value regressor_descriptor regressor_selector
         use_ants steps step_i todo st).1.
Proof.
  induction todo as [|step todo IH]; intros step_i st.
  - apply run_effect_refl.
  - cbn [mask_steps length seq List.map].
    pose proof (mask_step_effect steps step_i step st) as Hstep.
    apply step_effect_run in Hstep.
    unfold mbind at 1. unfold build_bind at 1.
    destruct (mask_step format_value regressor_descriptor regressor_selector
                use_ants steps step_i step st) as [st1 [[]|e]];
      cbn [fst] in *.
    + specialize (IH (step_i + 1)%nat st1).
      replace (S step_i) with (step_i + 1)%nat by lia.
      apply (run_effect_trans [_] _ st st1 _ Hstep IH).
    + eapply run_effect_weaken; [|exact Hstep].
      intros k Hk. apply list_elem_of_singleton in Hk. subst k.
      apply elem_of_cons. left. reflexivity.
Qed.

(** The whole call, whether it returns or raises. *)
Lemma generate_effect (st : state) :
  run_effect (prefix_keys regressor_descriptor) st
    (generate_summarize_tissue_mask format_value regressor_descriptor
       regressor_selector use_ants st).1.
Proof.
  unfold generate_summarize_tissue_mask, prefix_keys.
  pose proof (mask_steps_effect (steps_of regressor_descriptor)
                (steps_of regressor_descriptor) 0 st) as Hrun.
  unfold mbind at 1. unfold build_bind at 1.
  destruct (mask_steps format_value regressor_descriptor regressor_selector
              use_ants (steps_of regressor_descriptor) 0
              (steps_of regressor_descriptor) st) as [st1 [[]|e]];
    exact Hrun.
Qed.

(** A turn of the loop whose key is in the pool does nothing at all. *)
Lemma mask_step_present (steps : list string) (step_i : nat) (step : string)
  (st : state) :
  is_Some (pool st !! key_of regressor_descriptor steps (step_i + 1)) ->
  mask_step format_value regressor_descriptor regressor_selector use_ants
    steps step_i step st = (st, Ok ()).
Proof.
  intros Hpresent. unfold mask_step.
  unfold mbind at 1. unfold build_bind at 1. unfold pool_mem.
  rewrite bool_decide_eq_true_2 by exact Hpresent. reflexivity.
Qed.

(** A sequence that returns has run both of its parts to their return. *)
Lemma ok_bind {A B} (m : build A) (k : A -> build B) (st st' : state) (b : B) :
  (m ≫= k) st = (st', Ok b) ->
  exists st1 a, m st = (st1, Ok a) /\ k a st1 = (st', Ok b).
Proof.
  unfold mbind, build_bind.
  destruct (m st) as [st1 [a|e]]; intros Hrun.
  - exists st1, a. split; [reflexivity|exact Hrun].
  - discriminate.
Qed.

Create HintDb keeps.

Lemma keeps_ret {A} (a : A) : keeps_nodes (mret a).
Proof. intros st. reflexivity. Qed.

Lemma keeps_raise {A} (e : exn) : keeps_nodes (raise (A := A) e).
Proof. intros st. reflexivity. Qed.

Lemma keeps_lift {A} (r : result A) : keeps_nodes (lift r).
Proof. intros st. reflexivity. Qed.

Lemma keeps_new_node (interface name : string) :
  keeps_nodes (new_node interface name).
Proof. intros st. cbn. rewrite length_app. lia. Qed.

Lemma keeps_set_input (n : nat) (field : string) (value : pyval) :
  keeps_nodes (set_input n field value).
Proof. intros st. cbn. rewrite length_alter. reflexivity. Qed.

Lemma keeps_connect (src dst : handle) : keeps_nodes (connect src dst).
Proof. intros st. reflexivity. Qed.

Lemma keeps_pool_mem (key : string) : keeps_nodes (pool_mem key).
Proof. intros st. reflexivity. Qed.

Lemma keeps_pool_item (key : string) : keeps_nodes (pool_item key).
Proof. intros st. reflexivity. Qed.

Lemma keeps_pool_set (key : string) (h : handle) : keeps_nodes (pool_set key h).
Proof. intros st. reflexivity. Qed.

Lemma keeps_as_handle (r : resource) : keeps_nodes (as_handle r).
Proof. destruct r; intros st; reflexivity. Qed.

Lemma keeps_transform_item (transforms : resource) (key : string) :
  keeps_nodes (transform_item transforms key).
Proof.
  destruct transforms as [h|t]; cbn [transform_item].
  - apply keeps_raise.
  - destruct (t !! key); [apply keeps_ret|apply keeps_raise].
Qed.

Lemma keeps_bind {A B} (m : build A) (k : A -> build B) :
  keeps_nodes m -> (forall a, keeps_nodes (k a)) -> keeps_nodes (m ≫= k).
Proof.
  intros Hm Hk st. unfold mbind, build_bind.
  specialize (Hm st). destruct (m st) as [st1 [a|e]]; cbn [fst] in *.
  - specialize (Hk a st1). lia.
  - exact Hm.
Qed.

Hint Resolve keeps_ret keeps_raise keeps_lift keeps_new_node keeps_set_input
  keeps_connect keeps_pool_mem keeps_pool_item keeps_pool_set keeps_as_handle
  keeps_transform_item : keeps.

Ltac keeps_steps :=
  repeat (first [ apply keeps_bind; [|intros ?] | solve [auto with keeps] ]).

Lemma keeps_connect_from_pool (key : string) (dst : handle) :
  keeps_nodes (connect_from_pool key dst).
Proof. unfold connect_from_pool. keeps_steps. Qed.

Lemma keeps_connect_transform (transforms : resource) (key : string)
  (dst : handle) :
  keeps_nodes (connect_transform transforms key dst).
Proof. unfold connect_transform. keeps_steps. Qed.

Lemma keeps_selector_item (selector : list (string * pyval)) (key : string) :
  keeps_nodes (selector_item selector key).
Proof. apply keeps_lift. Qed.

Hint Resolve keeps_connect_from_pool keeps_connect_transform
  keeps_selector_item : keeps.

(** The assignment that ends every builder. *)
Lemma binds_pool_set (key : string) (n : nat) (output : string) :
  binds_to key n (pool_set key (n, output)).
Proof.
  intros st st' [] Hrun Hn. unfold pool_set in Hrun. injection Hrun as <-.
  cbn [pool nodes]. split; [exists output; reflexivity|exact Hn].
Qed.

(** Work on the node before the assignment. *)
Lemma binds_bind {A B} (key : string) (n : nat) (m : build A)
  (k : A -> build B) :
  quiet m -> keeps_nodes m -> (forall a, binds_to key n (k a)) ->
  binds_to key n (m ≫= k).
Proof.
  intros Hquiet Hkeeps Hk st st' b Hrun Hn.
  apply ok_bind in Hrun. destruct Hrun as (st1 & a & Hm & Hrun).
  specialize (Hquiet st). specialize (Hkeeps st).
  rewrite Hm in Hquiet, Hkeeps. cbn [fst] in Hquiet, Hkeeps.
  destruct Hquiet as [Hpool _].
  destruct (Hk a st1 st' b Hrun) as [[output Hset] Hn']; [lia|].
  split; [|exact Hn']. exists output. rewrite Hset, Hpool. reflexivity.
Qed.

(** A builder that starts with its node. *)
Lemma builds_new_node {B} (key interface name : string)
  (k : nat -> build B) :
  (forall n, binds_to key n (k n)) ->
  builds key (new_node interface name ≫= k).
Proof.
  intros Hk st st' b Hrun.
  apply ok_bind in Hrun. destruct Hrun as (st1 & n & Hnode & Hrun).
  unfold new_node in Hnode. injection Hnode as <- <-.
  destruct (Hk _ _ st' b Hrun) as [[output Hset] Hn].
  - cbn [nodes]. rewrite length_app. cbn [length]. lia.
  - exists (length (nodes st)), output. cbn [pool] in Hset.
    split; [exact Hset|]. split; [lia|exact Hn].
Qed.

(** A builder that starts with a look into the pool. *)
Lemma builds_pool_item {B} (key item : string) (k : resource -> build B) :
  (forall r, builds key (k r)) -> builds key (pool_item item ≫= k).
Proof.
  intros Hk st st' b Hrun.
  apply ok_bind in Hrun. destruct Hrun as (st1 & r & Hitem & Hrun).
  unfold pool_item in Hitem. injection Hitem as <- _.
  exact (Hk r st st' b Hrun).
Qed.

Ltac binds_steps :=
  repeat (first [ apply binds_pool_set
                | apply binds_bind;
                  [solve [quiet_steps]|solve [keeps_steps]|intros ?] ]).

Lemma builds_functional_variance (mask_key node_mask_key : string) :
  builds mask_key
    (build_functional_variance regressor_selector mask_key node_mask_key).
Proof.
  unfold build_functional_variance.
  apply builds_new_node. intros n. binds_steps.
Qed.

Lemma builds_cerebrospinal_fluid (mask_key : string) :
  builds mask_key (build_cerebrospinal_fluid use_ants mask_key).
Proof.
  unfold build_cerebrospinal_fluid.
  apply builds_pool_item. intros transforms.
  apply builds_new_node. intros n.
  do 3 (apply binds_bind; [solve [quiet_steps]|solve [keeps_steps]|intros ?]).
  apply binds_bind;
    [destruct use_ants; quiet_steps|destruct use_ants; keeps_steps|intros ?].
  binds_steps.
Qed.

Lemma builds_resolution (mask_key node_mask_key prev_mask_key : string) :
  builds mask_key
    (build_resolution format_value regressor_selector
       mask_key node_mask_key prev_mask_key).
Proof.
  unfold build_resolution.
  apply builds_new_node. intros n.
  apply binds_bind; [solve [quiet_steps]|solve [keeps_steps]|intros value].
  apply binds_bind; [| |intros ?; binds_steps].
  - repeat match goal with
           | |- quiet (match ?x with _ => _ end) => destruct x
           end; quiet_steps.
  - repeat match goal with
           | |- keeps_nodes (match ?x with _ => _ end) => destruct x
           end; keeps_steps.
Qed.

Lemma builds_erosion (mask_key node_mask_key prev_mask_key : string) :
  builds mask_key (build_erosion mask_key node_mask_key prev_mask_key).
Proof.
  unfold build_erosion.
  apply builds_new_node. intros n. binds_steps.
Qed.

(** A builder removes no node, whether it returns or raises. *)
Lemma keeps_tissue (mask_key node_mask_key : string) :
  keeps_nodes (build_tissue regressor_selector use_ants mask_key node_mask_key).
Proof.
  unfold build_tissue, build_functional_variance, build_cerebrospinal_fluid.
  destruct (String.prefix "FunctionalVariance" mask_key); [keeps_steps|].
  destruct (mask_key =? "CerebrospinalFluid")%string; [|apply keeps_ret].
  do 5 (apply keeps_bind; [solve [keeps_steps]|intros ?]).
  apply keeps_bind; [destruct use_ants; keeps_steps|intros ?].
  keeps_steps.
Qed.

Lemma keeps_resolution (mask_key node_mask_key prev_mask_key : string) :
  keeps_nodes (build_resolution format_value regressor_selector
                 mask_key node_mask_key prev_mask_key).
Proof.
  unfold build_resolution.
  do 2 (apply keeps_bind; [solve [keeps_steps]|intros ?]).
  apply keeps_bind; [|intros ?; keeps_steps].
  repeat match goal with
         | |- keeps_nodes (match ?x with _ => _ end) => destruct x
         end; keeps_steps.
Qed.

Lemma keeps_erosion (mask_key node_mask_key prev_mask_key : string) :
  keeps_nodes (build_erosion mask_key node_mask_key prev_mask_key).
Proof. unfold build_erosion. keeps_steps. Qed.

Lemma keeps_mask_step (steps : list string) (step_i : nat) (step : string) :
  keeps_nodes (mask_step format_value regressor_descriptor regressor_selector
                 use_ants steps step_i step).
Proof.
  unfold mask_step.
  apply keeps_bind; [apply keeps_pool_mem|intros present].
  destruct present; [apply keeps_ret|].
  apply keeps_bind;
    [destruct (step =? "tissue")%string; [apply keeps_tissue|apply keeps_ret]
    |intros ?].
  apply keeps_bind;
    [destruct (step =? "resolution")%string;
       [apply keeps_resolution|apply keeps_ret]
    |intros ?].
  destruct (step =? "erosion")%string; [apply keeps_erosion|apply keeps_ret].
Qed.

Lemma keeps_mask_steps (steps todo : list string) :
  forall step_i,
    keeps_nodes (mask_steps format_value regressor_descriptor
                   regressor_selector use_ants steps step_i todo).
Proof.
  induction todo as [|step todo IH]; intros step_i; cbn [mask_steps].
  - apply keeps_ret.
  - apply keeps_bind; [apply keeps_mask_step|intros ?; apply IH].
Qed.

(** One turn of the loop that returns, for a key that is not in the pool:
    with a builder for the step the key is bound to an output of a node
    made in the turn and the rest of the pool is as it was; without one
    nothing at all has changed. *)
Lemma mask_step_builds (steps : list string) (step_i : nat) (step : string)
  (st st' : state) :
  mask_step format_value regressor_descriptor regressor_selector use_ants
    steps step_i step st = (st', Ok ()) ->
  pool st !! key_of regressor_descriptor steps (step_i + 1) = None ->
  if has_builder step (key_of regressor_descriptor steps (step_i + 1))
  then exists n output,
         pool st'
         = <[key_of regressor_descriptor steps (step_i + 1)
             := Artifact (n, output)]> (pool st)
         /\ (length (nodes st) <= n < length (nodes st'))%nat
  else st' = st.
Proof.
  intros Hrun Habsent. unfold mask_step in Hrun.
  set (mask_key := key_of regressor_descriptor steps (step_i + 1)) in *.
  apply ok_bind in Hrun. destruct Hrun as (st1 & present & Hmem & Hrun).
  unfold pool_mem in Hmem. injection Hmem as <- <-.
  rewrite Habsent in Hrun.
  rewrite bool_decide_eq_false_2 in Hrun by (intros [x Hx]; discriminate).
  apply ok_bind in Hrun. destruct Hrun as (st1 & [] & Htissue & Hrun).
  apply ok_bind in Hrun. destruct Hrun as (st2 & [] & Hresolution & Herosion).
  unfold has_builder.
  destruct (String.eqb_spec step "tissue") as [->|Htis].
  - cbn [String.eqb Ascii.eqb Bool.eqb orb andb] in *.
    injection Hresolution as <-. injection Herosion as <-.
    unfold build_tissue in Htissue.
    destruct (String.prefix "FunctionalVariance" mask_key); cbn [orb].
    + exact (builds_functional_variance _ _ _ _ _ Htissue).
    + destruct (mask_key =? "CerebrospinalFluid")%string.
      * exact (builds_cerebrospinal_fluid _ _ _ _ Htissue).
      * injection Htissue as <-. reflexivity.
  - injection Htissue as <-. cbn [andb orb]. rewrite orb_false_r.
    destruct (String.eqb_spec step "resolution") as [->|Hres].
    + cbn [String.eqb Ascii.eqb Bool.eqb orb] in *.
      injection Herosion as <-.
      exact (builds_resolution _ _ _ _ _ _ Hresolution).
    + injection Hresolution as <-. cbn [orb].
      destruct (step =? "erosion")%string.
      * exact (builds_erosion _ _ _ _ _ _ Herosion).
      * injection Herosion as <-. reflexivity.
Qed.

(** An entry of the pool stays as it is through the loop, whether the
    loop returns or raises. *)
Lemma mask_steps_keep_entries (steps todo : list string) (step_i : nat)
  (st : state) (k : string) (r : resource) :
  pool st !! k = Some r ->
  pool (mask_steps format_value regressor_descriptor regressor_selector
          use_ants steps step_i todo st).1 !! k = Some r.
Proof.
  intros Hk.
  destruct (mask_steps_effect steps todo step_i st)
    as (new & _ & _ & Hnew & Hold).
  rewrite Hold; [exact Hk|].
  intros Hin. destruct (Hnew k Hin) as (_ & Hnone & _). congruence.
Qed.

Lemma generate_keeps_entries (st : state) (k : string) (r : resource) :
  pool st !! k = Some r ->
  pool (generate_summarize_tissue_mask format_value regressor_descriptor
          regressor_selector use_ants st).1 !! k = Some r.
Proof.
  intros Hk.
  destruct (generate_effect st)
    as (new & _ & _ & Hnew & Hold).
  rewrite Hold; [exact Hk|].
  intros Hin. destruct (Hnew k Hin) as (_ & Hnone & _). congruence.
Qed.

(** The loop that returns: every key that was not in the pool and whose
    step has a builder is bound to an output of a node made on the way. *)
Lemma mask_steps_build (steps : list string) (todo : list string) :
  forall (step_i : nat) (st st' : state),
    mask_steps format_value regressor_descriptor regressor_selector use_ants
      steps step_i todo st = (st', Ok ()) ->
    forall (i : nat) (step : string),
      todo !! i = Some step ->
      pool st !! key_of regressor_descriptor steps (step_i + i + 1) = None ->
      has_builder step (key_of regressor_descriptor steps (step_i + i + 1))
      = true ->
      built_since st st' (key_of regressor_descriptor steps (step_i + i + 1)).
Proof.
  induction todo as [|first todo IH];
    intros step_i st st' Hrun i step Hstep Habsent Hbuilder;
    [discriminate|].
  cbn [mask_steps] in Hrun.
  apply ok_bind in Hrun. destruct Hrun as (st1 & [] & Hfirst & Hrest).
  pose proof (keeps_mask_step steps step_i first st) as Hkeep1.
  rewrite Hfirst in Hkeep1. cbn [fst] in Hkeep1.
  pose proof (keeps_mask_steps steps todo (step_i + 1) st1) as Hkeep2.
  rewrite Hrest in Hkeep2. cbn [fst] in Hkeep2.
  pose proof (mask_steps_keep_entries steps todo (step_i + 1) st1) as Hkept.
  rewrite Hrest in Hkept. cbn [fst] in Hkept.
  destruct i as [|i].
  - cbn in Hstep. injection Hstep as ->.
    rewrite Nat.add_0_r in *.
    pose proof (mask_step_builds steps step_i step st st1 Hfirst Habsent)
      as Hbuilt.
    rewrite Hbuilder in Hbuilt. destruct Hbuilt as (n & output & Hset & Hn).
    exists n, output. split; [|lia].
    apply Hkept. rewrite Hset. apply lookup_insert_eq.
  - cbn in Hstep.
    replace (step_i + S i + 1)%nat with (step_i + 1 + i + 1)%nat in * by lia.
    set (k := key_of regressor_descriptor steps (step_i + 1 + i + 1)) in *.
    destruct (pool st1 !! k) as [r|] eqn:Hk1.
    + (* the first turn has bound the key itself *)
      destruct (pool st !! key_of regressor_descriptor steps (step_i + 1))
        as [r0|] eqn:Hfirst_key.
      * rewrite (mask_step_present steps step_i first st) in Hfirst
          by (rewrite Hfirst_key; eexists; reflexivity).
        injection Hfirst as <-. congruence.
      * pose proof (mask_step_builds steps step_i first st st1 Hfirst
                      Hfirst_key) as Hbuilt.
        destruct (has_builder first _).
        -- destruct Hbuilt as (n & output & Hset & Hn).
           rewrite Hset in Hk1.
           destruct (decide (key_of regressor_descriptor steps (step_i + 1)
                             = k)) as [Heq|Hne].
           ++ rewrite Heq in Hk1. rewrite lookup_insert_eq in Hk1.
              injection Hk1 as <-.
              exists n, output. split; [|lia].
              apply Hkept. rewrite Hset, Heq. apply lookup_insert_eq.
           ++ rewrite lookup_insert_ne in Hk1 by exact Hne. congruence.
        -- subst st1. congruence.
    + destruct (IH (step_i + 1)%nat st1 st' Hrest i step Hstep Hk1 Hbuilder)
        as (n & output & Hset & Hn).
      exists n, output. split; [exact Hset|lia].
Qed.

End TissueMaskFacts.

Lemma registrations_absent (key : string) (l : list string) :
  key ∉ l -> length (List.filter (String.eqb key) l) = 0%nat.
Proof.
  induction l as [|x l IH]; intros Hk; [reflexivity|].
  cbn [List.filter].
  destruct (String.eqb_spec key x) as [->|Hne].
  - exfalso. apply Hk. apply elem_of_cons. left. reflexivity.
  - apply IH. intros Hin. apply Hk. apply elem_of_cons. right. exact Hin.
Qed.

Lemma registrations_once (key : string) (l : list string) :
  NoDup l -> key ∈ l -> length (List.filter (String.eqb key) l) = 1%nat.
Proof.
  induction 1 as [|x l Hx Hnodup IH]; intros Hk; [inversion Hk|].
  cbn [List.filter].
  destruct (String.eqb_spec key x) as [->|Hne].
  - cbn [length]. rewrite registrations_absent by exact Hx. reflexivity.
  - apply IH. apply elem_of_cons in Hk. destruct Hk; [contradiction|assumption].
Qed.

(** C2.  Every prefix shared by two selections is claimed to resolve to
    one cached artifact, built by exactly one builder.  A tissue that is
    neither FunctionalVariance-prefixed nor CerebrospinalFluid has no
    builder: with the tissue WhiteMatter and a pool that does not hold
    it, the first selection returns its key with nothing built and
    nothing cached, and a second selection that shares the prefix and
    erodes it raises [KeyError] for the prefix. *)
Lemma shared_tissue_prefix_is_not_built :
  let eroded := <["erosion" := "Eroded"]> Examples.white_matter_only in
  TissueMask.generate_summarize_tissue_mask Examples.format_value
    Examples.white_matter_only Examples.selector_2mm true Examples.empty_state
  = (Examples.empty_state, Py.Ok "WhiteMatter")
  /\ TissueMask.prefix_keys Examples.white_matter_only = ["WhiteMatter"]
  /\ TissueMask.prefix_keys eroded = ["WhiteMatter"; "WhiteMatter_Eroded"]
  /\ (TissueMask.generate_summarize_tissue_mask Examples.format_value
        eroded Examples.selector_2mm true Examples.empty_state).2
     = Py.Raise (Py.KeyError "WhiteMatter")
  /\ TissueMask.pool
       (TissueMask.generate_summarize_tissue_mask Examples.format_value
          eroded Examples.selector_2mm true Examples.empty_state).1
     !! "WhiteMatter" = None.
Proof. repeat split; vm_compute; reflexivity. Qed.

(** C2, as the code has it.  The first selection is resolved by a call
    that returns, from [st0] to [st1]; the second call starts from [st1]
    and ends, by a return or by an exception, in [st2].

    - A turn of the loop that returns and whose prefix key is in the pool
      changes nothing.  When the key is not in the pool, a step that has
      a builder binds the key, before the next turn, to an output of a
      node made in the turn and leaves the rest of the pool as it was; a
      step that has none (a tissue the tissue branch does not know)
      changes nothing.
    - After the first call every prefix key that was not in the pool and
      whose step has a builder is bound to an output of a node made by
      the call.
    - No call, returning or raising, removes or overwrites an entry.
    - A prefix key shared by the two selections, in the pool at first or
      with a builder in the first selection, is bound after the first
      call and bound to the identical artifact after the second; the
      turn of the second call for it changes nothing (no node, no edge,
      no entry), and over the two calls the key is assigned once when
      the pool did not have it at first and never when it did. *)
Theorem derivation_cache_builds_absent_prefixes_once
  (format_value : Py.pyval -> string)
  (descriptor1 descriptor2 : gmap string string)
  (selector1 selector2 : list (string * Py.pyval))
  (use_ants1 use_ants2 : bool)
  (st0 st1 : TissueMask.state) (full_mask_key : string) :
  TissueMask.generate_summarize_tissue_mask format_value
    descriptor1 selector1 use_ants1 st0 = (st1, Py.Ok full_mask_key) ->
  let steps1 := TissueMask.steps_of descriptor1 in
  let steps2 := TissueMask.steps_of descriptor2 in
  let st2 :=
    (TissueMask.generate_summarize_tissue_mask format_value
       descriptor2 selector2 use_ants2 st1).1 in
  (forall (steps : list string) (step_i : nat) (step : string)
          (s s' : TissueMask.state),
      TissueMask.mask_step format_value descriptor1 selector1 use_ants1
        steps step_i step s = (s', Py.Ok ()) ->
      let k := TissueMask.key_of descriptor1 steps (step_i + 1) in
      (is_Some (TissueMask.pool s !! k) -> s' = s)
      /\ (TissueMask.pool s !! k = None ->
          TissueMask.has_builder step k = true ->
          exists n output,
            TissueMask.pool s'
            = <[k := TissueMask.Artifact (n, output)]> (TissueMask.pool s)
            /\ (length (TissueMask.nodes s) <= n
                < length (TissueMask.nodes s'))%nat)
      /\ (TissueMask.pool s !! k = None ->
          TissueMask.has_builder step k = false -> s' = s))
  /\ (forall (i : nat) (step : string),
         steps1 !! i = Some step ->
         let k := TissueMask.key_of descriptor1 steps1 (i + 1) in
         TissueMask.pool st0 !! k = None ->
         TissueMask.has_builder step k = true ->
         TissueMask.built_since st0 st1 k)
  /\ (forall (s : TissueMask.state) (k : string) (r : TissueMask.resource),
         TissueMask.pool s !! k = Some r ->
         TissueMask.pool
           (TissueMask.generate_summarize_tissue_mask format_value
              descriptor1 selector1 use_ants1 s).1 !! k = Some r
         /\ TissueMask.pool
              (TissueMask.generate_summarize_tissue_mask format_value
                 descriptor2 selector2 use_ants2 s).1 !! k = Some r)
  /\ (forall (i j : nat) (step : string),
         steps1 !! i = Some step ->
         (j < length steps2)%nat ->
         TissueMask.key_of descriptor1 steps1 (i + 1)
         = TissueMask.key_of descriptor2 steps2 (j + 1) ->
         let k := TissueMask.key_of descriptor1 steps1 (i + 1) in
         is_Some (TissueMask.pool st0 !! k)
         \/ TissueMask.has_builder step k = true ->
         exists r,
           TissueMask.pool st1 !! k = Some r
           /\ TissueMask.pool st2 !! k = Some r
           /\ (TissueMask.pool st0 !! k = None ->
               TissueMask.built_since st0 st1 k)
           /\ (let before :=
                 (TissueMask.mask_steps format_value descriptor2 selector2
                    use_ants2 steps2 0 (take j steps2) st1).1 in
               TissueMask.mask_step format_value descriptor2 selector2
                 use_ants2 steps2 j (nth j steps2 "") before
               = (before, Py.Ok ()))
           /\ TissueMask.registrations k st2
              = (TissueMask.registrations k st0
                 + match TissueMask.pool st0 !! k with
                   | Some _ => 0
                   | None => 1
                   end)%nat).
Proof.
  intros Hrun1 steps1 steps2 st2.
  assert (Hbuilt : forall (i : nat) (step : string),
             steps1 !! i = Some step ->
             TissueMask.pool st0
             !! TissueMask.key_of descriptor1 steps1 (i + 1) = None ->
             TissueMask.has_builder step
               (TissueMask.key_of descriptor1 steps1 (i + 1)) = true ->
             TissueMask.built_since st0 st1
               (TissueMask.key_of descriptor1 steps1 (i + 1))).
  { intros i step Hstep Habsent Hbuilder.
    unfold TissueMask.generate_summarize_tissue_mask in Hrun1.
    apply ok_bind in Hrun1. destruct Hrun1 as (s & [] & Hloop & Hret).
    injection Hret as <- _.
    exact (mask_steps_build format_value descriptor1 selector1 use_ants1
             steps1 steps1 0 st0 s Hloop i step Hstep Habsent Hbuilder). }
  assert (Hst1 : st1 = (TissueMask.generate_summarize_tissue_mask format_value
                          descriptor1 selector1 use_ants1 st0).1)
    by (rewrite Hrun1; reflexivity).
  split; [|split; [exact Hbuilt|split]].
  - intros steps step_i step s s' Hstep k. split; [|split].
    + intros Hpresent.
      rewrite (mask_step_present format_value descriptor1 selector1 use_ants1
                 steps step_i step s Hpresent) in Hstep.
      injection Hstep as <-. reflexivity.
    + intros Habsent Hbuilder.
      pose proof (mask_step_builds format_value descriptor1 selector1
                    use_ants1 steps step_i step s s' Hstep Habsent) as H.
      fold k in H. rewrite Hbuilder in H. exact H.
    + intros Habsent Hbuilder.
      pose proof (mask_step_builds format_value descriptor1 selector1
                    use_ants1 steps step_i step s s' Hstep Habsent) as H.
      fold k in H. rewrite Hbuilder in H. exact H.
  - intros s k r Hk. split; apply generate_keeps_entries; exact Hk.
  - intros i j step Hstep Hj Hshared k Hresolved.
    assert (Hk1 : exists r, TissueMask.pool st1 !! k = Some r).
    { destruct (TissueMask.pool st0 !! k) as [r|] eqn:Hk0.
      - exists r. rewrite Hst1. apply generate_keeps_entries. exact Hk0.
      - destruct Hresolved as [[r Hr]|Hbuilder]; [discriminate|].
        destruct (Hbuilt i step Hstep Hk0 Hbuilder) as (n & output & Hset & _).
        eexists. exact Hset. }
    destruct Hk1 as [r Hk1]. exists r.
    split; [exact Hk1|].
    split; [apply generate_keeps_entries; exact Hk1|].
    split.
    { intros Hk0. destruct Hresolved as [[r0 Hr0]|Hbuilder]; [congruence|].
      exact (Hbuilt i step Hstep Hk0 Hbuilder). }
    split.
    { intros before. apply mask_step_present.
      fold steps2. rewrite <- Hshared. fold k.
      exists r. unfold before. apply mask_steps_keep_entries. exact Hk1. }
    pose proof (generate_effect format_value descriptor1 selector1 use_ants1
                  st0) as Heffect1.
    pose proof (generate_effect format_value descriptor2 selector2 use_ants2
                  st1) as Heffect2.
    rewrite <- Hst1 in Heffect1. fold st2 in Heffect2.
    destruct Heffect1 as (new1 & Hreg1 & Hnodup1 & Hnew1 & Hold1).
    destruct Heffect2 as (new2 & Hreg2 & Hnodup2 & Hnew2 & Hold2).
    assert (Hnot2 : k ∉ new2).
    { intros Hin. destruct (Hnew2 k Hin) as (_ & Hnone & _). congruence. }
    unfold TissueMask.registrations. rewrite Hreg2, Hreg1.
    rewrite !List.filter_app, !length_app.
    rewrite (registrations_absent k new2 Hnot2), Nat.add_0_r.
    f_equal.
    destruct (TissueMask.pool st0 !! k) as [r0|] eqn:Hk0.
    + apply registrations_absent. intros Hin.
      destruct (Hnew1 k Hin) as (_ & Hnone & _). congruence.
    + apply registrations_once; [exact Hnodup1|].
      destruct (decide (k ∈ new1)) as [Hin|Hout]; [exact Hin|].
      rewrite (Hold1 k Hout) in Hk1. congruence.
Qed.

(** White matter at 2mm, then white matter at 2mm eroded, against a pool
    that holds the white matter mask: the first call makes node 1 and
    binds the key of the shared prefix to its output; the second call
    finds it, and binds the key of the eroded mask to an output of the
    node it makes. *)
Lemma derivation_cache_builds_absent_prefixes_once_witness :
  let st1 :=
    (TissueMask.generate_summarize_tissue_mask Examples.format_value
       Examples.white_matter_2mm Examples.selector_2mm true
       Examples.base_state).1 in
  let st2 :=
    (TissueMask.generate_summarize_tissue_mask Examples.format_value
       Examples.white_matter_2mm_eroded Examples.selector_2mm true st1).1 in
  TissueMask.built_since Examples.base_state st1 "WhiteMatter_2mm"
  /\ TissueMask.pool st1 !! "WhiteMatter_2mm"
     = Some (TissueMask.Artifact (1%nat, "out_file"))
  /\ TissueMask.pool st2 !! "WhiteMatter_2mm"
     = Some (TissueMask.Artifact (1%nat, "out_file"))
  /\ TissueMask.registrations "WhiteMatter_2mm" st2 = 1%nat
  /\ length (TissueMask.nodes Examples.base_state) = 1%nat
  /\ length (TissueMask.nodes st1) = 2%nat
  /\ length (TissueMask.nodes st2) = 3%nat.
Proof.
  intros st1 st2.
  assert (Hrun1 : TissueMask.generate_summarize_tissue_mask
                    Examples.format_value Examples.white_matter_2mm
                    Examples.selector_2mm true Examples.base_state
                  = (st1, Py.Ok "WhiteMatter_2mm"))
    by (vm_compute; reflexivity).
  destruct (derivation_cache_builds_absent_prefixes_once Examples.format_value
              Examples.white_matter_2mm Examples.white_matter_2mm_eroded
              Examples.selector_2mm Examples.selector_2mm true true
              Examples.base_state st1 "WhiteMatter_2mm" Hrun1)
    as (_ & Hbuilt & _ & Hshared).
  assert (Hfirst : TissueMask.built_since Examples.base_state st1
                     "WhiteMatter_2mm").
  { apply (Hbuilt 1%nat "resolution"); vm_compute; reflexivity. }
  split; [exact Hfirst|].
  destruct (Hshared 1%nat 1%nat "resolution") as (r & H1 & H2 & _ & _ & Hcount).
  - vm_compute; reflexivity.
  - vm_compute. lia.
  - vm_compute; reflexivity.
  - right. vm_compute; reflexivity.
  - assert (Hr : TissueMask.pool st1 !! "WhiteMatter_2mm"
                 = Some (TissueMask.Artifact (1%nat, "out_file")))
      by (vm_compute; reflexivity).
    split; [exact Hr|].
    split.
    { change (TissueMask.key_of Examples.white_matter_2mm
                (TissueMask.steps_of Examples.white_matter_2mm) (1 + 1))
        with "WhiteMatter_2mm" in H1, H2.
      assert (Heq : r = TissueMask.Artifact (1%nat, "out_file"))
        by congruence.
      rewrite <- Heq. exact H2. }
    split; [exact Hcount|].
    repeat split; vm_compute; reflexivity.
Defined.

(** C3.  A tissue key that is neither FunctionalVariance-prefixed nor
    CerebrospinalFluid is claimed to raise a configuration error.  With
    the tissue WhiteMatter and an empty pool the call returns the key and
    leaves the workflow and the pool as they were. *)
Lemma unmatched_tissue_raises_nothing :
  TissueMask.generate_summarize_tissue_mask Examples.format_value
    Examples.white_matter_only Examples.selector_2mm true Examples.empty_state
  = (Examples.empty_state, Py.Ok "WhiteMatter").
Proof. vm_compute. reflexivity. Qed.

(** C3, as the code has it.  The tissue turn of the loop for a key that
    neither starts with FunctionalVariance nor equals CerebrospinalFluid
    raises nothing, creates no node and leaves the pool, and the whole
    state, as it was -- whether or not the key is in the pool. *)
Theorem unmatched_tissue_step_changes_nothing
  (format_value : Py.pyval -> string)
  (regressor_descriptor : gmap string string)
  (regressor_selector : list (string * Py.pyval)) (use_ants : bool)
  (steps : list string) (step_i : nat) (st : TissueMask.state) :
  String.prefix "FunctionalVariance"
    (TissueMask.key_of regressor_descriptor steps (step_i + 1)) = false ->
  TissueMask.key_of regressor_descriptor steps (step_i + 1)
  <> "CerebrospinalFluid" ->
  TissueMask.mask_step format_value regressor_descriptor regressor_selector
    use_ants steps step_i "tissue" st
  = (st, Py.Ok ()).
Proof.
  intros Hprefix Hcsf. unfold TissueMask.mask_step.
  unfold mbind at 1. unfold TissueMask.build_bind at 1.
  unfold TissueMask.pool_mem.
  destruct (bool_decide _); [reflexivity|].
  cbn [String.eqb Ascii.eqb Bool.eqb]. unfold TissueMask.build_tissue.
  rewrite Hprefix.
  destruct (String.eqb_spec
              (TissueMask.key_of regressor_descriptor steps (step_i + 1))
              "CerebrospinalFluid") as [Heq|_]; [contradiction|].
  reflexivity.
Qed.

Lemma unmatched_tissue_step_changes_nothing_witness :
  TissueMask.mask_step Examples.format_value Examples.white_matter_only
    Examples.selector_2mm true ["tissue"] 0 "tissue" Examples.empty_state
  = (Examples.empty_state, Py.Ok ()).
Proof.
  apply (unmatched_tissue_step_changes_nothing Examples.format_value
           Examples.white_matter_only Examples.selector_2mm true
           ["tissue"] 0 Examples.empty_state).
  - reflexivity.
  - discriminate.
Defined.

(* ===================================================================== *)
(** * Properties of [summarize_timeseries]                               *)
(* ===================================================================== *)

Section SummaryFacts.
Import Py Summary.

Variable norm2 : array2 -> Q.
Variable svd_u : array2 -> array2.

Lemma mean0_length (a : array2) : length (mean0 a) = ncols a.
Proof. unfold mean0. rewrite length_map, length_seq. reflexivity. Qed.

(** The two sibling methods average over the voxels: one value per time
    point. *)
Lemma mean_one_value_per_timepoint (f : functional) (masks : list (list Q)) :
  exists v,
    summarize_timeseries norm2 svd_u f masks (PStr "Mean") = Ok (Vector v)
    /\ length v = nt f.
Proof.
  eexists. split; [reflexivity|]. apply mean0_length.
Qed.

Lemma norm_mean_one_value_per_timepoint (f : functional)
  (masks : list (list Q)) :
  exists v,
    summarize_timeseries norm2 svd_u f masks (PStr "NormMean") = Ok (Vector v)
    /\ length v = nt f.
Proof.
  eexists. split; [reflexivity|]. apply mean0_length.
Qed.

(** [DetrendNormMean] transposes the block before it averages: one value
    per selected voxel. *)
Lemma detrend_norm_mean_length (f : functional) (masks : list (list Q)) :
  exists v,
    summarize_timeseries norm2 svd_u f masks (PStr "DetrendNormMean")
    = Ok (Vector v)
    /\ length v = nrows (masked_block f masks).
Proof.
  eexists. split; [reflexivity|]. apply mean0_length.
Qed.



End SummaryFacts.


(** C8.  [DetrendNormMean] is claimed to return the mean over the selected
    voxels, one value per time point.  For every input it returns one
    value per selected voxel, the block being transposed before the mean
    is taken; [Mean] and [NormMean], which do the same without the
    transposition, return one value per time point.  On
    [Examples.two_voxel_run], two voxels over three time points, the
    result has two values. *)
Theorem detrend_norm_mean_one_value_per_voxel :
  (forall (norm2 : Summary.array2 -> Q)
          (svd_u : Summary.array2 -> Summary.array2)
          (f : Summary.functional) (masks : list (list Q)),
      exists v,
        Summary.summarize_timeseries norm2 svd_u f masks
          (Py.PStr "DetrendNormMean") = Py.Ok (Summary.Vector v)
        /\ length v = Summary.nrows (Summary.masked_block f masks))
  /\ (forall (norm2 : Summary.array2 -> Q)
             (svd_u : Summary.array2 -> Summary.array2),
         exists v,
           Summary.summarize_timeseries norm2 svd_u
             Examples.two_voxel_run Examples.two_voxel_mask
             (Py.PStr "DetrendNormMean") = Py.Ok (Summary.Vector v)
           /\ length v = 2%nat
           /\ Summary.nt Examples.two_voxel_run = 3%nat).
Proof.
  split.
  - intros norm2 svd_u f masks. apply detrend_norm_mean_length.
  - intros norm2 svd_u.
    destruct (detrend_norm_mean_length norm2 svd_u
                Examples.two_voxel_run Examples.two_voxel_mask)
      as [v [Hrun Hlen]].
    exists v. split; [exact Hrun|]. split; [exact Hlen|reflexivity].
Qed.




(* ===================================================================== *)
(** * Properties of [NuisanceRegressor.__repr__]                         *)
(* ===================================================================== *)

(** C7.  The token of a tissue type is claimed to hold the resolution
    after the tissue code.  For white matter at 2mm, eroded, the code
    formats the resolution (the text is 2.00E) and drops it: the token is
    the tissue code, the summary code and the derivative suffix. *)
Theorem repr_drops_extraction_resolution :
  Regressor.resolution_text Examples.eroded_white_matter = Some "2.00E"
  /\ Regressor.__repr__
       [("WhiteMatter", Py.PDict Examples.eroded_white_matter)]
     = Some "WM-M-S".
Proof. split; vm_compute; reflexivity. Qed.


Section RegressorFacts.
Import Py Regressor.

(** ** Lookups do not depend on the insertion order *)

Lemma dict_get_permutation (d d' : list (string * pyval)) (key : string) :
  NoDup (List.map fst d) -> Permutation d d' ->
  dict_get d' key = dict_get d key.
Proof.
  intros Hnodup Hperm. revert Hnodup.
  induction Hperm as [|[k v] d d' Hperm IH|[k1 v1] [k2 v2] d|d d' d'' H1 IH1 H2 IH2];
    intros Hnodup.
  - reflexivity.
  - cbn [dict_get]. cbn [List.map fst] in Hnodup.
    apply NoDup_cons in Hnodup as [_ Hnodup].
    rewrite (IH Hnodup). reflexivity.
  - cbn [dict_get]. cbn [List.map fst] in Hnodup.
    apply NoDup_cons in Hnodup as [Hk2 _].
    destruct (String.eqb_spec k1 key) as [->|H1];
      destruct (String.eqb_spec k2 key) as [->|H2]; try reflexivity.
    exfalso. apply Hk2. apply elem_of_cons. left. reflexivity.
  - rewrite IH2, IH1; [reflexivity|exact Hnodup|].
    rewrite <- (Permutation_map fst H1). exact Hnodup.
Qed.

(** [__repr__] reads the selector through [dict_get] only. *)
Lemma repr_ext (selector selector' : list (string * pyval)) :
  (forall key, dict_get selector' key = dict_get selector key) ->
  __repr__ selector' = __repr__ selector.
Proof.
  intros Hget. unfold __repr__.
  rewrite (mapM_ext (representation selector') (representation selector));
    [reflexivity|].
  intros reg. unfold representation. rewrite Hget. reflexivity.
Qed.

(** ** The order on the types of the thresholds *)

Lemma ltb_irrefl (a : string) : String.ltb a a = false.
Proof.
  unfold String.ltb.
  destruct (String.compare a a) eqn:E; try reflexivity.
  pose proof (String.compare_antisym a a) as H. rewrite E in H. discriminate.
Qed.

Lemma ltb_trans (a b c : string) :
  String.ltb a b = true -> String.ltb b c = true -> String.ltb a c = true.
Proof.
  unfold String.ltb. intros Hab Hbc.
  destruct (String.compare a b) eqn:Eab; try discriminate.
  destruct (String.compare b c) eqn:Ebc; try discriminate.
  apply OrderedTypeEx.String_as_OT.cmp_lt in Eab, Ebc.
  pose proof (OrderedTypeEx.String_as_OT.lt_trans _ _ _ Eab Ebc) as Hac.
  apply OrderedTypeEx.String_as_OT.cmp_lt in Hac.
  unfold OrderedTypeEx.String_as_OT.cmp in Hac. rewrite Hac. reflexivity.
Qed.

Lemma ltb_total (a b : string) :
  a <> b -> String.ltb a b = true \/ String.ltb b a = true.
Proof.
  intros Hne. unfold String.ltb.
  rewrite (String.compare_antisym b a).
  destruct (String.compare a b) eqn:E; cbn; auto.
  apply String.compare_eq_iff in E. contradiction.
Qed.

Lemma ltb_asym (a b : string) :
  String.ltb a b = true -> String.ltb b a = false.
Proof.
  intros Hab. destruct (String.ltb b a) eqn:Hba; [|reflexivity].
  pose proof (ltb_trans _ _ _ Hab Hba) as H. rewrite ltb_irrefl in H.
  discriminate.
Qed.

(** ** The stable sort on items of distinct keys *)

Lemma insert_descending_comm {A} (x y : string * A) (l : list (string * A)) :
  fst x <> fst y ->
  insert_descending x (insert_descending y l)
  = insert_descending y (insert_descending x l).
Proof.
  intros Hne.
  assert (Horder : (String.ltb (fst x) (fst y) = true
                    /\ String.ltb (fst y) (fst x) = false)
                   \/ (String.ltb (fst y) (fst x) = true
                       /\ String.ltb (fst x) (fst y) = false)).
  { destruct (ltb_total _ _ Hne) as [H|H]; [left|right];
      (split; [exact H|apply ltb_asym; exact H]). }
  induction l as [|z l IH].
  - cbn [insert_descending].
    destruct Horder as [[Hxy Hyx]|[Hyx Hxy]]; rewrite Hxy, Hyx; reflexivity.
  - cbn [insert_descending].
    destruct (String.ltb (fst x) (fst z)) eqn:Hxz;
      destruct (String.ltb (fst y) (fst z)) eqn:Hyz;
      cbn [insert_descending]; rewrite ?Hxz, ?Hyz.
    + rewrite IH. reflexivity.
    + (* x goes past z and y does not: x is below y *)
      destruct Horder as [[Hxy Hyx]|[Hyx Hxy]].
      * rewrite Hxy. reflexivity.
      * exfalso. pose proof (ltb_trans _ _ _ Hyx Hxz). congruence.
    + destruct Horder as [[Hxy Hyx]|[Hyx Hxy]].
      * exfalso. pose proof (ltb_trans _ _ _ Hxy Hyz). congruence.
      * rewrite Hyx. reflexivity.
    + destruct Horder as [[Hxy Hyx]|[Hyx Hxy]]; rewrite Hxy, Hyx;
        cbn [insert_descending]; rewrite ?Hxz, ?Hyz; reflexivity.
Qed.

Lemma sorted_descending_permutation {A} (l l' : list (string * A)) :
  NoDup (List.map fst l) -> Permutation l l' ->
  sorted_descending l' = sorted_descending l.
Proof.
  intros Hnodup Hperm. revert Hnodup.
  induction Hperm as [|x l l' Hperm IH|x y l|l l' l'' H1 IH1 H2 IH2];
    intros Hnodup.
  - reflexivity.
  - cbn [sorted_descending fold_right].
    cbn [List.map] in Hnodup. apply NoDup_cons in Hnodup as [_ Hnodup].
    unfold sorted_descending in IH. rewrite (IH Hnodup). reflexivity.
  - cbn [sorted_descending fold_right].
    cbn [List.map] in Hnodup. apply NoDup_cons in Hnodup as [Hy _].
    apply insert_descending_comm.
    intros Heq. apply Hy. rewrite Heq. apply elem_of_cons. left. reflexivity.
  - rewrite IH2, IH1; [reflexivity|exact Hnodup|].
    rewrite <- (Permutation_map fst H1). exact Hnodup.
Qed.

(** The keyed thresholds of a permuted list: both fail, or both succeed
    with permuted results. *)
Lemma keyed_thresholds_permutation (l l' : list pyval) :
  Permutation l l' ->
  match keyed_thresholds l, keyed_thresholds l' with
  | Some k, Some k' => Permutation k k'
  | None, None => True
  | _, _ => False
  end.
Proof.
  unfold keyed_thresholds.
  induction 1 as [|x l l' Hperm IH|x y l|l l' l'' H1 IH1 H2 IH2].
  - cbn. constructor.
  - cbn [mapM]. cbn [mbind option_bind].
    destruct (threshold_type x) as [t|]; cbn [mbind option_bind mret option_ret];
      [|exact I].
    destruct (mapM _ l) as [k|], (mapM _ l') as [k'|];
      cbn [mbind option_bind mret option_ret]; try exact IH.
    constructor. exact IH.
  - cbn [mapM]. cbn [mbind option_bind].
    destruct (threshold_type x) as [tx|], (threshold_type y) as [ty|];
      cbn [mbind option_bind mret option_ret]; try exact I.
    destruct (mapM _ l) as [k|]; cbn [mbind option_bind mret option_ret];
      [constructor|exact I].
  - destruct (mapM _ l) as [k|], (mapM _ l') as [k'|], (mapM _ l'') as [k''|];
      try contradiction; try exact I.
    eapply Permutation_trans; eassumption.
Qed.

Lemma keyed_thresholds_keys (l : list pyval) (k : list (string * pyval)) :
  keyed_thresholds l = Some k ->
  List.map threshold_type l = List.map (fun kv => Some (fst kv)) k.
Proof.
  unfold keyed_thresholds. revert k.
  induction l as [|x l IH]; intros k Hk.
  - cbn in Hk. injection Hk as <-. reflexivity.
  - cbn [mapM] in Hk. cbn [mbind option_bind] in Hk.
    destruct (threshold_type x) as [t|] eqn:Ht;
      cbn [mbind option_bind mret option_ret] in Hk; [|discriminate].
    destruct (mapM _ l) as [k0|];
      cbn [mbind option_bind mret option_ret] in Hk; [|discriminate].
    injection Hk as <-. cbn [List.map fst]. rewrite Ht, (IH k0 eq_refl).
    reflexivity.
Qed.

(** The sorted thresholds of a list of distinct types do not depend on
    its order. *)
Lemma sorted_thresholds_permutation (l l' : list pyval) :
  distinct_types l -> Permutation l l' ->
  (sorted_descending <$> keyed_thresholds l')
  = (sorted_descending <$> keyed_thresholds l).
Proof.
  intros Hdistinct Hperm.
  pose proof (keyed_thresholds_permutation l l' Hperm) as Hkeyed.
  destruct (keyed_thresholds l) as [k|] eqn:Hk,
           (keyed_thresholds l') as [k'|]; try contradiction; [|reflexivity].
  cbn [fmap option_fmap option_map]. f_equal.
  apply sorted_descending_permutation; [|exact Hkeyed].
  unfold distinct_types in Hdistinct.
  rewrite (keyed_thresholds_keys l k Hk) in Hdistinct.
  rewrite <- (map_map fst Some) in Hdistinct.
  apply (NoDup_fmap_1 Some). exact Hdistinct.
Qed.

End RegressorFacts.

Section RegressorOrder.
Import Py Regressor.

Lemma dict_get_set_eq (d : list (string * pyval)) (key : string) (x v : pyval) :
  dict_get d key = Some x -> dict_get (dict_set d key v) key = Some v.
Proof.
  induction d as [|[k y] d IH]; intros Hget; [discriminate|].
  cbn [dict_get dict_set] in *.
  destruct (String.eqb_spec k key) as [->|Hne].
  - cbn [dict_get]. rewrite String.eqb_refl. reflexivity.
  - cbn [dict_get]. destruct (String.eqb_spec k key); [contradiction|].
    apply IH. exact Hget.
Qed.

Lemma dict_get_set_ne (d : list (string * pyval)) (key key' : string)
  (v : pyval) :
  key' <> key -> dict_get (dict_set d key v) key' = dict_get d key'.
Proof.
  intros Hne. induction d as [|[k y] d IH]; [reflexivity|].
  cbn [dict_get dict_set].
  destruct (String.eqb_spec k key) as [->|Hk]; cbn [dict_get].
  - destruct (String.eqb_spec key key'); [congruence|reflexivity].
  - rewrite IH. reflexivity.
Qed.

Lemma flag_set_ne (d : list (string * pyval)) (key key' : string) (v : pyval) :
  key' <> key -> flag (dict_set d key v) key' = flag d key'.
Proof. intros Hne. unfold flag. rewrite dict_get_set_ne by exact Hne. reflexivity. Qed.

(** The pieces of the Censor token when the thresholds are replaced by a
    permutation of distinct types. *)
Lemma censor_pieces_permutation (censor : list (string * pyval))
  (ths ths' : list pyval) :
  dict_get censor "thresholds" = Some (PList ths) ->
  distinct_types ths -> Permutation ths ths' ->
  pieces_of "Censor" (PDict (dict_set censor "thresholds" (PList ths')))
  = pieces_of "Censor" (PDict censor).
Proof.
  intros Hths Hdistinct Hperm.
  pose proof (sorted_thresholds_permutation ths ths' Hdistinct Hperm) as Hsorted.
  unfold pieces_of.
  change (bool_decide ("Censor" ∈ tissues)) with false.
  cbn [String.eqb Ascii.eqb Bool.eqb as_dict mbind option_bind].
  unfold trs.
  rewrite !flag_set_ne by discriminate.
  rewrite (dict_get_set_ne _ _ "method") by discriminate.
  rewrite (dict_get_set_ne _ _ "number_of_previous_trs_to_remove")
    by discriminate.
  rewrite (dict_get_set_ne _ _ "number_of_subsequent_trs_to_remove")
    by discriminate.
  rewrite (dict_get_set_eq _ _ _ _ Hths), Hths.
  destruct (dict_get censor "method") as [method|]; [|reflexivity].
  cbn [mbind option_bind].
  destruct (table_item censoring method) as [code|]; [|reflexivity].
  cbn [mbind option_bind].
  destruct (if flag censor "number_of_previous_trs_to_remove" then _ else _)
    as [previous|]; [|reflexivity].
  cbn [mbind option_bind].
  destruct (if flag censor "number_of_subsequent_trs_to_remove" then _ else _)
    as [subsequent|]; [|reflexivity].
  cbn [mbind option_bind iterate_thresholds].
  destruct (keyed_thresholds ths) as [k|], (keyed_thresholds ths') as [k'|];
    cbn [fmap option_fmap option_map] in Hsorted; try discriminate;
    [|reflexivity].
  injection Hsorted as Hsorted.
  cbn [mbind option_bind]. rewrite Hsorted. reflexivity.
Qed.

(** The selector with its Censor entry replaced reads as before at every
    other type. *)
Lemma repr_censor_replaced (selector censor censor' : list (string * pyval)) :
  dict_get selector "Censor" = Some (PDict censor) ->
  pieces_of "Censor" (PDict censor') = pieces_of "Censor" (PDict censor) ->
  __repr__ (dict_set selector "Censor" (PDict censor')) = __repr__ selector.
Proof.
  intros Hcensor Hpieces. unfold __repr__.
  rewrite (mapM_ext
             (representation (dict_set selector "Censor" (PDict censor')))
             (representation selector)); [reflexivity|].
  intros [r code]. unfold representation. cbn [fst snd].
  destruct (String.eqb_spec r "Censor") as [->|Hne].
  - rewrite (dict_get_set_eq _ _ _ _ Hcensor), Hcensor, Hpieces. reflexivity.
  - rewrite dict_get_set_ne by exact Hne. reflexivity.
Qed.

End RegressorOrder.

(** C4.  The output is claimed not to change when the Censor thresholds
    list is permuted.  The sort on the type of the thresholds is stable:
    two thresholds of one type come out in the order they were given. *)
Lemma repr_keeps_order_of_equal_types :
  Permutation [Examples.fd_1sd; Examples.fd_2sd]
              [Examples.fd_2sd; Examples.fd_1sd]
  /\ Regressor.__repr__
       (Examples.censor_with [Examples.fd_1sd; Examples.fd_2sd])
     = Some "C-K-0+0-FD1SD-FD2SD"
  /\ Regressor.__repr__
       (Examples.censor_with [Examples.fd_2sd; Examples.fd_1sd])
     = Some "C-K-0+0-FD2SD-FD1SD".
Proof.
  split; [apply perm_swap|]. split; vm_compute; reflexivity.
Qed.

(** C4, as the code has it.  [__repr__] is a function of the selector, so
    two calls on one selector give one output.  Its output (a string, or
    an exception) does not depend on the order in which the keys of the
    selector were inserted, and does not change when the Censor thresholds
    list is permuted provided the thresholds have pairwise distinct
    types. *)
Theorem repr_order_independent :
  (forall (selector selector' : list (string * Py.pyval)),
      NoDup (List.map fst selector) ->
      Permutation selector selector' ->
      Regressor.__repr__ selector' = Regressor.__repr__ selector)
  /\ (forall (selector censor : list (string * Py.pyval))
             (ths ths' : list Py.pyval),
         Py.dict_get selector "Censor" = Some (Py.PDict censor) ->
         Py.dict_get censor "thresholds" = Some (Py.PList ths) ->
         Regressor.distinct_types ths ->
         Permutation ths ths' ->
         Regressor.__repr__
           (Regressor.dict_set selector "Censor"
              (Py.PDict (Regressor.dict_set censor "thresholds"
                           (Py.PList ths'))))
         = Regressor.__repr__ selector).
Proof.
  split.
  - intros selector selector' Hnodup Hperm.
    apply repr_ext. intros key.
    apply dict_get_permutation; assumption.
  - intros selector censor ths ths' Hcensor Hths Hdistinct Hperm.
    apply (repr_censor_replaced selector censor _ Hcensor).
    apply (censor_pieces_permutation censor ths ths' Hths Hdistinct Hperm).
Qed.

(** Motion and Censor given in either order, the FD and DVARS thresholds
    given in either order: one string. *)
Lemma repr_order_independent_witness :
  Regressor.__repr__
    (("Motion", Py.PDict [("include_delayed", Py.PBool true)])
     :: Examples.censor_with [Examples.dvars_half; Examples.fd_1sd])
  = Some "M-D_C-K-0+0-FD1SD-DV0.5"
  /\ Regressor.__repr__
       (Examples.censor_with [Examples.fd_1sd; Examples.dvars_half]
        ++ [("Motion", Py.PDict [("include_delayed", Py.PBool true)])])%list
     = Some "M-D_C-K-0+0-FD1SD-DV0.5".
Proof.
  destruct repr_order_independent as [Hkeys Hthresholds].
  assert (Hfirst :
    Regressor.__repr__
      (("Motion", Py.PDict [("include_delayed", Py.PBool true)])
       :: Examples.censor_with [Examples.dvars_half; Examples.fd_1sd])
    = Some "M-D_C-K-0+0-FD1SD-DV0.5") by (vm_compute; reflexivity).
  split; [exact Hfirst|].
  transitivity
    (Regressor.__repr__
       (("Motion", Py.PDict [("include_delayed", Py.PBool true)])
        :: Examples.censor_with [Examples.fd_1sd; Examples.dvars_half])).
  { apply Hkeys.
    - apply (bool_decide_unpack _). vm_compute. exact I.
    - cbn. apply perm_swap. }
  rewrite <- Hfirst.
  apply (Hthresholds
           (("Motion", Py.PDict [("include_delayed", Py.PBool true)])
            :: Examples.censor_with [Examples.dvars_half; Examples.fd_1sd])
           [("method", Py.PStr "Kill");
            ("thresholds", Py.PList [Examples.dvars_half; Examples.fd_1sd])]
           [Examples.dvars_half; Examples.fd_1sd]
           [Examples.fd_1sd; Examples.dvars_half]
           eq_refl eq_refl).
  - apply (bool_decide_unpack _). vm_compute. exact I.
  - apply perm_swap.
Defined.

(* ===================================================================== *)
(** * Further properties of [find_offending_time_points]                 *)
(* ===================================================================== *)

Section CensorWindows.
Import Py Censor.

Lemma zmem_In (x : Z) (l : list Z) : zmem x l = true <-> In x l.
Proof.
  unfold zmem. rewrite existsb_exists. split.
  - intros [y [Hy Heq]]. apply Z.eqb_eq in Heq. subst y. exact Hy.
  - intros Hx. exists x. split; [exact Hx|apply Z.eqb_refl].
Qed.

Lemma In_zrange (x a b : Z) : In x (zrange a b) <-> (a <= x < b)%Z.
Proof.
  unfold zrange. rewrite in_map_iff. split.
  - intros [i [<- Hi]]. apply in_seq in Hi. lia.
  - intros Hx. exists (Z.to_nat (x - a)). split; [lia|].
    apply in_seq. lia.
Qed.

Lemma In_insert_unique (x y : Z) (l : list Z) :
  In x (insert_unique y l) <-> x = y \/ In x l.
Proof.
  induction l as [|z l IH]; cbn [insert_unique].
  - cbn. intuition.
  - destruct (y <? z)%Z; [cbn; intuition|].
    destruct (y =? z)%Z eqn:Heq.
    + apply Z.eqb_eq in Heq. subst z. cbn. intuition.
    + cbn [In]. rewrite IH. intuition.
Qed.

Lemma In_np_unique (x : Z) (l : list Z) : In x (np_unique l) <-> In x l.
Proof.
  unfold np_unique. induction l as [|y l IH]; cbn [fold_right].
  - reflexivity.
  - rewrite In_insert_unique, IH. cbn. intuition.
Qed.

(** The censored points are the points of the run that lie in the window
    of an offending point. *)
Lemma In_extended_censors (offending : list Z) (len : nat) (prev subs t : Z) :
  In t (extended_censors offending len prev subs)
  <-> (0 <= t < Z.of_nat len)%Z
      /\ exists c, In c offending /\ (c - prev <= t <= c + subs)%Z.
Proof.
  unfold extended_censors.
  rewrite filter_In, In_np_unique, in_flat_map, andb_true_iff,
    Z.leb_le, Z.ltb_lt.
  split.
  - intros [[c [Hc Ht]] Hbounds]. split; [exact Hbounds|].
    exists c. split; [exact Hc|]. apply In_zrange in Ht. lia.
  - intros [Hbounds [c [Hc Ht]]]. split; [|exact Hbounds].
    exists c. split; [exact Hc|]. apply In_zrange. lia.
Qed.

Lemma censor_vector_length (len : nat) (censors : list Z) :
  length (censor_vector len censors) = len.
Proof.
  unfold censor_vector, zrange.
  rewrite !length_map, length_seq. lia.
Qed.

Lemma nth_censor_vector (len : nat) (censors : list Z) (t : Z) :
  (0 <= t < Z.of_nat len)%Z ->
  nth (Z.to_nat t) (censor_vector len censors) 1%Z
  = if zmem t censors then 0%Z else 1%Z.
Proof.
  intros Ht. unfold censor_vector, zrange.
  rewrite map_map.
  rewrite (nth_indep _ 1%Z
             ((fun i => if zmem (0 + Z.of_nat i) censors then 0 else 1)%Z 0%nat))
    by (rewrite length_map, length_seq; lia).
  rewrite (map_nth (fun i => if zmem (0 + Z.of_nat i) censors then 0 else 1)%Z).
  rewrite seq_nth by lia.
  replace (0 + Z.of_nat (0 + Z.to_nat t))%Z with t by lia.
  reflexivity.
Qed.

Lemma In_where_from (x : Z) (series : list Q) (c : cutoff) :
  forall i, In x (where_from i series c) -> (i <= x)%Z.
Proof.
  induction series as [|y series IH]; intros i Hx; [contradiction|].
  cbn [where_from] in Hx.
  destruct (exceeds y c).
  - destruct Hx as [<-|Hx]; [lia|]. apply IH in Hx. lia.
  - apply IH in Hx. lia.
Qed.

End CensorWindows.

(** X1.  When the function returns, the censor vector has one entry per
    time point and every entry is 0 or 1.  The number of time points is
    the length of the DVARS series (its column and the leading 0.0) when a
    DVARS file is given, also when an FD file of another length is given
    with it; it is the length of the FD series otherwise, and 0 with no
    file at all. *)
Theorem censor_vector_has_one_flag_per_time_point
  (float_of_str : string -> option Q) (fd dv : Censor.series_file)
  (fd_threshold dvars_threshold : Py.pyval) (previous subsequent : Z)
  (v : list Z) :
  Censor.find_offending_time_points float_of_str fd dv
    fd_threshold dvars_threshold previous subsequent = Py.Ok v ->
  length v
  = match dv, fd with
    | Censor.Loaded raw, _ => S (length raw)
    | _, Censor.Loaded xs => length xs
    | _, _ => 0%nat
    end
  /\ (forall x, In x v -> x = 0%Z \/ x = 1%Z).
Proof.
  unfold Censor.find_offending_time_points, Censor.offending_time_points.
  unfold mbind, Py.result_bind.
  intros Hrun.
  assert (Hvalues : forall len cs x,
             In x (Censor.censor_vector len cs) -> x = 0%Z \/ x = 1%Z).
  { intros len cs x Hx. unfold Censor.censor_vector in Hx.
    apply in_map_iff in Hx. destruct Hx as [i [<- _]].
    destruct (Censor.zmem i cs); auto. }
  destruct (Censor.fd_block float_of_str fd fd_threshold)
    as [[offending len]|e] eqn:Hfd; [|discriminate].
  destruct (Censor.dvars_block float_of_str dv dvars_threshold (offending, len))
    as [[offending' len']|e] eqn:Hdv; [|discriminate].
  injection Hrun as <-.
  split; [|apply Hvalues].
  rewrite censor_vector_length.
  unfold Censor.dvars_block in Hdv. unfold Censor.fd_block in Hfd.
  destruct dv as [| |raw].
  - injection Hdv as <- <-.
    destruct fd as [| |xs]; [injection Hfd as <- <-; reflexivity|discriminate|].
    destruct (negb (Py.truthy fd_threshold)); [discriminate|].
    destruct (Censor.resolve_threshold float_of_str xs fd_threshold);
      [|discriminate].
    injection Hfd as <- <-. reflexivity.
  - discriminate.
  - destruct (negb (Py.truthy dvars_threshold)); [discriminate|].
    destruct (Censor.resolve_threshold float_of_str (0%Q :: raw)
                dvars_threshold); [|discriminate].
    injection Hdv as <- <-. reflexivity.
Qed.

Lemma censor_vector_has_one_flag_per_time_point_witness :
  length [1; 0; 0; 0; 1]%Z = 5%nat
  /\ (forall x, In x [1; 0; 0; 0; 1]%Z -> x = 0%Z \/ x = 1%Z).
Proof.
  apply (censor_vector_has_one_flag_per_time_point Py.float_of_decimal
           (Censor.Loaded [0; 0; 5; 0; 0]%Q) Censor.NoPath
           (Py.PInt 1) Py.PNone 1 1 [1; 0; 0; 0; 1]%Z).
  reflexivity.
Defined.

(** X2.  Given the offending points the two blocks leave, the function
    returns a vector in which time point [t] is censored (0) exactly when
    it lies in the window of an offending point [c], from
    [c - number_of_previous_trs_to_remove] to
    [c + number_of_subsequent_trs_to_remove], both included; windows are
    cut at the ends of the run and may overlap. *)
Theorem censored_exactly_in_the_windows
  (float_of_str : string -> option Q) (fd dv : Censor.series_file)
  (fd_threshold dvars_threshold : Py.pyval) (previous subsequent : Z)
  (offending : list Z) (len : nat) :
  Censor.offending_time_points float_of_str fd dv fd_threshold dvars_threshold
  = Py.Ok (offending, len) ->
  exists v,
    Censor.find_offending_time_points float_of_str fd dv
      fd_threshold dvars_threshold previous subsequent = Py.Ok v
    /\ length v = len
    /\ forall t, (0 <= t < Z.of_nat len)%Z ->
         (nth (Z.to_nat t) v 1%Z = 0%Z
          <-> exists c, In c offending
                        /\ (c - previous <= t <= c + subsequent)%Z)
         /\ (nth (Z.to_nat t) v 1%Z = 0%Z \/ nth (Z.to_nat t) v 1%Z = 1%Z).
Proof.
  intros Hoffending. unfold Censor.find_offending_time_points.
  rewrite Hoffending. cbn [mbind Py.result_bind].
  eexists. split; [reflexivity|]. split; [apply censor_vector_length|].
  intros t Ht. rewrite nth_censor_vector by exact Ht.
  destruct (Censor.zmem t _) eqn:Hmem.
  - split; [|left; reflexivity]. split; [|reflexivity].
    intros _. apply zmem_In, In_extended_censors in Hmem.
    destruct Hmem as [_ Hwindow]. exact Hwindow.
  - split; [|right; reflexivity]. split; [discriminate|].
    intros Hwindow. exfalso.
    assert (Hin : Censor.zmem t
                    (Censor.extended_censors offending len previous subsequent)
                  = true).
    { apply zmem_In, In_extended_censors. split; assumption. }
    congruence.
Qed.

Lemma censored_exactly_in_the_windows_witness :
  exists v,
    Censor.find_offending_time_points Py.float_of_decimal
      (Censor.Loaded [0; 0; 5; 0; 0]%Q) Censor.NoPath (Py.PInt 1) Py.PNone 1 1
    = Py.Ok v
    /\ length v = 5%nat
    /\ forall t, (0 <= t < Z.of_nat 5)%Z ->
         (nth (Z.to_nat t) v 1%Z = 0%Z
          <-> exists c, In c [2%Z] /\ (c - 1 <= t <= c + 1)%Z)
         /\ (nth (Z.to_nat t) v 1%Z = 0%Z \/ nth (Z.to_nat t) v 1%Z = 1%Z).
Proof.
  apply (censored_exactly_in_the_windows Py.float_of_decimal
           (Censor.Loaded [0; 0; 5; 0; 0]%Q) Censor.NoPath
           (Py.PInt 1) Py.PNone 1 1 [2%Z] 5).
  reflexivity.
Defined.

(** X3.  With a DVARS file and a DVARS threshold given as a plain
    non-negative number (a number, or a text that [float] reads; not the
    SD form, which is resolved against the series), time point 0 is never
    an offending point, whatever the FD arguments are: the DVARS series
    starts with the 0.0 the function puts in front of the column, and
    with an FD series only points that DVARS flags too are kept. *)
Theorem first_time_point_never_offends_with_dvars
  (float_of_str : string -> option Q) (fd : Censor.series_file)
  (raw : list Q) (fd_threshold dvars_threshold : Py.pyval) (c : Q)
  (offending : list Z) (len : nat) :
  Censor.resolve_threshold float_of_str (0%Q :: raw) dvars_threshold
  = Some (Py.Cut c) ->
  (0 <= c)%Q ->
  Censor.offending_time_points float_of_str fd (Censor.Loaded raw)
    fd_threshold dvars_threshold = Py.Ok (offending, len) ->
  ~ In 0%Z offending.
Proof.
  intros Hc Hpos Hrun.
  assert (Hdvars : ~ In 0%Z (Censor.where_exceeds (0%Q :: raw) (Py.Cut c))).
  { unfold Censor.where_exceeds. cbn [Censor.where_from Py.exceeds].
    unfold Py.Qltb.
    assert (Hle : Qle_bool 0 c = true) by (apply Qle_bool_iff; exact Hpos).
    rewrite Hle. cbn [negb]. intros Hin.
    apply In_where_from in Hin. lia. }
  unfold Censor.offending_time_points in Hrun.
  unfold mbind, Py.result_bind in Hrun.
  destruct (Censor.fd_block float_of_str fd fd_threshold)
    as [[fd_points fd_len]|e]; [|discriminate].
  unfold Censor.dvars_block in Hrun.
  destruct (negb (Py.truthy dvars_threshold)); [discriminate|].
  rewrite Hc in Hrun. cbn [fst] in Hrun.
  destruct fd_points as [|i fd_points].
  - injection Hrun as <- <-. exact Hdvars.
  - assert (Heq : offending
                  = Censor.intersection (i :: fd_points)
                      (Censor.where_exceeds (0%Q :: raw) (Py.Cut c)))
      by congruence.
    rewrite Heq. intros Hin. unfold Censor.intersection in Hin.
    apply filter_In in Hin. destruct Hin as [_ Hmem].
    apply zmem_In in Hmem. exact (Hdvars Hmem).
Qed.

Lemma first_time_point_never_offends_with_dvars_witness :
  ~ In 0%Z [1; 2]%Z.
Proof.
  apply (first_time_point_never_offends_with_dvars Py.float_of_decimal
           (Censor.Loaded Examples.quiet_fd) Examples.loud_dvars
           (Py.PInt 1) (Py.PInt 1) 1%Q [1; 2]%Z 3).
  - reflexivity.
  - discriminate.
  - vm_compute. reflexivity.
Defined.



(* ===================================================================== *)
(** * Further properties of [create_temporal_variance_mask]              *)
(* ===================================================================== *)

Section VarianceMaskMore.
Import Py VarianceMask.

(** With an absolute threshold the number of columns, that is the flag
    [by_slice], has no effect: a voxel is kept when the mask has it and
    its variance is above the threshold. *)
Lemma output_variance_mask_absolute (tv : Q) (columns : nat)
  (mask_data : list bool) (variance : list Q) :
  output_variance_mask VAR tv columns mask_data variance
  = List.map (fun '(v, x) => nth v mask_data false && exceeds x (Cut tv))
             (combine (seq 0 (length variance)) variance).
Proof.
  unfold output_variance_mask.
  apply map_ext_in. intros [v x] Hin.
  unfold slice_threshold.
  destruct (nth v mask_data false) eqn:Hmask.
  - destruct (slice_values columns (v mod columns) mask_data variance)
      as [|y values] eqn:Hvalues; [|reflexivity].
    exfalso.
    assert (Hx : In x (slice_values columns (v mod columns) mask_data variance)).
    { unfold slice_values. apply in_map_iff. exists (v, x).
      split; [reflexivity|]. apply filter_In. split; [exact Hin|].
      unfold in_slice. rewrite Nat.eqb_refl, Hmask. reflexivity. }
    rewrite Hvalues in Hx. contradiction.
  - destruct (match slice_values columns (v mod columns) mask_data variance with
              | [] => None
              | _ :: _ => Some (Cut tv)
              end); reflexivity.
Qed.

End VarianceMaskMore.

Section VarianceMaskResults.
Import Py VarianceMask.

(** X5.  When the function returns, the result has the shape and the
    affine of the mask image, every value of it is 0 or 1, and a voxel
    that is 1 is a non-zero voxel of the mask image -- for every form of
    threshold, by slice or not. *)
Theorem created_mask_lies_within_the_mask
  (float_of_str : string -> option Q) (load : string -> option nifti)
  (functional_file_path mask_file_path : option string)
  (threshold by_slice : pyval) (out : nifti) :
  create_temporal_variance_mask float_of_str load
    functional_file_path mask_file_path threshold by_slice = Ok out ->
  exists path mask_image,
    mask_file_path = Some path
    /\ load path = Some mask_image
    /\ shape out = shape mask_image
    /\ affine out = affine mask_image
    /\ forall v,
         (nth v (data out) 0%Q = 0%Q \/ nth v (data out) 0%Q = 1%Q)
         /\ (nth v (data out) 0%Q = 1%Q ->
             Qeq_bool (nth v (data mask_image) 0%Q) 0 = false).
Proof.
  unfold create_temporal_variance_mask. intros Hrun.
  destruct (is_nifti_path functional_file_path) eqn:Hfpath;
    cbn [negb] in Hrun; [|discriminate].
  destruct (is_nifti_path mask_file_path) eqn:Hmpath;
    cbn [negb] in Hrun; [|discriminate].
  rewrite (is_nifti_path_given _ Hmpath) in Hrun.
  destruct mask_file_path as [path|]; [|discriminate].
  cbn [mbind option_bind] in Hrun.
  destruct (negb (truthy threshold)); [discriminate|].
  destruct (parse_threshold threshold) as [method value].
  destruct (to_float float_of_str value) as [tv|]; [|discriminate].
  destruct (Qltb tv 0); [discriminate|].
  destruct (method_eqb method PCT && Qle_bool 100 tv); [discriminate|].
  destruct by_slice as [|by_slice| | | | |]; try discriminate.
  destruct (functional_file_path ≫= load) as [img|]; [|discriminate].
  destruct (shape img) as [|nx [|ny [|nz [|nt [|? ?]]]]]; try discriminate.
  destruct (nt <? 3)%nat; [discriminate|].
  destruct (load path) as [mask_image|] eqn:Hload; [|discriminate].
  destruct (negb _); [discriminate|].
  cbn [mbind result_bind] in Hrun.
  injection Hrun as <-.
  exists path, mask_image. split; [reflexivity|]. split; [exact Hload|].
  cbn [shape affine data]. split; [reflexivity|]. split; [reflexivity|].
  intros v.
  set (output := output_variance_mask _ _ _ _ _).
  assert (Hnth : nth v (List.map uint8 output) 0%Q
                 = uint8 (nth v output false))
    by exact (map_nth uint8 output false v).
  rewrite Hnth.
  split.
  - destruct (nth v output false); [right|left]; reflexivity.
  - intros Hone.
    destruct (nth v output false) eqn:Hout; [|discriminate].
    apply output_variance_mask_within in Hout.
    assert (Hmask : nth v (List.map (fun x => negb (Qeq_bool x 0))
                             (data mask_image)) false
                    = negb (Qeq_bool (nth v (data mask_image) 0%Q) 0))
      by exact (map_nth (fun x => negb (Qeq_bool x 0)) (data mask_image) 0%Q v).
    rewrite Hmask in Hout.
    apply negb_true_iff in Hout. exact Hout.
Qed.

(** X6.  For a threshold that is not of the SD or PCT form (a number, or
    a string that matches neither pattern), [by_slice=True] and
    [by_slice=False] give the same outcome, mask or exception: the flag
    only matters for thresholds drawn from the distribution of the
    variance. *)
Theorem by_slice_is_irrelevant_for_absolute_thresholds
  (float_of_str : string -> option Q) (load : string -> option nifti)
  (functional_file_path mask_file_path : option string) (threshold : pyval) :
  fst (parse_threshold threshold) = VAR ->
  create_temporal_variance_mask float_of_str load
    functional_file_path mask_file_path threshold (PBool true)
  = create_temporal_variance_mask float_of_str load
      functional_file_path mask_file_path threshold (PBool false).
Proof.
  intros Hmethod. unfold create_temporal_variance_mask.
  destruct (parse_threshold threshold) as [method value].
  cbn [fst] in Hmethod. subst method.
  destruct (negb (is_nifti_path functional_file_path)); [reflexivity|].
  destruct (negb (is_nifti_path mask_file_path)); [reflexivity|].
  destruct (negb (truthy threshold)); [reflexivity|].
  destruct (to_float float_of_str value) as [tv|]; [|reflexivity].
  destruct (Qltb tv 0); [reflexivity|].
  destruct (method_eqb VAR PCT && Qle_bool 100 tv); [reflexivity|].
  destruct (functional_file_path ≫= load) as [img|]; [|reflexivity].
  destruct (shape img) as [|nx [|ny [|nz [|nt [|? ?]]]]]; try reflexivity.
  destruct (nt <? 3)%nat; [reflexivity|].
  unfold mbind at 1 3. unfold result_bind.
  destruct (if path_given mask_file_path then _ else _) as [[mask_image mask_data]|e];
    [|reflexivity].
  rewrite !output_variance_mask_absolute. reflexivity.
Qed.

(** X7.  The function raises a [ValueError] (one of its own tests) or the
    error of [nb.load], and nothing else: with the test on
    [mask_file_path] at its start, the line that reads [mask_image] at
    its end always finds it bound. *)
Theorem create_temporal_variance_mask_exceptions
  (float_of_str : string -> option Q) (load : string -> option nifti)
  (functional_file_path mask_file_path : option string)
  (threshold by_slice : pyval) (e : exn) :
  create_temporal_variance_mask float_of_str load
    functional_file_path mask_file_path threshold by_slice = Raise e ->
  e = IOError \/ exists msg, e = ValueError msg.
Proof.
  unfold create_temporal_variance_mask. intros Hrun.
  destruct (is_nifti_path functional_file_path) eqn:Hfpath;
    cbn [negb] in Hrun;
    [|injection Hrun as <-; right; eexists; reflexivity].
  destruct (is_nifti_path mask_file_path) eqn:Hmpath;
    cbn [negb] in Hrun;
    [|injection Hrun as <-; right; eexists; reflexivity].
  rewrite (is_nifti_path_given _ Hmpath) in Hrun.
  assert (Hvalue : forall msg, Raise (A := nifti) (ValueError msg) = Raise e ->
                     e = IOError \/ exists msg, e = ValueError msg).
  { intros msg Heq. injection Heq as <-. right. eexists. reflexivity. }
  assert (Hio : Raise (A := nifti) IOError = Raise e ->
                e = IOError \/ exists msg, e = ValueError msg).
  { intros Heq. injection Heq as <-. left. reflexivity. }
  destruct (negb (truthy threshold)); [exact (Hvalue _ Hrun)|].
  destruct (parse_threshold threshold) as [method value].
  destruct (to_float float_of_str value) as [tv|]; [|exact (Hvalue _ Hrun)].
  destruct (Qltb tv 0); [exact (Hvalue _ Hrun)|].
  destruct (method_eqb method PCT && Qle_bool 100 tv);
    [exact (Hvalue _ Hrun)|].
  destruct by_slice as [|by_slice| | | | |]; try exact (Hvalue _ Hrun).
  destruct (functional_file_path ≫= load) as [img|]; [|exact (Hio Hrun)].
  destruct (shape img) as [|nx [|ny [|nz [|nt [|? ?]]]]];
    try exact (Hvalue _ Hrun).
  destruct (nt <? 3)%nat; [exact (Hvalue _ Hrun)|].
  destruct (mask_file_path ≫= load) as [mask_image|]; [|exact (Hio Hrun)].
  destruct (negb _); [exact (Hvalue _ Hrun)|].
  cbn [mbind result_bind] in Hrun. discriminate Hrun.
Qed.

End VarianceMaskResults.

Lemma created_mask_lies_within_the_mask_witness :
  exists path mask_image,
    Some "mask.nii.gz" = Some path
    /\ Examples.load path = Some mask_image
    /\ [3; 1; 1]%nat = VarianceMask.shape mask_image
    /\ VarianceMask.affine Examples.whole_mask = VarianceMask.affine mask_image
    /\ forall v,
         (nth v [0; 0; 1]%Q 0%Q = 0%Q \/ nth v [0; 0; 1]%Q 0%Q = 1%Q)
         /\ (nth v [0; 0; 1]%Q 0%Q = 1%Q ->
             Qeq_bool (nth v (VarianceMask.data mask_image) 0%Q) 0 = false).
Proof.
  apply (created_mask_lies_within_the_mask Py.float_of_decimal Examples.load
           (Some "func.nii.gz") (Some "mask.nii.gz")
           (Py.PStr "50PCT") (Py.PBool false)
           {| VarianceMask.shape := [3; 1; 1]%nat;
              VarianceMask.affine := VarianceMask.affine Examples.whole_mask;
              VarianceMask.data := [0; 0; 1]%Q |}).
  vm_compute. reflexivity.
Defined.

Lemma by_slice_is_irrelevant_for_absolute_thresholds_witness :
  VarianceMask.create_temporal_variance_mask Py.float_of_decimal Examples.load
    (Some "func.nii.gz") (Some "mask.nii.gz") (Py.PFloat 1) (Py.PBool true)
  = VarianceMask.create_temporal_variance_mask Py.float_of_decimal
      Examples.load (Some "func.nii.gz") (Some "mask.nii.gz") (Py.PFloat 1)
      (Py.PBool false).
Proof.
  apply (by_slice_is_irrelevant_for_absolute_thresholds Py.float_of_decimal
           Examples.load (Some "func.nii.gz") (Some "mask.nii.gz")
           (Py.PFloat 1)).
  reflexivity.
Defined.

Lemma create_temporal_variance_mask_exceptions_witness :
  Py.ValueError VarianceMask.msg_by_slice = Py.IOError
  \/ exists msg, Py.ValueError VarianceMask.msg_by_slice = Py.ValueError msg.
Proof.
  apply (create_temporal_variance_mask_exceptions Py.float_of_decimal
           Examples.load (Some "func.nii.gz") (Some "mask.nii.gz")
           (Py.PFloat 1) (Py.PInt 1)).
  reflexivity.
Defined.

(* ===================================================================== *)
(** * Further properties of [generate_summarize_tissue_mask]             *)
(* ===================================================================== *)

Section TissueMaskMore.
Import Py TissueMask.

Ltac to_last_step H :=
  repeat (apply ok_bind in H; destruct H as (? & ? & _ & H)).

Lemma pool_set_sets (key : string) (h : handle) (st st' : state) :
  pool_set key h st = (st', Ok ()) -> is_Some (pool st' !! key).
Proof.
  unfold pool_set. intros Hrun. injection Hrun as <-.
  cbn [pool]. rewrite lookup_insert_eq. eexists. reflexivity.
Qed.

Variable format_value : pyval -> string.
Variable regressor_descriptor : gmap string string.
Variable regressor_selector : list (string * pyval).
Variable use_ants : bool.

Lemma build_resolution_sets (mask_key node_mask_key prev_mask_key : string)
  (st st' : state) :
  build_resolution format_value regressor_selector
    mask_key node_mask_key prev_mask_key st = (st', Ok ()) ->
  is_Some (pool st' !! mask_key).
Proof.
  unfold build_resolution. intros Hrun. to_last_step Hrun.
  exact (pool_set_sets _ _ _ _ Hrun).
Qed.

Lemma build_erosion_sets (mask_key node_mask_key prev_mask_key : string)
  (st st' : state) :
  build_erosion mask_key node_mask_key prev_mask_key st = (st', Ok ()) ->
  is_Some (pool st' !! mask_key).
Proof.
  unfold build_erosion. intros Hrun. to_last_step Hrun.
  exact (pool_set_sets _ _ _ _ Hrun).
Qed.

(** A resolution or erosion turn of the loop that returns leaves its key
    in the pool. *)
Lemma mask_step_sets (steps : list string) (step_i : nat) (step : string)
  (st st' : state) :
  step = "resolution" \/ step = "erosion" ->
  mask_step format_value regressor_descriptor regressor_selector use_ants
    steps step_i step st = (st', Ok ()) ->
  is_Some (pool st' !! key_of regressor_descriptor steps (step_i + 1)).
Proof.
  intros Hstep. unfold mask_step.
  unfold mbind at 1. unfold build_bind at 1. unfold pool_mem.
  destruct (bool_decide (is_Some (pool st !! _))) eqn:Hpresent.
  - intros Hrun. injection Hrun as <-.
    apply bool_decide_eq_true in Hpresent. exact Hpresent.
  - destruct Hstep as [-> | ->]; cbn [String.eqb Ascii.eqb Bool.eqb];
      intros Hrun.
    + apply ok_bind in Hrun. destruct Hrun as (st1 & [] & H1 & Hrun).
      injection H1 as <-.
      apply ok_bind in Hrun. destruct Hrun as (st2 & [] & H2 & Hrun).
      injection Hrun as <-.
      exact (build_resolution_sets _ _ _ _ _ H2).
    + apply ok_bind in Hrun. destruct Hrun as (st1 & [] & H1 & Hrun).
      injection H1 as <-.
      apply ok_bind in Hrun. destruct Hrun as (st2 & [] & H2 & Hrun).
      injection H2 as <-.
      exact (build_erosion_sets _ _ _ _ _ Hrun).
Qed.

Lemma mask_steps_sets_last (steps : list string) (step : string)
  (before : list string) :
  step = "resolution" \/ step = "erosion" ->
  forall (step_i : nat) (st st' : state),
    mask_steps format_value regressor_descriptor regressor_selector use_ants
      steps step_i (before ++ [step]) st = (st', Ok ()) ->
    is_Some (pool st'
             !! key_of regressor_descriptor steps
                  (step_i + length before + 1)).
Proof.
  intros Hstep.
  induction before as [|s before IH]; intros step_i st st' Hrun.
  - cbn [app mask_steps] in Hrun.
    apply ok_bind in Hrun. destruct Hrun as (st1 & [] & H1 & Hrun).
    injection Hrun as <-.
    cbn [length]. rewrite Nat.add_0_r.
    exact (mask_step_sets _ _ _ _ _ Hstep H1).
  - cbn [app mask_steps] in Hrun.
    apply ok_bind in Hrun. destruct Hrun as (st1 & [] & _ & Hrun).
    apply IH in Hrun. cbn [length].
    replace (step_i + S (length before) + 1)%nat
      with (step_i + 1 + length before + 1)%nat by lia.
    exact Hrun.
Qed.

(** Every turn of the loop is skipped when every key is in the pool. *)
Lemma mask_steps_all_present (steps : list string) (todo : list string) :
  forall (step_i : nat) (st : state),
    (forall j, (step_i <= j < step_i + length todo)%nat ->
               is_Some (pool st !! key_of regressor_descriptor steps (j + 1))) ->
    mask_steps format_value regressor_descriptor regressor_selector use_ants
      steps step_i todo st = (st, Ok ()).
Proof.
  induction todo as [|step todo IH]; intros step_i st Hpresent.
  - reflexivity.
  - cbn [mask_steps]. unfold mbind at 1. unfold build_bind at 1.
    rewrite mask_step_present by (apply Hpresent; cbn [length]; lia).
    apply IH. intros j Hj. apply Hpresent. cbn [length]. lia.
Qed.

(** The steps of a descriptor that has a resolution or an erosion end with
    one of the two. *)
Lemma steps_of_last :
  is_Some (regressor_descriptor !! "resolution")
  \/ is_Some (regressor_descriptor !! "erosion") ->
  exists before step,
    steps_of regressor_descriptor = (before ++ [step])%list
    /\ (step = "resolution" \/ step = "erosion").
Proof.
  intros Hsome. unfold steps_of. cbn [List.filter].
  destruct (bool_decide (is_Some (regressor_descriptor !! "tissue")));
    destruct (bool_decide (is_Some (regressor_descriptor !! "resolution")))
      eqn:Hres;
    destruct (bool_decide (is_Some (regressor_descriptor !! "erosion")))
      eqn:Hero.
  - exists ["tissue"; "resolution"], "erosion". auto.
  - exists ["tissue"], "resolution". auto.
  - exists ["tissue"], "erosion". auto.
  - apply bool_decide_eq_false in Hres, Hero. tauto.
  - exists ["resolution"], "erosion". auto.
  - exists [], "resolution". auto.
  - exists [], "erosion". auto.
  - apply bool_decide_eq_false in Hres, Hero. tauto.
Qed.

End TissueMaskMore.

(** X8.  When every prefix key of the descriptor is in the pool, the call
    is a pure cache hit: it returns the full key and leaves the workflow
    and the pool exactly as they were (no node is created, no edge added,
    no entry assigned).  A descriptor with no step at all is the extreme
    case: the key is the empty string. *)
Theorem cached_descriptor_builds_nothing
  (format_value : Py.pyval -> string)
  (regressor_descriptor : gmap string string)
  (regressor_selector : list (string * Py.pyval)) (use_ants : bool)
  (st : TissueMask.state) :
  (forall k, k ∈ TissueMask.prefix_keys regressor_descriptor ->
             is_Some (TissueMask.pool st !! k)) ->
  TissueMask.generate_summarize_tissue_mask format_value regressor_descriptor
    regressor_selector use_ants st
  = (st, Py.Ok (Py.join "_"
                  (List.map (TissueMask.fragment regressor_descriptor)
                            (TissueMask.steps_of regressor_descriptor)))).
Proof.
  intros Hpresent. unfold TissueMask.generate_summarize_tissue_mask.
  unfold mbind at 1. unfold TissueMask.build_bind at 1.
  rewrite mask_steps_all_present.
  - unfold TissueMask.key_of. rewrite firstn_all. reflexivity.
  - intros j Hj. apply Hpresent. unfold TissueMask.prefix_keys.
    apply list_elem_of_In, in_map_iff. exists j. split; [reflexivity|].
    apply in_seq. lia.
Qed.

Lemma cached_descriptor_builds_nothing_witness :
  TissueMask.generate_summarize_tissue_mask Examples.format_value
    (<["tissue" := "WhiteMatter"]> ∅) Examples.selector_2mm true
    Examples.base_state
  = (Examples.base_state,
     Py.Ok (Py.join "_"
              (List.map (TissueMask.fragment (<["tissue" := "WhiteMatter"]> ∅))
                        (TissueMask.steps_of (<["tissue" := "WhiteMatter"]> ∅))))).
Proof.
  apply (cached_descriptor_builds_nothing Examples.format_value
           (<["tissue" := "WhiteMatter"]> ∅) Examples.selector_2mm true
           Examples.base_state).
  intros k Hk.
  apply list_elem_of_singleton in Hk. subst k.
  vm_compute. eexists. reflexivity.
Defined.

(** X9.  When the call returns for a descriptor that has a resolution or
    an erosion step, the key it returns is in the pool: the caller can
    look the mask up under it.  (A descriptor with a tissue step only may
    return a key that is not in the pool.) *)
Theorem returned_key_is_in_the_pool
  (format_value : Py.pyval -> string)
  (regressor_descriptor : gmap string string)
  (regressor_selector : list (string * Py.pyval)) (use_ants : bool)
  (st st' : TissueMask.state) (full_mask_key : string) :
  is_Some (regressor_descriptor !! "resolution")
  \/ is_Some (regressor_descriptor !! "erosion") ->
  TissueMask.generate_summarize_tissue_mask format_value regressor_descriptor
    regressor_selector use_ants st = (st', Py.Ok full_mask_key) ->
  is_Some (TissueMask.pool st' !! full_mask_key).
Proof.
  intros Hsteps Hrun.
  destruct (steps_of_last regressor_descriptor Hsteps)
    as (before & step & Heq & Hstep).
  unfold TissueMask.generate_summarize_tissue_mask in Hrun.
  apply ok_bind in Hrun. destruct Hrun as (st1 & [] & Hloop & Hret).
  injection Hret as <- <-.
  rewrite Heq in Hloop at 2.
  apply (mask_steps_sets_last format_value regressor_descriptor
           regressor_selector use_ants _ step before Hstep) in Hloop.
  rewrite Heq at 2. rewrite length_app. cbn [length].
  replace (length before + 1)%nat with (0 + length before + 1)%nat by lia.
  exact Hloop.
Qed.

Lemma returned_key_is_in_the_pool_witness :
  is_Some
    (TissueMask.pool
       (TissueMask.generate_summarize_tissue_mask Examples.format_value
          Examples.white_matter_2mm Examples.selector_2mm true
          Examples.base_state).1
     !! "WhiteMatter_2mm").
Proof.
  apply (returned_key_is_in_the_pool Examples.format_value
           Examples.white_matter_2mm Examples.selector_2mm true
           Examples.base_state).
  - left. vm_compute. eexists. reflexivity.
  - vm_compute. reflexivity.
Defined.

(** X10.  An erosion turn whose key is not in the pool and whose input
    (the key of the steps before it) is not in the pool either raises
    [KeyError] for the input key; the pool and the connections of the
    workflow are unchanged. *)
Theorem erosion_without_its_input_raises_key_error
  (format_value : Py.pyval -> string)
  (regressor_descriptor : gmap string string)
  (regressor_selector : list (string * Py.pyval)) (use_ants : bool)
  (steps : list string) (step_i : nat) (st : TissueMask.state) :
  TissueMask.pool st
  !! TissueMask.key_of regressor_descriptor steps (step_i + 1) = None ->
  TissueMask.pool st
  !! TissueMask.key_of regressor_descriptor steps step_i = None ->
  exists st',
    TissueMask.mask_step format_value regressor_descriptor regressor_selector
      use_ants steps step_i "erosion" st
    = (st', Py.Raise (Py.KeyError
                        (TissueMask.key_of regressor_descriptor steps step_i)))
    /\ TissueMask.pool st' = TissueMask.pool st
    /\ TissueMask.registered st' = TissueMask.registered st
    /\ TissueMask.edges st' = TissueMask.edges st.
Proof.
  intros Hkey Hprev. unfold TissueMask.mask_step.
  unfold mbind at 1. unfold TissueMask.build_bind at 1.
  unfold TissueMask.pool_mem. rewrite Hkey.
  rewrite bool_decide_eq_false_2 by (intros [x Hx]; discriminate).
  cbn [String.eqb Ascii.eqb Bool.eqb].
  unfold TissueMask.build_erosion, TissueMask.connect_from_pool,
    TissueMask.pool_item, TissueMask.new_node, TissueMask.set_input.
  unfold mbind, mret, TissueMask.build_bind, TissueMask.build_ret.
  cbn [TissueMask.pool].
  rewrite Hprev.
  eexists. split; [reflexivity|].
  cbn [TissueMask.pool TissueMask.registered TissueMask.edges TissueMask.nodes].
  repeat split.
Qed.

Lemma erosion_without_its_input_raises_key_error_witness :
  exists st',
    TissueMask.mask_step Examples.format_value
      (<["erosion" := "Eroded"]> Examples.white_matter_only)
      Examples.selector_2mm true ["tissue"; "erosion"] 1 "erosion"
      Examples.empty_state
    = (st', Py.Raise (Py.KeyError
                        (TissueMask.key_of
                           (<["erosion" := "Eroded"]> Examples.white_matter_only)
                           ["tissue"; "erosion"] 1)))
    /\ TissueMask.pool st' = TissueMask.pool Examples.empty_state
    /\ TissueMask.registered st' = TissueMask.registered Examples.empty_state
    /\ TissueMask.edges st' = TissueMask.edges Examples.empty_state.
Proof.
  apply (erosion_without_its_input_raises_key_error Examples.format_value
           (<["erosion" := "Eroded"]> Examples.white_matter_only)
           Examples.selector_2mm true ["tissue"; "erosion"] 1
           Examples.empty_state); reflexivity.
Defined.

(* ===================================================================== *)
(** * Further properties of [summarize_timeseries]                       *)
(* ===================================================================== *)

(** Walks the comparisons of a value with the names of the methods, one
    character at a time; the goals it leaves are those of the names it
    could not settle. *)
Ltac walk_method :=
  cbn;
  first
    [ reflexivity
    | congruence
    | match goal with
      | |- context [match ?s with EmptyString => _ | String _ _ => _ end] =>
          is_var s; destruct s as [|[[] [] [] [] [] [] [] []] s]; walk_method
      end
    | idtac ].

Section SummaryMore.
Import Py Summary.

(** The sum of values none of which is negative is positive exactly when
    one of them is not zero. *)
Lemma Qsum_positive (l : list Q) :
  (forall x, In x l -> (0 <= x)%Q) ->
  (0 <= Qsum l)%Q
  /\ (Qltb 0 (Qsum l) = true <-> exists x, In x l /\ ~ (x == 0)%Q).
Proof.
  unfold Qltb.
  induction l as [|x l IH]; intros Hpos.
  - cbn. split; [apply Qle_refl|].
    split; [discriminate|intros (x & [] & _)].
  - destruct IH as [IHle IHiff]; [intros y Hy; apply Hpos; right; exact Hy|].
    assert (Hx : (0 <= x)%Q) by (apply Hpos; left; reflexivity).
    cbn [Qsum fold_right]. fold (Qsum l).
    split.
    + rewrite <- (Qplus_0_r 0). apply Qplus_le_compat; assumption.
    + rewrite negb_true_iff. rewrite negb_true_iff in IHiff.
      split.
      * intros Hsum.
        destruct (Qeq_dec x 0) as [Hzero|Hnonzero].
        -- assert (Hl : Qle_bool (Qsum l) 0 = false).
           { destruct (Qle_bool (Qsum l) 0) eqn:E; [|reflexivity].
             apply Qle_bool_iff in E.
             assert (Hle : (x + Qsum l <= 0)%Q).
             { rewrite Hzero, Qplus_0_l. exact E. }
             apply Qle_bool_iff in Hle. congruence. }
           apply IHiff in Hl. destruct Hl as (y & Hy & Hne).
           exists y. split; [right; exact Hy|exact Hne].
        -- exists x. split; [left; reflexivity|exact Hnonzero].
      * intros (y & [<-|Hy] & Hne).
        -- destruct (Qle_bool (x + Qsum l) 0) eqn:E; [|reflexivity].
           apply Qle_bool_iff in E. exfalso. apply Hne.
           apply Qle_antisym; [|exact Hx].
           apply Qle_trans with (x + Qsum l)%Q; [|exact E].
           rewrite <- (Qplus_0_r x) at 1.
           apply Qplus_le_compat; [apply Qle_refl|exact IHle].
        -- assert (Hl : Qle_bool (Qsum l) 0 = false)
             by (apply IHiff; exists y; split; assumption).
           destruct (Qle_bool (x + Qsum l) 0) eqn:E; [|reflexivity].
           apply Qle_bool_iff in E.
           assert (Hle : (Qsum l <= 0)%Q).
           { apply Qle_trans with (x + Qsum l)%Q; [|exact E].
             rewrite <- (Qplus_0_l (Qsum l)) at 1.
             apply Qplus_le_compat; [exact Hx|apply Qle_refl]. }
           apply Qle_bool_iff in Hle. congruence.
Qed.

End SummaryMore.

(** X11.  A method other than [Mean], [NormMean], [DetrendNormMean] and
    [PC] is not an error: the function writes one zero per time point,
    whatever the image and the masks.  The method [DetrendMean], which
    [_summary_params] knows by the code DM, is such a method. *)
Theorem unimplemented_method_gives_zeros
  (norm2 : Summary.array2 -> Q) (svd_u : Summary.array2 -> Summary.array2)
  (functional_img : Summary.functional) (masks : list (list Q))
  (summary method : Py.pyval) :
  Py.dict_get (Summary.summary_dict summary) "method" = Some method ->
  method <> Py.PStr "Mean" -> method <> Py.PStr "NormMean" ->
  method <> Py.PStr "DetrendNormMean" -> method <> Py.PStr "PC" ->
  Summary.summarize_timeseries norm2 svd_u functional_img masks summary
  = Py.Ok (Summary.Vector (repeat 0%Q (Summary.nt functional_img))).
Proof.
  intros Hmethod H1 H2 H3 H4.
  unfold Summary.summarize_timeseries. fold (Summary.summary_dict summary).
  unfold Py.dict_item. rewrite Hmethod. cbn [mbind Py.result_bind].
  destruct method as [| | | |s| |]; try reflexivity.
  walk_method.
Qed.

Lemma unimplemented_method_gives_zeros_witness :
  Regressor._summary_params
    (Py.PDict [("summary", Py.PStr "DetrendMean")]) = Some "DM"
  /\ Summary.summarize_timeseries Summary.unit_norm Summary.identity_columns
       Examples.two_voxel_run Examples.two_voxel_mask (Py.PStr "DetrendMean")
     = Py.Ok (Summary.Vector
                (repeat 0%Q (Summary.nt Examples.two_voxel_run))).
Proof.
  split; [reflexivity|].
  apply (unimplemented_method_gives_zeros Summary.unit_norm
           Summary.identity_columns Examples.two_voxel_run
           Examples.two_voxel_mask (Py.PStr "DetrendMean")
           (Py.PStr "DetrendMean"));
    [reflexivity|discriminate..].
Defined.

(** X12.  A summary with the method [PC] and no [components] -- in
    particular the bare text PC, which [_summary_params] accepts and
    names PC -- makes the function raise [KeyError] for [components],
    whatever the image and the masks are, as long as the masks select a
    voxel.  The key is read after the decomposition, when the components
    are sliced. *)
Theorem principal_components_need_components
  (norm2 : Summary.array2 -> Q) (svd_u : Summary.array2 -> Summary.array2)
  (functional_img : Summary.functional) (masks : list (list Q))
  (summary : Py.pyval) :
  Py.dict_get (Summary.summary_dict summary) "method" = Some (Py.PStr "PC") ->
  Py.dict_get (Summary.summary_dict summary) "components" = None ->
  (0 < Summary.nrows (Summary.masked_block functional_img masks))%nat ->
  Summary.summarize_timeseries norm2 svd_u functional_img masks summary
  = Py.Raise (Py.KeyError "components").
Proof.
  intros Hmethod Hcomponents _.
  unfold Summary.summarize_timeseries. fold (Summary.summary_dict summary).
  unfold Py.dict_item. rewrite Hmethod. cbn [mbind Py.result_bind].
  rewrite Hcomponents. reflexivity.
Qed.

Lemma principal_components_need_components_witness :
  Regressor._summary_params (Py.PDict [("summary", Py.PStr "PC")])
  = Some "PC"
  /\ Summary.summarize_timeseries Summary.unit_norm Summary.identity_columns
       Examples.two_voxel_run Examples.two_voxel_mask (Py.PStr "PC")
     = Py.Raise (Py.KeyError "components").
Proof.
  split; [reflexivity|].
  apply (principal_components_need_components Summary.unit_norm
           Summary.identity_columns Examples.two_voxel_run
           Examples.two_voxel_mask (Py.PStr "PC")).
  - reflexivity.
  - reflexivity.
  - vm_compute. lia.
Defined.

(** X13.  Masks none of whose values is negative are combined as a
    union: a voxel is selected exactly when one of the masks is not zero
    at it. *)
Theorem masks_combine_as_a_union (masks : list (list Q)) (nvoxels v : nat) :
  (forall m x, In m masks -> In x m -> (0 <= x)%Q) ->
  (v < nvoxels)%nat ->
  nth v (Summary.combine_masks masks nvoxels) false = true
  <-> exists m, In m masks /\ ~ (nth v m 0 == 0)%Q.
Proof.
  intros Hpos Hv. unfold Summary.combine_masks.
  set (selected := fun v => Py.Qltb 0 (Py.Qsum (List.map (fun m => nth v m 0%Q) masks))).
  assert (Hnth : nth v (List.map selected (seq 0 nvoxels)) false = selected v).
  { rewrite (nth_indep _ false (selected 0%nat))
      by (rewrite length_map, length_seq; exact Hv).
    rewrite (map_nth selected (seq 0 nvoxels) 0%nat v).
    rewrite seq_nth by exact Hv. reflexivity. }
  rewrite Hnth. unfold selected.
  destruct (Qsum_positive (List.map (fun m => nth v m 0%Q) masks)) as [_ Hiff].
  - intros x Hx. apply in_map_iff in Hx. destruct Hx as (m & <- & Hm).
    destruct (nth_in_or_default v m 0%Q) as [Hin|Hdefault].
    + exact (Hpos m _ Hm Hin).
    + rewrite Hdefault. apply Qle_refl.
  - rewrite Hiff. split.
    + intros (x & Hx & Hne). apply in_map_iff in Hx.
      destruct Hx as (m & <- & Hm). exists m. split; assumption.
    + intros (m & Hm & Hne). exists (nth v m 0%Q). split; [|exact Hne].
      apply in_map_iff. exists m. split; [reflexivity|exact Hm].
Qed.

Lemma masks_combine_as_a_union_witness :
  nth 1 (Summary.combine_masks Examples.one_voxel_mask 2) false = true
  <-> exists m, In m Examples.one_voxel_mask /\ ~ (nth 1 m 0 == 0)%Q.
Proof.
  apply (masks_combine_as_a_union Examples.one_voxel_mask 2 1).
  - intros m x [<-|[]] [<-|[<-|[]]]; vm_compute; discriminate.
  - lia.
Defined.

(* ===================================================================== *)
(** * Further properties of [NuisanceRegressor.__repr__]                 *)
(* ===================================================================== *)

Section RegressorMore.
Import Py Regressor.

Lemma mapM_ext_in {A B} (f g : A -> option B) (l : list A) :
  (forall x, In x l -> f x = g x) -> mapM f l = mapM g l.
Proof.
  induction l as [|x l IH]; intros Hext; [reflexivity|].
  cbn [mapM]. rewrite (Hext x) by (left; reflexivity).
  rewrite IH by (intros y Hy; apply Hext; right; exact Hy).
  reflexivity.
Qed.

Lemma mapM_none {A B} (f : A -> option B) (l : list A) (x : A) :
  In x l -> f x = None -> mapM f l = None.
Proof.
  intros Hin Hnone.
  induction l as [|y l IH]; [contradiction|].
  cbn [mapM]. destruct Hin as [->|Hin].
  - rewrite Hnone. reflexivity.
  - rewrite IH by exact Hin. destruct (f y); reflexivity.
Qed.

(** A type whose token cannot be built makes the whole name fail. *)
Lemma repr_fails (selector : list (string * pyval)) (r : string) (s : pyval) :
  In r (List.map fst regs) ->
  dict_get selector r = Some s ->
  pieces_of r s = None ->
  __repr__ selector = None.
Proof.
  intros Hr Hs Hpieces. unfold __repr__.
  apply in_map_iff in Hr. destruct Hr as ([r' code] & <- & Hreg).
  rewrite (mapM_none (representation selector) regs (r', code) Hreg);
    [reflexivity|].
  unfold representation. cbn [fst snd] in *. rewrite Hs, Hpieces. reflexivity.
Qed.

Lemma summary_params_none (d : list (string * pyval)) :
  dict_get d "summary" = None -> _summary_params (PDict d) = None.
Proof.
  intros Hnone. unfold _summary_params. cbn [as_dict mbind option_bind].
  rewrite Hnone. reflexivity.
Qed.

End RegressorMore.

(** Runs through the steps of a token up to the one that fails. *)
Ltac fail_through :=
  repeat first
    [ reflexivity
    | discriminate
    | match goal with
      | |- @mbind _ _ _ _ _ ?m = None => destruct m; simpl
      end ].

(** X15.  The name depends on the selector through the ten types of
    [regs] only: two selectors that agree on these ten keys have the same
    name (or both fail).  Any other key, the keys [Global] and [BandPass]
    that the branches test for among them, is never read. *)
Theorem repr_reads_the_ten_types_only
  (selector selector' : list (string * Py.pyval)) :
  (forall r, In r (List.map fst Regressor.regs) ->
             Py.dict_get selector' r = Py.dict_get selector r) ->
  Regressor.__repr__ selector' = Regressor.__repr__ selector.
Proof.
  intros Hget. unfold Regressor.__repr__.
  rewrite (mapM_ext_in (Regressor.representation selector')
             (Regressor.representation selector)); [reflexivity|].
  intros reg Hreg. unfold Regressor.representation.
  rewrite Hget by (apply in_map; exact Hreg). reflexivity.
Qed.

Lemma repr_reads_the_ten_types_only_witness :
  Regressor.__repr__
    (("BandPass", Py.PDict [("top_frequency", Py.PStr "high")])
       :: ("Global", Py.PNone) :: Examples.filtered_selector)
  = Regressor.__repr__ Examples.filtered_selector.
Proof.
  apply (repr_reads_the_ten_types_only Examples.filtered_selector
           (("BandPass", Py.PDict [("top_frequency", Py.PStr "high")])
              :: ("Global", Py.PNone) :: Examples.filtered_selector)).
  intros r Hr. cbn in Hr.
  repeat (destruct Hr as [<-|Hr]; [reflexivity|]). contradiction.
Defined.

(** X16.  The parameters of the global signal and of the band-pass
    filter never reach the name: whatever value replaces the one stored
    under [GlobalSignal] or [Bandpass], a dict or not, the name is the
    same.  (The branches that would format them test for the keys
    [Global] and [BandPass], which are not keys of [regs].) *)
Theorem repr_ignores_global_signal_and_bandpass_parameters
  (selector : list (string * Py.pyval)) (r : string) (s s' : Py.pyval) :
  r = "GlobalSignal" \/ r = "Bandpass" ->
  Py.dict_get selector r = Some s ->
  Regressor.__repr__ (Regressor.dict_set selector r s')
  = Regressor.__repr__ selector.
Proof.
  intros Hr Hs. unfold Regressor.__repr__.
  rewrite (mapM_ext (Regressor.representation (Regressor.dict_set selector r s'))
                    (Regressor.representation selector)); [reflexivity|].
  intros [r' code]. unfold Regressor.representation. cbn [fst snd].
  destruct (String.eqb_spec r' r) as [->|Hne].
  - rewrite (dict_get_set_eq selector r s s' Hs), Hs.
    destruct Hr as [-> | ->]; reflexivity.
  - rewrite dict_get_set_ne by exact Hne. reflexivity.
Qed.

Lemma repr_ignores_global_signal_and_bandpass_parameters_witness :
  Regressor.__repr__
    (Regressor.dict_set Examples.filtered_selector "Bandpass"
       (Py.PDict [("bottom_frequency", Py.PFloat (1 # 2));
                  ("top_frequency", Py.PInt 40)]))
  = Regressor.__repr__ Examples.filtered_selector.
Proof.
  apply (repr_ignores_global_signal_and_bandpass_parameters
           Examples.filtered_selector "Bandpass"
           (Py.PDict [("bottom_frequency", Py.PFloat (1 # 100));
                      ("top_frequency", Py.PFloat (1 # 10))])).
  - right. reflexivity.
  - reflexivity.
Defined.

(** X17.  The keys a type cannot do without: [summary] for the three
    tissues, [tCompCor] and [aCompCor], [degree] for [PolyOrt], [method]
    and [thresholds] for [Censor].  When the descriptor of such a type
    is a dict without the key, [__repr__] raises. *)
Theorem repr_fails_without_required_key
  (selector : list (string * Py.pyval)) (r key : string)
  (d : list (string * Py.pyval)) :
  In (r, key)
     [("GreyMatter", "summary"); ("WhiteMatter", "summary");
      ("CerebrospinalFluid", "summary"); ("tCompCor", "summary");
      ("aCompCor", "summary"); ("PolyOrt", "degree");
      ("Censor", "method"); ("Censor", "thresholds")] ->
  Py.dict_get selector r = Some (Py.PDict d) ->
  Py.dict_get d key = None ->
  Regressor.__repr__ selector = None.
Proof.
  intros Hrequired Hs Hnone.
  apply (repr_fails selector r (Py.PDict d)); [|exact Hs|].
  - cbn in Hrequired. cbn.
    repeat (destruct Hrequired as [Heq|Hrequired];
            [injection Heq as <- <-; tauto|]).
    contradiction.
  - cbn in Hrequired.
    repeat (destruct Hrequired as [Heq|Hrequired];
            [injection Heq as <- <-|]); try contradiction;
      unfold Regressor.pieces_of;
      match goal with
      | |- context [bool_decide ?P] =>
          let E := fresh "E" in
          destruct (bool_decide P) eqn:E; vm_compute in E; try discriminate E
      end;
      cbn [String.eqb Ascii.eqb Bool.eqb Regressor.as_dict];
      try rewrite (summary_params_none d Hnone);
      simpl; rewrite ?Hnone; simpl; fail_through.
Qed.

Lemma repr_fails_without_required_key_witness :
  Regressor.__repr__ [("WhiteMatter", Py.PDict [("erode_mask", Py.PBool true)])]
  = None.
Proof.
  apply (repr_fails_without_required_key
           [("WhiteMatter", Py.PDict [("erode_mask", Py.PBool true)])]
           "WhiteMatter" "summary" [("erode_mask", Py.PBool true)]).
  - right. left. reflexivity.
  - reflexivity.
  - reflexivity.
Defined.
